(** * text2img-service: the page pool and render pipeline of [src/render.js]

    A shallow embedding of the rendering core: the template caches
    ([getTemplate], [renderTemplate], [clearTemplateCache]), the page pool
    ([createPage], [acquirePage], [releasePage], [prewarmPagePool]) and the
    pipeline ([render]).

    Puppeteer, EJS and the file system are external.  Every call into
    puppeteer is recorded in a call log and its outcome (fulfilled or
    rejected, and the value it yields) is supplied by an oracle, so that the
    theorems hold whatever the engine answers. *)

From Stdlib Require Import ZArith List String Bool Lia.
From stdpp Require Import base gmap sets list strings.

Local Open Scope Z_scope.
Set Warnings "-clear-no-such-hyp".

(** ** Configuration (the [CONFIG] object) *)

Record Config := {
  PAGE_POOL_SIZE : nat;
  MAX_CONCURRENT : nat;
  PREWARM_PAGES : bool;
  CACHE_TEMPLATES : bool;
  PRECOMPILE_TEMPLATES : bool
}.

Definition CONFIG : Config := {|
  PAGE_POOL_SIZE := 16;
  MAX_CONCURRENT := 16;
  PREWARM_PAGES := true;
  CACHE_TEMPLATES := true;
  PRECOMPILE_TEMPLATES := true
|}.

(** ** Engine data *)

(** A puppeteer [Page] object, by identity: pages are numbered in the order
    [browser.newPage()] hands them out. *)
Definition page := nat.

Record Viewport := {
  width : Z;
  height : Z;
  deviceScaleFactor : Z
}.

Record Clip := {
  clip_x : Z;
  clip_y : Z;
  clip_width : Z;
  clip_height : Z
}.

Record ScreenshotOptions := {
  type : string;
  clip : Clip;
  omitBackground : bool
}.

Definition Buffer := list Byte.byte.

(** The calls the module makes into puppeteer, with their arguments. *)
Inductive EngineCall :=
| Launch
| NewPage
| SetRequestInterception (p : page) (enabled : bool)
| SetViewport (p : page) (v : Viewport)
| SetContent (p : page) (html : string) (waitUntil : string)
| WaitForFunction (p : page) (timeout : Z)
| EvaluateBoundingBox (p : page)
| Screenshot (p : page) (o : ScreenshotOptions)
| EvaluateClearBody (p : page)
| Close (p : page).

Inductive error :=
| TemplateNotFound (templateName : string)
| TemplateError (message : string)
| TypeError (message : string)
| EngineFailure (c : EngineCall).

(** The settlement of an [async] function run on its own: it returns, it
    throws, or its promise stays pending (only [acquirePage] can do that,
    when it polls for a release that nobody else performs). *)
Inductive result (A : Type) :=
| Returned (a : A)
| Thrown (e : error)
| Pending.
Arguments Returned {A} a.
Arguments Thrown {A} e.
Arguments Pending {A}.

(** What one run of [createPage] meets: whether [browser.newPage()],
    [page.setRequestInterception(true)] and [page.setViewport(...)] are
    fulfilled (true) or rejected (false). *)
Record CreateOutcome := {
  newPage_fulfilled : bool;
  setRequestInterception_fulfilled : bool;
  createViewport_fulfilled : bool
}.

Definition Created : CreateOutcome :=
  {| newPage_fulfilled := true;
     setRequestInterception_fulfilled := true;
     createViewport_fulfilled := true |}.

Definition NewPageFails : CreateOutcome :=
  {| newPage_fulfilled := false;
     setRequestInterception_fulfilled := true;
     createViewport_fulfilled := true |}.

(** What one run of [releasePage] meets: whether the reset
    [page.evaluate(...)] and [page.close()] are fulfilled, and the outcome of
    the [createPage] that replaces the page. *)
Record ReleaseOutcome := {
  reset_fulfilled : bool;
  close_fulfilled : bool;
  replacement : CreateOutcome
}.

(** The [options] argument of [render]; [None] is an absent [width]. *)
Record Options := {
  options_width : option Z
}.

(** What one run of [render] meets at each of its awaits. *)
Record Oracle := {
  launch_fulfilled : bool;
  prewarm : nat -> CreateOutcome;
  acquire_outcome : CreateOutcome;
  setViewport_fulfilled : bool;
  setContent_fulfilled : bool;
  waitForFunction_fulfilled : bool;
  boundingBox : option (Z * Z);
  screenshot : ScreenshotOptions -> option Buffer;
  release : ReleaseOutcome
}.

(** ** String helpers of the JavaScript standard library *)

(** [s.endsWith(suffix)] *)
Definition endsWith (s suffix : string) : bool :=
  (String.length suffix <=? String.length s)%nat &&
  String.eqb
    (String.substring (String.length s - String.length suffix)
                      (String.length suffix) s)
    suffix.

(** [s.replace(pat, rep)] with a string pattern: the first occurrence only. *)
Fixpoint replace (pat rep s : string) : string :=
  if String.prefix pat s
  then String.append rep
         (String.substring (String.length pat)
                           (String.length s - String.length pat) s)
  else match s with
       | EmptyString => EmptyString
       | String c s' => String c (replace pat rep s')
       end.

Section Model.

(** The data record handed to a template, and EJS itself, are external:
    [ejs.compile(template)] either throws or yields a function from a data
    record to markup, which may throw in turn. *)
Context {Data : Type}.
Variable ejs_compile : string → error + (Data → error + string).
Variable cfg : Config.

(** [ejs.render(template, data)]: compile, then invoke. *)
Definition ejs_render (template : string) (data : Data) : error + string :=
  match ejs_compile template with
  | inl e => inl e
  | inr f => f data
  end.

(** ** Module state

    The five module-level variables of [render.js], followed by the part of
    the outside world the module reads: the [templates] directory (file name
    and content, in [readdirSync] order), the pages that report
    [isClosed()], each page's [viewport()], the number of pages handed out
    so far, and the log of engine calls (newest first).

    [pagePool] is only ever used through [push], [pop] and [length]; the
    list keeps the top of that stack (the end of the array) at its head. *)
Record State := {
  browser : bool;
  pagePool : list page;
  busyPages : gset page;
  templateCache : gmap string string;
  compiledTemplates : gmap string (Data → error + string);
  templatesDir : list (string * string);
  closedPages : gset page;
  viewports : gmap page Viewport;
  allocated : nat;
  calls : list EngineCall
}.

Definition set_browser (b : bool) (st : State) : State :=
  {| browser := b; pagePool := pagePool st; busyPages := busyPages st;
     templateCache := templateCache st;
     compiledTemplates := compiledTemplates st;
     templatesDir := templatesDir st; closedPages := closedPages st;
     viewports := viewports st; allocated := allocated st;
     calls := calls st |}.

Definition set_pagePool (l : list page) (st : State) : State :=
  {| browser := browser st; pagePool := l; busyPages := busyPages st;
     templateCache := templateCache st;
     compiledTemplates := compiledTemplates st;
     templatesDir := templatesDir st; closedPages := closedPages st;
     viewports := viewports st; allocated := allocated st;
     calls := calls st |}.

Definition set_busyPages (b : gset page) (st : State) : State :=
  {| browser := browser st; pagePool := pagePool st; busyPages := b;
     templateCache := templateCache st;
     compiledTemplates := compiledTemplates st;
     templatesDir := templatesDir st; closedPages := closedPages st;
     viewports := viewports st; allocated := allocated st;
     calls := calls st |}.

Definition set_templateCache (m : gmap string string) (st : State) : State :=
  {| browser := browser st; pagePool := pagePool st;
     busyPages := busyPages st; templateCache := m;
     compiledTemplates := compiledTemplates st;
     templatesDir := templatesDir st; closedPages := closedPages st;
     viewports := viewports st; allocated := allocated st;
     calls := calls st |}.

Definition set_compiledTemplates (m : gmap string (Data → error + string))
    (st : State) : State :=
  {| browser := browser st; pagePool := pagePool st;
     busyPages := busyPages st; templateCache := templateCache st;
     compiledTemplates := m;
     templatesDir := templatesDir st; closedPages := closedPages st;
     viewports := viewports st; allocated := allocated st;
     calls := calls st |}.

Definition set_templatesDir (d : list (string * string)) (st : State)
    : State :=
  {| browser := browser st; pagePool := pagePool st;
     busyPages := busyPages st; templateCache := templateCache st;
     compiledTemplates := compiledTemplates st;
     templatesDir := d; closedPages := closedPages st;
     viewports := viewports st; allocated := allocated st;
     calls := calls st |}.

Definition set_closedPages (c : gset page) (st : State) : State :=
  {| browser := browser st; pagePool := pagePool st;
     busyPages := busyPages st; templateCache := templateCache st;
     compiledTemplates := compiledTemplates st;
     templatesDir := templatesDir st; closedPages := c;
     viewports := viewports st; allocated := allocated st;
     calls := calls st |}.

Definition set_viewports (v : gmap page Viewport) (st : State) : State :=
  {| browser := browser st; pagePool := pagePool st;
     busyPages := busyPages st; templateCache := templateCache st;
     compiledTemplates := compiledTemplates st;
     templatesDir := templatesDir st; closedPages := closedPages st;
     viewports := v; allocated := allocated st;
     calls := calls st |}.

Definition set_allocated (n : nat) (st : State) : State :=
  {| browser := browser st; pagePool := pagePool st;
     busyPages := busyPages st; templateCache := templateCache st;
     compiledTemplates := compiledTemplates st;
     templatesDir := templatesDir st; closedPages := closedPages st;
     viewports := viewports st; allocated := n;
     calls := calls st |}.

Definition set_calls (l : list EngineCall) (st : State) : State :=
  {| browser := browser st; pagePool := pagePool st;
     busyPages := busyPages st; templateCache := templateCache st;
     compiledTemplates := compiledTemplates st;
     templatesDir := templatesDir st; closedPages := closedPages st;
     viewports := viewports st; allocated := allocated st;
     calls := l |}.

(** The module as loaded: nothing launched, both collections and both caches
    empty, over a given [templates] directory. *)
Definition initial (dir : list (string * string)) : State :=
  {| browser := false; pagePool := []; busyPages := ∅;
     templateCache := ∅; compiledTemplates := ∅;
     templatesDir := dir; closedPages := ∅; viewports := ∅;
     allocated := 0%nat; calls := [] |}.

(** Record one engine call. *)
Definition engine (c : EngineCall) (st : State) : State :=
  set_calls (c :: calls st) st.

(** [page.isClosed()] *)
Definition isClosed (p : page) (st : State) : bool :=
  bool_decide (p ∈ closedPages st).

(** ** Asynchronous functions run on their own *)

Definition M (A : Type) : Type := State → result A * State.

Definition ret {A} (a : A) : M A := fun st => (Returned a, st).
Definition throw {A} (e : error) : M A := fun st => (Thrown e, st).

Definition bind {A B} (m : M A) (k : A → M B) : M B := fun st =>
  match m st with
  | (Returned a, st') => k a st'
  | (Thrown e, st') => (Thrown e, st')
  | (Pending, st') => (Pending, st')
  end.

(** [await] of an engine call: log it, then continue or throw as the oracle
    says. *)
Definition await_call (c : EngineCall) (fulfilled : bool) : M unit :=
  fun st => if fulfilled then (Returned tt, engine c st)
            else (Thrown (EngineFailure c), engine c st).

(** [try { body } finally { cleanup }]: the cleanup runs whether the body
    returned or threw; what it throws replaces the body's outcome. *)
Definition try_finally {A} (body : M A) (cleanup : M unit) : M A := fun st =>
  match body st with
  | (Pending, st') => (Pending, st')
  | (r, st') =>
      match cleanup st' with
      | (Returned _, st'') => (r, st'')
      | (Thrown e, st'') => (Thrown e, st'')
      | (Pending, st'') => (Pending, st'')
      end
  end.

(** [promise.catch(() => {})]: a rejection is swallowed. *)
Definition catch_ignore (m : M unit) : M unit := fun st =>
  match m st with
  | (Thrown _, st') => (Returned tt, st')
  | r => r
  end.

Notation "'let!' x ':=' m 'in' k" := (bind m (fun x => k))
  (at level 10, x name, m at level 100, k at level 200).
Notation "'do!' m 'in' k" := (bind m (fun _ => k))
  (at level 10, m at level 100, k at level 200).

(** ** Template caches *)

(** [fs.existsSync] and [fs.readFileSync] on a file of the [templates]
    directory. *)
Definition readFile (file : string) (st : State) : option string :=
  match List.find (fun e => String.eqb (fst e) file) (templatesDir st) with
  | Some e => Some (snd e)
  | None => None
  end.

(** The loop of [precompileTemplates] over the [.ejs] files. *)
Fixpoint precompile_files (files : list (string * string)) (st : State)
    : result unit * State :=
  match files with
  | [] => (Returned tt, st)
  | (file, template) :: files' =>
      let name := replace ".ejs" "" file in
      let st1 :=
        set_templateCache (<[name := template]> (templateCache st)) st in
      match ejs_compile template with
      | inl e => (Thrown e, st1)
      | inr f =>
          precompile_files files'
            (set_compiledTemplates (<[name := f]> (compiledTemplates st1)) st1)
      end
  end.

Definition precompileTemplates : M unit := fun st =>
  precompile_files
    (List.filter (fun e => endsWith (fst e) ".ejs") (templatesDir st)) st.

Definition getTemplate (templateName : string) (st : State)
    : (error + string) * State :=
  match (if CACHE_TEMPLATES cfg then templateCache st !! templateName
         else None) with
  | Some template => (inr template, st)
  | None =>
      match readFile (String.append templateName ".ejs") st with
      | None => (inl (TemplateNotFound templateName), st)
      | Some template =>
          if CACHE_TEMPLATES cfg then
            let st1 :=
              set_templateCache
                (<[templateName := template]> (templateCache st)) st in
            match ejs_compile template with
            | inl e => (inl e, st1)
            | inr f =>
                (inr template,
                 set_compiledTemplates
                   (<[templateName := f]> (compiledTemplates st1)) st1)
            end
          else (inr template, st)
      end
  end.

Definition renderTemplate (templateName : string) (data : Data) (st : State)
    : (error + string) * State :=
  match compiledTemplates st !! templateName with
  | Some compiled => (compiled data, st)
  | None =>
      match getTemplate templateName st with
      | (inl e, st') => (inl e, st')
      | (inr template, st') => (ejs_render template data, st')
      end
  end.

Definition clearTemplateCache (st : State) : State :=
  set_templateCache ∅ st.

(** ** Pages *)

Definition defaultViewport : Viewport :=
  {| width := 800; height := 600; deviceScaleFactor := 2 |}.

(** [await browser.newPage()] *)
Definition newPage (fulfilled : bool) : M page := fun st =>
  if fulfilled
  then (Returned (allocated st),
        set_allocated (S (allocated st)) (engine NewPage st))
  else (Thrown (EngineFailure NewPage), engine NewPage st).

(** [await page.setViewport(v)]; [page.viewport()] reports [v] afterwards. *)
Definition setViewport (p : page) (v : Viewport) (fulfilled : bool)
    : M unit := fun st =>
  if fulfilled
  then (Returned tt,
        set_viewports (<[p := v]> (viewports st)) (engine (SetViewport p v) st))
  else (Thrown (EngineFailure (SetViewport p v)), engine (SetViewport p v) st).

(** [createPage].  The [request] handler it installs only filters
    sub-resources inside the engine and is left out. *)
Definition createPage (o : CreateOutcome) : M page :=
  let! page := newPage (newPage_fulfilled o) in
  do! await_call (SetRequestInterception page true)
                 (setRequestInterception_fulfilled o) in
  do! setViewport page defaultViewport (createViewport_fulfilled o) in
  ret page.

(** [Promise.all] over the [createPage] calls of [prewarmPagePool]: every
    call runs; the result is the list of pages, or the first rejection. *)
Fixpoint createPages (os : list CreateOutcome) : M (list page) :=
  match os with
  | [] => ret []
  | o :: os' => fun st =>
      let '(r, st1) := createPage o st in
      let '(rs, st2) := createPages os' st1 in
      (match r, rs with
       | Returned p, Returned ps => Returned (p :: ps)
       | Returned _, Thrown e => Thrown e
       | Thrown e, _ => Thrown e
       | _, _ => Pending
       end, st2)
  end.

(** [prewarmPagePool]; [os i] is the outcome of the [i]-th of its
    [PAGE_POOL_SIZE] creations.  [pagePool.push(...pages)] leaves the last
    page on top. *)
Definition prewarmPagePool (os : nat → CreateOutcome) : M unit :=
  let! pages := createPages (map os (seq 0 (PAGE_POOL_SIZE cfg))) in
  fun st => (Returned tt, set_pagePool (rev pages ++ pagePool st) st).

(** ** The pool, one run-to-completion segment at a time

    JavaScript runs a function without interruption up to its next
    [await]; other requests run in between.  Each definition below is one
    such segment. *)

(** The [while] loop of [acquirePage]: pop until an open page shows up. *)
Fixpoint pop_open (closed : gset page) (pool : list page)
    : option page * list page :=
  match pool with
  | [] => (None, [])
  | p :: pool' =>
      if bool_decide (p ∈ closed) then pop_open closed pool'
      else (Some p, pool')
  end.

(** Where the first segment of [acquirePage] ends: with a page, at
    [await createPage()], or in the polling promise. *)
Inductive AcquireStep :=
| Acquired (p : page)
| AwaitCreate
| AwaitRelease.

Definition acquire_begin (st : State) : AcquireStep * State :=
  match pop_open (closedPages st) (pagePool st) with
  | (Some p, pool') =>
      (Acquired p,
       set_busyPages ({[p]} ∪ busyPages st) (set_pagePool pool' st))
  | (None, pool') =>
      let st' := set_pagePool pool' st in
      if (size (busyPages st') <? MAX_CONCURRENT cfg)%nat
      then (AwaitCreate, st')
      else (AwaitRelease, st')
  end.

(** [const page = await createPage(); busyPages.add(page); return page] *)
Definition acquire_create (o : CreateOutcome) : M page :=
  let! page := createPage o in
  fun st => (Returned page, set_busyPages ({[page]} ∪ busyPages st) st).

(** One tick of the [setInterval] callback.  [None]: the pool is empty and
    the interval stays armed.  A closed page on top sends the caller back
    into [acquirePage]. *)
Definition acquire_poll (st : State) : option AcquireStep * State :=
  match pagePool st with
  | [] => (None, st)
  | p :: pool' =>
      let st' := set_pagePool pool' st in
      if isClosed p st'
      then let '(s, st'') := acquire_begin st' in (Some s, st'')
      else (Some (Acquired p), set_busyPages ({[p]} ∪ busyPages st') st')
  end.

(** [busyPages.delete(page)] and the [isClosed] test; [true] when the
    function goes on to [await page.evaluate(...)]. *)
Definition release_begin (p : page) (st : State) : bool * State :=
  let st' := set_busyPages (busyPages st ∖ {[p]}) st in
  if isClosed p st' then (false, st')
  else (true, engine (EvaluateClearBody p) st').

(** [pagePool.push(page)] *)
Definition push (p : page) (st : State) : State :=
  set_pagePool (p :: pagePool st) st.

(** [try { await page.close() } catch {}] *)
Definition release_close (p : page) (fulfilled : bool) (st : State) : State :=
  let st' := engine (Close p) st in
  if fulfilled then set_closedPages ({[p]} ∪ closedPages st') st' else st'.

(** [pagePool.length < CONFIG.PAGE_POOL_SIZE] *)
Definition below_target (st : State) : bool :=
  (length (pagePool st) <? PAGE_POOL_SIZE cfg)%nat.

(** [const newPage = await createPage(); pagePool.push(newPage)] *)
Definition release_replace (o : CreateOutcome) : M unit :=
  let! newPage := createPage o in
  fun st => (Returned tt, push newPage st).

(** ** The pool functions run on their own *)

Definition acquirePage (o : CreateOutcome) : M page := fun st =>
  match acquire_begin st with
  | (Acquired p, st') => (Returned p, st')
  | (AwaitCreate, st') => acquire_create o st'
  | (AwaitRelease, st') => (Pending, st')
  end.

Definition releasePage (o : ReleaseOutcome) (p : page) : M unit := fun st =>
  match release_begin p st with
  | (false, st') => (Returned tt, st')
  | (true, st') =>
      if reset_fulfilled o then (Returned tt, push p st')
      else
        let st'' := release_close p (close_fulfilled o) st' in
        if below_target st'' then release_replace (replacement o) st''
        else (Returned tt, st'')
  end.

(** ** The pipeline *)

Definition getBrowser (o : Oracle) : M unit := fun st =>
  if browser st then (Returned tt, st)
  else
    (do! (if PRECOMPILE_TEMPLATES cfg then precompileTemplates else ret tt) in
     do! await_call Launch (launch_fulfilled o) in
     do! (fun st' => (Returned tt, set_browser true st')) in
     if PREWARM_PAGES cfg then prewarmPagePool (prewarm o) else ret tt) st.

(** [options.width || 800] *)
Definition requested_width (options : Options) : Z :=
  match options_width options with
  | Some w => if w =? 0 then 800 else w
  | None => 800
  end.

(** [page.viewport()] *)
Definition viewport (p : page) : M Viewport := fun st =>
  match viewports st !! p with
  | Some v => (Returned v, st)
  | None => (Thrown (TypeError "currentViewport is null"), st)
  end.

(** [await page.evaluate(...)] of the bounding-box query. *)
Definition evaluateBoundingBox (p : page) (box : option (Z * Z))
    : M (Z * Z) := fun st =>
  match box with
  | Some b => (Returned b, engine (EvaluateBoundingBox p) st)
  | None => (Thrown (EngineFailure (EvaluateBoundingBox p)),
             engine (EvaluateBoundingBox p) st)
  end.

(** [await page.screenshot(opts)] *)
Definition takeScreenshot (p : page) (opts : ScreenshotOptions)
    (answer : ScreenshotOptions → option Buffer) : M Buffer := fun st =>
  match answer opts with
  | Some png => (Returned png, engine (Screenshot p opts) st)
  | None => (Thrown (EngineFailure (Screenshot p opts)),
             engine (Screenshot p opts) st)
  end.

Definition screenshotOptions (box : Z * Z) : ScreenshotOptions :=
  {| type := "png";
     clip := {| clip_x := 0; clip_y := 0;
                clip_width := fst box; clip_height := snd box |};
     omitBackground := false |}.

(** The [try] block of [render].  The 50 ms [setTimeout] and the timing log
    touch neither the engine nor the module state. *)
Definition render_body (o : Oracle) (html : string) (options : Options)
    (page : page) : M Buffer :=
  let requested := requested_width options in
  let! currentViewport := viewport page in
  do! (if negb (width currentViewport =? requested)
       then setViewport page
              {| width := requested; height := 600; deviceScaleFactor := 2 |}
              (setViewport_fulfilled o)
       else ret tt) in
  do! await_call (SetContent page html "domcontentloaded")
                 (setContent_fulfilled o) in
  do! catch_ignore (await_call (WaitForFunction page 3000)
                               (waitForFunction_fulfilled o)) in
  let! box := evaluateBoundingBox page (boundingBox o) in
  takeScreenshot page (screenshotOptions box) (screenshot o).

Definition render (o : Oracle) (templateName : string) (data : Data)
    (options : Options) : M Buffer := fun st =>
  match renderTemplate templateName data st with
  | (inl e, st') => (Thrown e, st')
  | (inr html, st') =>
      (do! getBrowser o in
       let! page := acquirePage (acquire_outcome o) in
       try_finally (render_body o html options page)
                   (releasePage (release o) page)) st'
  end.

(** ** Interleaved requests

    Several [render] calls are in flight at once: a function suspended at an
    [await] is a task, and the event loop resumes tasks in any order.  The
    pool functions above are cut at their awaits; an event runs one segment. *)

Inductive Task :=
| AcquireCreating                  (* acquirePage, at [await createPage()] *)
| AcquirePolling                   (* acquirePage, inside the polling promise *)
| ReleaseResetting (p : page)      (* releasePage, at [await page.evaluate] *)
| ReleaseClosing (p : page)        (* releasePage, at [await page.close()] *)
| ReleaseReplacing.                (* releasePage, at [await createPage()] *)

Inductive Event :=
| CallPrewarm (os : nat → CreateOutcome)
| CallAcquire
| CallRelease (p : page)
| CreateSettles (i : nat) (o : CreateOutcome)
| Tick (i : nat)
| ResetSettles (i : nat) (fulfilled : bool)
| CloseSettles (i : nat) (fulfilled : bool)
| PageCloses (p : page).           (* the engine closes a page by itself *)

(** What a caller sees when its call settles. *)
Inductive Observation :=
| AcquireReturns (p : page)
| AcquireThrows (e : error)
| ReleaseReturns
| ReleaseThrows (e : error).

Record System := {
  state : State;
  tasks : list Task
}.

Definition after_acquire_step (s : AcquireStep) (st : State)
    (others : list Task) : list Observation * System :=
  match s with
  | Acquired p => ([AcquireReturns p], {| state := st; tasks := others |})
  | AwaitCreate =>
      ([], {| state := st; tasks := others ++ [AcquireCreating] |})
  | AwaitRelease =>
      ([], {| state := st; tasks := others ++ [AcquirePolling] |})
  end.

(** One event; [None] when the event names no task suspended at that
    await. *)
Definition step (e : Event) (sys : System)
    : option (list Observation * System) :=
  let st := state sys in
  let ts := tasks sys in
  match e with
  | CallPrewarm os =>
      Some ([], {| state := snd (prewarmPagePool os st); tasks := ts |})
  | CallAcquire =>
      let '(s, st') := acquire_begin st in
      Some (after_acquire_step s st' ts)
  | CallRelease p =>
      match release_begin p st with
      | (true, st') =>
          Some ([], {| state := st'; tasks := ts ++ [ReleaseResetting p] |})
      | (false, st') =>
          Some ([ReleaseReturns], {| state := st'; tasks := ts |})
      end
  | CreateSettles i o =>
      match ts !! i with
      | Some AcquireCreating =>
          match acquire_create o st with
          | (Returned p, st') =>
              Some ([AcquireReturns p],
                    {| state := st'; tasks := delete i ts |})
          | (Thrown err, st') =>
              Some ([AcquireThrows err],
                    {| state := st'; tasks := delete i ts |})
          | (Pending, _) => None
          end
      | Some ReleaseReplacing =>
          match release_replace o st with
          | (Returned _, st') =>
              Some ([ReleaseReturns],
                    {| state := st'; tasks := delete i ts |})
          | (Thrown err, st') =>
              Some ([ReleaseThrows err],
                    {| state := st'; tasks := delete i ts |})
          | (Pending, _) => None
          end
      | _ => None
      end
  | Tick i =>
      match ts !! i with
      | Some AcquirePolling =>
          match acquire_poll st with
          | (None, st') => Some ([], {| state := st'; tasks := ts |})
          | (Some s, st') => Some (after_acquire_step s st' (delete i ts))
          end
      | _ => None
      end
  | ResetSettles i fulfilled =>
      match ts !! i with
      | Some (ReleaseResetting p) =>
          if fulfilled
          then Some ([ReleaseReturns],
                     {| state := push p st; tasks := delete i ts |})
          else Some ([], {| state := st;
                            tasks := <[i := ReleaseClosing p]> ts |})
      | _ => None
      end
  | CloseSettles i fulfilled =>
      match ts !! i with
      | Some (ReleaseClosing p) =>
          let st' := release_close p fulfilled st in
          if below_target st'
          then Some ([], {| state := st';
                            tasks := <[i := ReleaseReplacing]> ts |})
          else Some ([ReleaseReturns],
                     {| state := st'; tasks := delete i ts |})
      | _ => None
      end
  | PageCloses p =>
      Some ([], {| state := set_closedPages ({[p]} ∪ closedPages st) st;
                   tasks := ts |})
  end.

(** A schedule: the events in order, with everything the callers saw. *)
Fixpoint run (es : list Event) (sys : System)
    : option (list Observation * System) :=
  match es with
  | [] => Some ([], sys)
  | e :: es' =>
      match step e sys with
      | None => None
      | Some (obs, sys') =>
          match run es' sys' with
          | None => None
          | Some (obs', sys'') => Some (obs ++ obs', sys'')
          end
      end
  end.

(** ** Histories of the module

    What can happen to the module between two observations: a [render] runs
    (against any oracle), or, when renders overlap, one of its three stages
    does (acquire, the [try] block, release); the development hook
    [clearTemplateCache] is called; the [templates] directory is edited; or
    the engine closes a page. *)
Inductive Action :=
| Render (o : Oracle) (templateName : string) (data : Data)
         (options : Options)
| Acquire (o : CreateOutcome)
| Body (o : Oracle) (html : string) (options : Options) (p : page)
| Release (o : ReleaseOutcome) (p : page)
| ClearTemplateCache
| TemplatesChange (dir : list (string * string))
| Crash (p : page).

Definition perform (st : State) (a : Action) : State :=
  match a with
  | Render o templateName data options =>
      snd (render o templateName data options st)
  | Acquire o => snd (acquirePage o st)
  | Body o html options p => snd (render_body o html options p st)
  | Release o p => snd (releasePage o p st)
  | ClearTemplateCache => clearTemplateCache st
  | TemplatesChange dir => set_templatesDir dir st
  | Crash p => set_closedPages ({[p]} ∪ closedPages st) st
  end.

Definition reachable (st : State) : Prop :=
  ∃ dir actions, st = foldl perform (initial dir) actions.

(** The states reached when requests overlap only between whole pool
    calls: [getBrowser], [acquirePage] and [releasePage] each run to
    completion before the next call starts; as in [render], a request
    acquires after [getBrowser] and releases a page it holds. *)
Inductive orderly : State → Prop :=
| orderly_initial dir : orderly (initial dir)
| orderly_getBrowser o st :
    orderly st → orderly (snd (getBrowser o st))
| orderly_acquirePage o st :
    orderly st → browser st = true → orderly (snd (acquirePage o st))
| orderly_releasePage o p st :
    orderly st → p ∈ busyPages st → orderly (snd (releasePage o p st))
| orderly_body o html options p st :
    orderly st → orderly (snd (render_body o html options p st))
| orderly_crash p st :
    orderly st → orderly (set_closedPages ({[p]} ∪ closedPages st) st).

End Model.

Arguments State : clear implicits.
Arguments System : clear implicits.
Arguments M : clear implicits.
Arguments below_target : simpl never.
Arguments Action : clear implicits.

(** A [createPage] run in which all three engine calls are fulfilled. *)
Definition succeeds (o : CreateOutcome) : bool :=
  newPage_fulfilled o && setRequestInterception_fulfilled o
  && createViewport_fulfilled o.

(** ** Reading the call log *)

(** The capture requests in a log. *)
Definition screenshots (l : list EngineCall)
    : list (page * ScreenshotOptions) :=
  flat_map (fun c => match c with Screenshot p o => [(p, o)] | _ => [] end) l.

(** The timeouts of the readiness waits in a log. *)
Definition wait_timeouts (l : list EngineCall) : list Z :=
  flat_map (fun c => match c with WaitForFunction _ t => [t] | _ => [] end) l.

(** The viewports requested in a log. *)
Definition requested_viewports (l : list EngineCall) : list Viewport :=
  flat_map (fun c => match c with SetViewport _ v => [v] | _ => [] end) l.

(** The calls the pool and [getBrowser] make: no capture, no wait, and no
    viewport other than the default one. *)
Definition pool_call (c : EngineCall) : bool :=
  match c with
  | Launch | NewPage | SetRequestInterception _ _
  | EvaluateClearBody _ | Close _ => true
  | SetViewport _ v =>
      (width v =? 800) && (height v =? 600) && (deviceScaleFactor v =? 2)
  | _ => false
  end.

(** The calls a [render] may make: whatever the viewport width, the height
    is 600 and the scale factor 2; a readiness wait runs with a timeout of
    3000 ms; a capture is clipped from the origin and keeps its
    background. *)
Definition render_call (c : EngineCall) : bool :=
  match c with
  | SetViewport _ v => (height v =? 600) && (deviceScaleFactor v =? 2)
  | WaitForFunction _ t => t =? 3000
  | Screenshot _ o =>
      negb (omitBackground o) && (clip_x (clip o) =? 0)
      && (clip_y (clip o) =? 0)
  | _ => true
  end.

(** [st'] comes after [st] and the calls made in between satisfy [P]. *)
Definition log_extends {Data} (P : EngineCall → bool)
    (st st' : State Data) : Prop :=
  ∃ added, calls st' = added ++ calls st ∧ forallb P added = true.

(** Every viewport has height 600 and device scale factor 2. *)
Definition fixed_height_and_scale (v : Viewport) : Prop :=
  height v = 600 ∧ deviceScaleFactor v = 2.

(** The oracle [o] with the readiness wait settled as [fulfilled]. *)
Definition set_waitForFunction (fulfilled : bool) (o : Oracle) : Oracle :=
  {| launch_fulfilled := launch_fulfilled o;
     prewarm := prewarm o;
     acquire_outcome := acquire_outcome o;
     setViewport_fulfilled := setViewport_fulfilled o;
     setContent_fulfilled := setContent_fulfilled o;
     waitForFunction_fulfilled := fulfilled;
     boundingBox := boundingBox o;
     screenshot := screenshot o;
     release := release o |}.

(** ** Concrete instances used to run the model *)

(** EJS on templates without tags: they compile, and render to themselves
    whatever the data. *)
Definition ejs_literal (template : string)
    : error + (unit → error + string) :=
  inr (fun _ => inr template).

Definition resetOk : ReleaseOutcome :=
  {| reset_fulfilled := true; close_fulfilled := true;
     replacement := Created |}.

Definition resetFails (close_ok : bool) (o : CreateOutcome)
    : ReleaseOutcome :=
  {| reset_fulfilled := false; close_fulfilled := close_ok;
     replacement := o |}.

(** An engine that fulfils every call, measures the content at 420 by 317
    and answers any capture with a one-byte buffer. *)
Definition smooth : Oracle :=
  {| launch_fulfilled := true;
     prewarm := fun _ => Created;
     acquire_outcome := Created;
     setViewport_fulfilled := true;
     setContent_fulfilled := true;
     waitForFunction_fulfilled := true;
     boundingBox := Some (420, 317);
     screenshot := fun _ => Some [Byte.x89];
     release := resetOk |}.

Definition fresh : State unit := initial [("echo.ejs"%string, "hi"%string)].

(** The module after start-up: browser launched, sixteen pages (0 to 15)
    idle. *)
Definition warm : State unit := snd (getBrowser ejs_literal CONFIG smooth fresh).

(** Sixteen renders hold all sixteen pages; one of them finishes and its
    reset fails; while its replacement is being created, two more requests
    call [acquirePage]; then the creations settle. *)
Definition overlapping_acquires : list Event :=
  replicate 16 CallAcquire ++
  [CallRelease 0%nat; ResetSettles 0 false; CloseSettles 0 true;
   CallAcquire; CallAcquire;
   CreateSettles 1 Created; CreateSettles 1 Created].

(** Page 15 is acquired, then released twice with both resets fulfilled,
    then two acquires follow. *)
Definition double_release : list Event :=
  [CallAcquire;
   CallRelease 15%nat; ResetSettles 0 true;
   CallRelease 15%nat; ResetSettles 0 true;
   CallAcquire; CallAcquire].

(** Page 15 is acquired and released; released a second time, its reset
    fails and its [close()] is rejected; then an acquire follows. *)
Definition second_release_fails : list Event :=
  [CallAcquire;
   CallRelease 15%nat; ResetSettles 0 true;
   CallRelease 15%nat; ResetSettles 0 false; CloseSettles 0 false;
   CallAcquire].

(** One request holds page 15, the top of the idle stack. *)
Definition held : State unit := snd (acquirePage CONFIG Created warm).

(** The template [echo] has been rendered once; its file is then edited
    and [clearTemplateCache] is called. *)
Definition edited : State unit :=
  clearTemplateCache
    (set_templatesDir [("echo.ejs"%string, "bye"%string)]
       (snd (renderTemplate ejs_literal CONFIG "echo" tt fresh))).

Definition defaultOptions : Options := {| options_width := None |}.

(** An engine that fulfils every call of a render, then rejects the reset
    of the page and the [newPage()] of its replacement. *)
Definition starved : Oracle :=
  {| launch_fulfilled := true;
     prewarm := fun _ => Created;
     acquire_outcome := Created;
     setViewport_fulfilled := true;
     setContent_fulfilled := true;
     waitForFunction_fulfilled := true;
     boundingBox := Some (420, 317);
     screenshot := fun _ => Some [Byte.x89];
     release := resetFails true NewPageFails |}.

(** An engine that rejects the fourth [newPage()] of the prewarming. *)
Definition flaky : Oracle :=
  {| launch_fulfilled := true;
     prewarm := fun i => if (i =? 3)%nat then NewPageFails else Created;
     acquire_outcome := Created;
     setViewport_fulfilled := true;
     setContent_fulfilled := true;
     waitForFunction_fulfilled := true;
     boundingBox := Some (420, 317);
     screenshot := fun _ => Some [Byte.x89];
     release := resetOk |}.

(** All sixteen pages of the warm pool are held. *)
Definition exhausted : State unit :=
  Nat.iter 16 (fun st => snd (acquirePage CONFIG Created st)) warm.

(** * The request handlers: shaping of the payload

    [sanitizeText], [normalizeQfarmRows] and the bodies of the
    [/api/qfarm] and [/api/timetable] handlers, up to their call of
    [render]. *)

(** A JavaScript string, as its UTF-16 code units. *)
Definition jsstring := list N.

(** An ASCII literal. *)
Definition units (s : string) : jsstring :=
  map Ascii.N_of_ascii (list_ascii_of_string s).

(** The code units [String.prototype.trim] strips: WhiteSpace and
    LineTerminator of ECMAScript. *)
Definition isWhiteSpace (c : N) : bool :=
  ((c =? 9) || (c =? 10) || (c =? 11) || (c =? 12) || (c =? 13)
   || (c =? 32) || (c =? 160) || (c =? 5760)
   || ((8192 <=? c) && (c <=? 8202))
   || (c =? 8232) || (c =? 8233) || (c =? 8239) || (c =? 8287)
   || (c =? 12288) || (c =? 65279))%N.

Fixpoint trimStart (s : jsstring) : jsstring :=
  match s with
  | [] => []
  | c :: s' => if isWhiteSpace c then trimStart s' else s
  end.

Definition trimEnd (s : jsstring) : jsstring := rev (trimStart (rev s)).

Definition trim (s : jsstring) : jsstring := trimEnd (trimStart s).

(** [s.replace(/\u0000/g, '')] *)
Definition removeNul (s : jsstring) : jsstring :=
  List.filter (fun c => negb (c =? 0)%N) s.

(** [s.slice(b, e)] for integers [b] and [e]: a negative index counts from
    the end. *)
Definition slice (s : jsstring) (b e : Z) : jsstring :=
  let len := Z.of_nat (length s) in
  let from := if b <? 0 then Z.max (len + b) 0 else Z.min b len in
  let to := if e <? 0 then Z.max (len + e) 0 else Z.min e len in
  take (Z.to_nat (to - from)) (drop (Z.to_nat from) s).

(** No white space at either end. *)
Definition trimmed (s : jsstring) : Prop :=
  ∀ c, head s = Some c ∨ last s = Some c → isWhiteSpace c = false.

(** [Array.prototype.join] with its default separator. *)
Fixpoint join_comma (l : list jsstring) : jsstring :=
  match l with
  | [] => []
  | [s] => s
  | s :: l' => s ++ 44%N :: join_comma l'
  end.

Fixpoint jsstring_eqb (a b : jsstring) : bool :=
  match a, b with
  | [], [] => true
  | x :: a', y :: b' => (x =? y)%N && jsstring_eqb a' b'
  | _, _ => false
  end.

(** What [parseInt] answers other than [NaN]: an integer or an infinity. *)
Inductive Integral :=
| NegInfinity
| Finite (z : Z)
| Infinity.

(** [a <= b] *)
Definition Integral_le (a b : Integral) : Prop :=
  match a, b with
  | NegInfinity, _ | _, Infinity => True
  | Finite x, Finite y => x ≤ y
  | _, _ => False
  end.

(** [Math.max(a, b)] *)
Definition Math_max (a b : Integral) : Integral :=
  match a, b with
  | Infinity, _ | _, Infinity => Infinity
  | NegInfinity, c | c, NegInfinity => c
  | Finite x, Finite y => Finite (Z.max x y)
  end.

(** [n || fallback], [n] a number or [NaN] ([None]) *)
Definition Integral_or (n : option Integral) (fallback : Integral) : Integral :=
  match n with
  | None | Some (Finite 0) => fallback
  | Some k => k
  end.

(** [s || fallback] on strings *)
Definition nonempty_or (s fallback : jsstring) : jsstring :=
  match s with [] => fallback | _ => s end.

(** How a handler ends: with a call of [render] on the data it built,
    with the answer 400, or in its [catch] (answer 500). *)
Inductive Handled (A : Type) :=
| CallsRender (data : A)
| Answers400
| Answers500.
Arguments CallsRender {A} data.
Arguments Answers400 {A}.
Arguments Answers500 {A}.

Section Server.

(** JSON numbers are IEEE doubles; they stay abstract, with the two of
    their operations the handlers rely on.  [toLowerCase] and [parseInt]
    (of a string, radix 10) are the built-ins. *)
Context {Number : Type}.
Variable number_truthy : Number → bool.
Variable number_toString : Number → jsstring.
Variable toLowerCase : jsstring → jsstring.
Variable parseInt : jsstring → option Integral.

(** A value of a parsed JSON body; an object lists its own properties,
    each key once. *)
#[warnings="-register-all"]
Inductive JSON :=
| JNull
| JBool (b : bool)
| JNumber (x : Number)
| JString (s : jsstring)
| JArray (items : list JSON)
| JObject (fields : list (jsstring * JSON)).

(** The own property [key] of an object. *)
Definition own (fields : list (jsstring * JSON)) (key : string)
    : option JSON :=
  match List.find (fun f => jsstring_eqb (fst f) (units key)) fields with
  | Some f => Some (snd f)
  | None => None
  end.

(** [String(v)]; [None] is the [TypeError] of an object whose own
    [toString] property hides [Object.prototype.toString] (no JSON value
    is callable). *)
Fixpoint ToString (v : JSON) : option jsstring :=
  match v with
  | JNull => Some (units "null")
  | JBool true => Some (units "true")
  | JBool false => Some (units "false")
  | JNumber x => Some (number_toString x)
  | JString s => Some s
  | JArray items =>
      join_comma <$>
        mapM (fun item => match item with
                          | JNull => Some []
                          | _ => ToString item
                          end) items
  | JObject fields =>
      match own fields "toString" with
      | Some _ => None
      | None => Some (units "[object Object]")
      end
  end.

(** Truthiness of a value. *)
Definition truthy (v : JSON) : bool :=
  match v with
  | JNull => false
  | JBool b => b
  | JNumber x => number_truthy x
  | JString s => match s with [] => false | _ => true end
  | JArray _ | JObject _ => true
  end.

(** [v && typeof v === 'object'] *)
Definition isObject (v : option JSON) : bool :=
  match v with
  | Some (JArray _) | Some (JObject _) => true
  | _ => false
  end.

(** [v.key] for a [v] other than [null], and a key the handlers read
    (none of them is inherited); [None] is [undefined]. *)
Definition get (v : JSON) (key : string) : option JSON :=
  match v with
  | JObject fields => own fields key
  | _ => None
  end.

(** [v && v.key] *)
Definition and_get (v : JSON) (key : string) : option JSON :=
  if truthy v then get v key else Some v.

(** [v || fallback] *)
Definition or_else (v : option JSON) (fallback : JSON) : JSON :=
  match v with
  | Some x => if truthy x then x else fallback
  | None => fallback
  end.

(** [v ? v : {}] after the test [isObject v] *)
Definition object_or_empty (v : option JSON) : JSON :=
  match v with
  | Some x => if isObject v then x else JObject []
  | None => JObject []
  end.

Definition sanitizeText (input : option JSON) (maxLen : Z)
    : option jsstring :=
  s ← match input with
      | None | Some JNull => Some []
      | Some v => ToString v
      end;
  let text := trim (removeNul s) in
  Some match text with
       | [] => []
       | _ =>
           if Z.of_nat (length text) >? maxLen
           then slice text 0 (maxLen - 3) ++ units "..."
           else text
       end.

(** A row as [normalizeQfarmRows] builds it: [label] may be absent. *)
Record QfarmRow := {
  row_label : option jsstring;
  row_value : jsstring
}.

Definition normalizeRow (row : JSON) : option QfarmRow :=
  if isObject (Some row)
  then
    label ← sanitizeText (get row "label") 40;
    value ← sanitizeText (get row "value") 220;
    Some match label with
         | [] => {| row_label := None; row_value := value |}
         | _ => {| row_label := Some label; row_value := value |}
         end
  else
    value ← sanitizeText (Some row) 220;
    Some {| row_label := None; row_value := value |}.

(** [row.value || row.label] *)
Definition keepRow (r : QfarmRow) : bool :=
  match row_value r, row_label r with
  | [], None | [], Some [] => false
  | _, _ => true
  end.

Definition normalizeQfarmRows (rows : option JSON)
    : option (list QfarmRow) :=
  match rows with
  | Some (JArray items) =>
      List.filter keepRow <$> mapM normalizeRow (take 80 items)
  | _ => Some []
  end.

Record QfarmStat := {
  stat_label : jsstring;
  stat_value : jsstring
}.

Record QfarmSection := {
  section_title : jsstring;
  section_rows : list QfarmRow
}.

Record QfarmData := {
  qfarm_title : jsstring;
  qfarm_subtitle : jsstring;
  qfarm_icon : jsstring;
  qfarm_theme : jsstring;
  qfarm_summary : jsstring;
  qfarm_stats : list QfarmStat;
  qfarm_sections : list QfarmSection;
  qfarm_page_index : Integral;
  qfarm_page_total : Integral;
  qfarm_footer : jsstring
}.

Definition qfarmStat (item : JSON) : option QfarmStat :=
  label ← sanitizeText (and_get item "label") 30;
  value ← sanitizeText (and_get item "value") 80;
  Some {| stat_label := label; stat_value := value |}.

Definition keepStat (s : QfarmStat) : bool :=
  match stat_label s, stat_value s with
  | [], [] => false
  | _, _ => true
  end.

Definition qfarmStats (body : JSON) : option (list QfarmStat) :=
  match get body "stats" with
  | Some (JArray items) =>
      List.filter keepStat <$> mapM qfarmStat (take 10 items)
  | _ => Some []
  end.

Definition qfarmSection (section : JSON) : option QfarmSection :=
  title ← sanitizeText (and_get section "title") 24;
  rows ← normalizeQfarmRows (and_get section "rows");
  Some {| section_title := title; section_rows := rows |}.

Definition keepSection (s : QfarmSection) : bool :=
  match section_rows s with [] => false | _ => true end.

Definition qfarmSections (body : JSON) : option (list QfarmSection) :=
  match get body "sections" with
  | Some (JArray items) =>
      List.filter keepSection <$> mapM qfarmSection (take 8 items)
  | _ => Some []
  end.

(** [parseInt(v, 10)]: the argument is converted to a string first. *)
Definition parseInt10 (v : option JSON) : option (option Integral) :=
  s ← match v with
      | None => Some (units "undefined")
      | Some x => ToString x
      end;
  Some (parseInt s).

(** What the handler does once the theme is accepted. *)
Definition qfarmPayload (today : jsstring) (body : JSON)
    (themeInput : jsstring) : option QfarmData :=
  stats ← qfarmStats body;
  sections ← qfarmSections body;
  let pageRaw := object_or_empty (get body "page") in
  index ← parseInt10 (get pageRaw "index");
  let pageIndex := Math_max (Finite 1) (Integral_or index (Finite 1)) in
  total ← parseInt10 (get pageRaw "total");
  let pageTotal := Math_max pageIndex (Integral_or total pageIndex) in
  title ← sanitizeText (get body "title") 30;
  subtitle ← sanitizeText (get body "subtitle") 60;
  icon ← sanitizeText (get body "icon") 8;
  summary ← sanitizeText (get body "summary") 220;
  footer ← sanitizeText (get body "footer") 80;
  Some {| qfarm_title :=
            nonempty_or title [81; 70; 97; 114; 109; 32; 32467; 26524]%N;
          qfarm_subtitle := nonempty_or subtitle today;
          qfarm_icon := nonempty_or icon [55356; 57150]%N;
          qfarm_theme := themeInput;
          qfarm_summary := summary;
          qfarm_stats := stats;
          qfarm_sections := sections;
          qfarm_page_index := pageIndex;
          qfarm_page_total := pageTotal;
          qfarm_footer := nonempty_or footer (units "astrbot_plugin_qfarm") |}.

(** The [/api/qfarm] handler up to its call of [render]; [today] is what
    [getDateStr()] returns. *)
Definition qfarm (today : jsstring) (reqBody : option JSON)
    : Handled QfarmData :=
  let body := object_or_empty reqBody in
  match sanitizeText
          (Some (or_else (get body "theme") (JString (units "light")))) 16
  with
  | None => Answers500
  | Some theme =>
      let themeInput := toLowerCase theme in
      if negb (jsstring_eqb themeInput (units "light")
               || jsstring_eqb themeInput (units "dark"))
      then Answers400
      else match qfarmPayload today body themeInput with
           | Some data => CallsRender data
           | None => Answers500
           end
  end.

End Server.

Arguments JSON : clear implicits.

(** ** The timetable grid

    The loop of the [/api/timetable] handler over [courses], for courses
    whose [weekday] and [section_start] are integers or absent ([None]) and
    whose texts are strings or absent. *)
Record Course := {
  weekday : option Z;
  section_start : option Z;
  course_name : option jsstring;
  location : option jsstring;
  teacher : option jsstring;
  weeks_raw : option jsstring
}.

Record Lesson := {
  lesson_name : jsstring;
  lesson_location : jsstring;
  lesson_teacher : jsstring;
  lesson_weeks : jsstring
}.

(** [n || fallback] on numbers *)
Definition number_or (n : option Z) (fallback : Z) : Z :=
  match n with
  | Some k => if k =? 0 then fallback else k
  | None => fallback
  end.

(** [s || fallback] on strings *)
Definition text_or (s : option jsstring) (fallback : jsstring) : jsstring :=
  match s with
  | Some (c :: s') => c :: s'
  | _ => fallback
  end.

(** Where the arithmetic of doubles on integers is exact. *)
Definition safeInteger (n : option Z) : Prop :=
  match n with
  | Some k => - 2 ^ 53 < k < 2 ^ 53
  | None => True
  end.

(** [course.weekday || 1] *)
Definition course_day (c : Course) : Z := number_or (weekday c) 1.

(** The section key: [course.section_start || 1], moved down to the odd
    section when even ([%] is the truncated remainder). *)
Definition course_key (c : Course) : Z :=
  let sectionKey := number_or (section_start c) 1 in
  if Z.rem sectionKey 2 =? 0 then sectionKey - 1 else sectionKey.

Definition lesson (c : Course) : Lesson :=
  {| lesson_name := text_or (course_name c) [26410; 30693; 35838; 31243]%N;
     lesson_location := text_or (location c) [];
     lesson_teacher := text_or (teacher c) [];
     lesson_weeks := text_or (weeks_raw c) [] |}.

(** [grid[wd] = {}] for [wd] from 1 to 7. *)
Definition emptyGrid : gmap Z (gmap Z (list Lesson)) :=
  list_to_map (map (fun wd => (wd, ∅)) [1; 2; 3; 4; 5; 6; 7]).

(** One round of the [forEach]; [None] is the [TypeError] of
    [grid[wd][sectionKey]] when [grid[wd]] is [undefined]. *)
Definition placeCourse (grid : gmap Z (gmap Z (list Lesson))) (c : Course)
    : option (gmap Z (gmap Z (list Lesson))) :=
  cells ← grid !! course_day c;
  let cell := default [] (cells !! course_key c) in
  Some (<[course_day c := <[course_key c := cell ++ [lesson c]]> cells]> grid).

Fixpoint placeCourses (grid : gmap Z (gmap Z (list Lesson)))
    (courses : list Course) : option (gmap Z (gmap Z (list Lesson))) :=
  match courses with
  | [] => Some grid
  | c :: courses' =>
      grid' ← placeCourse grid c;
      placeCourses grid' courses'
  end.

(** The grid the handler builds from the array [courses]. *)
Definition timetableGrid (courses : list Course)
    : option (gmap Z (gmap Z (list Lesson))) :=
  placeCourses emptyGrid courses.

(** [grid[wd][key]], an absent cell read as the empty array. *)
Definition gridCell (grid : gmap Z (gmap Z (list Lesson))) (wd key : Z)
    : list Lesson :=
  default [] (cells ← grid !! wd; cells !! key).

(** ** Sample requests

    The built-ins on what the samples use: numbers 0 to 9 and ASCII
    letters. *)
Definition digit_truthy (n : Z) : bool := negb (n =? 0).

Definition digit_toString (n : Z) : jsstring := [Z.to_N (48 + n)].

Definition ascii_toLowerCase (s : jsstring) : jsstring :=
  map (fun c => if ((65 <=? c) && (c <=? 90))%N then (c + 32)%N else c) s.

Definition parseDigit (s : jsstring) : option Integral :=
  match s with
  | [c] =>
      if ((48 <=? c) && (c <=? 57))%N
      then Some (Finite (Z.of_N c - 48))
      else None
  | _ => None
  end.

Definition padded : JSON Z := JString (units "  a long line of text  ").

Definition sampleRows : JSON Z :=
  JArray [JObject [(units "label", JString (units " size "));
                   (units "value", JNumber 3)];
          JString (units " ripe ");
          JNull;
          JObject []].

(** A body for [/api/qfarm]: page 2 of 1, a theme in capitals. *)
Definition harvest : JSON Z :=
  JObject [(units "title", JString (units "  Harvest  "));
           (units "theme", JString (units "DARK"));
           (units "stats", JArray [JObject [(units "label", JString (units "gold"));
                                            (units "value", JNumber 7)];
                                   JNull]);
           (units "sections", JArray [JObject [(units "title", JString (units "Fields"));
                                               (units "rows", sampleRows)];
                                      JObject [(units "title", JString (units "Empty"))]]);
           (units "page", JObject [(units "index", JNumber 2);
                                   (units "total", JNumber 1)])].

(** Two lessons on Monday's first section, one on Wednesday's third. *)
Definition sampleCourses : list Course :=
  [ {| weekday := Some 1; section_start := Some 2;
       course_name := Some (units "Algebra"); location := None;
       teacher := None; weeks_raw := None |};
    {| weekday := Some 3; section_start := Some 3;
       course_name := Some (units "Biology"); location := Some (units "B2");
       teacher := None; weeks_raw := None |};
    {| weekday := None; section_start := None;
       course_name := None; location := None;
       teacher := None; weeks_raw := None |} ].

(** A course on day 8. *)
Definition strayCourse : Course :=
  {| weekday := Some 8; section_start := Some 1;
     course_name := None; location := None;
     teacher := None; weeks_raw := None |}.


(** What every pool-level operation guarantees about the engine: pages
    stay closed, page numbers are never reused, the calls made are pool
    calls, and a page's viewport is kept or set to the default one. *)
Record engine_step {Data} (st st' : State Data) : Prop := {
  es_closed : closedPages st ⊆ closedPages st';
  es_allocated : (allocated st ≤ allocated st')%nat;
  es_calls : log_extends pool_call st st';
  es_viewports : ∀ p v, viewports st' !! p = Some v →
                        viewports st !! p = Some v ∨ v = defaultViewport
}.

(** What a whole [render] guarantees: the calls made are render calls, and
    a page's viewport is kept or set to one of height 600 and scale 2. *)
Definition render_step {Data} (st st' : State Data) : Prop :=
  log_extends render_call st st' ∧
  ∀ p v, viewports st' !! p = Some v →
         viewports st !! p = Some v ∨ fixed_height_and_scale v.

(** * Properties *)

(** Reduce the fields of an updated state, and nothing else. *)
Ltac state_simpl :=
  cbn [fst snd browser pagePool busyPages templateCache compiledTemplates
       templatesDir closedPages viewports allocated calls
       set_browser set_pagePool set_busyPages set_templateCache
       set_compiledTemplates set_templatesDir set_closedPages set_viewports
       set_allocated set_calls engine push] in *.

Section Properties.

Context {Data : Type}.
Variable ejs_compile : string → error + (Data → error + string).
Variable cfg : Config.
Implicit Types st : State Data.
Implicit Types sys : System Data.

(** ** The call log *)

Lemma log_extends_refl P st : log_extends P st st.
Proof. by exists []. Qed.

Lemma log_extends_trans P st1 st2 st3 :
  log_extends P st1 st2 → log_extends P st2 st3 → log_extends P st1 st3.
Proof.
  intros (a & Ha & Pa) (b & Hb & Pb). exists (b ++ a). split.
  - rewrite Hb, Ha. by rewrite app_assoc.
  - rewrite forallb_app. by rewrite Pa, Pb.
Qed.

Lemma log_extends_engine (P : EngineCall → bool) c st :
  P c = true → log_extends P st (engine c st).
Proof. intros HP. exists [c]. split; [done|]. simpl. by rewrite HP. Qed.

Lemma engine_step_refl st : engine_step st st.
Proof.
  split; [done | lia | apply log_extends_refl | auto].
Qed.

Lemma engine_step_trans st1 st2 st3 :
  engine_step st1 st2 → engine_step st2 st3 → engine_step st1 st3.
Proof.
  intros [c1 a1 l1 v1] [c2 a2 l2 v2]. split.
  - set_solver.
  - lia.
  - by eapply log_extends_trans.
  - intros p v H. destruct (v2 p v H) as [H'|H']; auto.
Qed.

(** Steps that leave the engine alone. *)
Lemma engine_step_same st st' :
  closedPages st' = closedPages st → allocated st' = allocated st →
  calls st' = calls st → viewports st' = viewports st →
  engine_step st st'.
Proof.
  intros Hc Ha Hl Hv. split.
  - by rewrite Hc.
  - lia.
  - exists []. by rewrite Hl.
  - intros p v. rewrite Hv. auto.
Qed.

(** ** [createPage] *)

Lemma createPage_engine_step o st :
  engine_step st (snd (createPage o st)).
Proof.
  destruct o as [[] [] []]; cbn; split; cbn; try done; try lia;
    try (by eexists [_]); try (by eexists [_; _]); try (by eexists [_; _; _]);
    try (by intros p v; auto).
  intros p v. rewrite lookup_insert. case_decide; naive_solver.
Qed.

Lemma createPage_frame o st :
  let st' := snd (createPage o st) in
  pagePool st' = pagePool st ∧ busyPages st' = busyPages st ∧
  templateCache st' = templateCache st ∧
  compiledTemplates st' = compiledTemplates st ∧
  templatesDir st' = templatesDir st ∧ browser st' = browser st ∧
  closedPages st' = closedPages st.
Proof. by destruct o as [[] [] []]. Qed.

Lemma createPage_settles o st : fst (createPage o st) ≠ Pending.
Proof. by destruct o as [[] [] []]. Qed.

(** A page that [createPage] returns is a new one, with the default
    viewport. *)
Lemma createPage_returns o st p st' :
  createPage o st = (Returned p, st') →
  p = allocated st ∧ allocated st' = S p ∧
  viewports st' !! p = Some defaultViewport.
Proof.
  destruct o as [[] [] []]; cbn; intros [= <- <-]; cbn.
  repeat split. by rewrite lookup_insert_eq.
Qed.

(** ** [prewarmPagePool] and [getBrowser] *)

Lemma createPages_engine_step os st :
  engine_step st (snd (createPages os st)).
Proof.
  revert st. induction os as [|o os IH]; intros st; cbn.
  - apply engine_step_refl.
  - pose proof (createPage_engine_step o st) as H1.
    destruct (createPage o st) as [r st1]; cbn in H1.
    specialize (IH st1). destruct (createPages os st1) as [rs st2].
    cbn in *. by eapply engine_step_trans.
Qed.

Lemma prewarmPagePool_engine_step os st :
  engine_step st (snd (prewarmPagePool cfg os st)).
Proof.
  unfold prewarmPagePool, bind.
  pose proof (createPages_engine_step
                (map os (seq 0 (PAGE_POOL_SIZE cfg))) st) as H.
  destruct (createPages _ st) as [[ps|e|] st1]; cbn in *; try done.
  destruct H as [c a l v]. split; done.
Qed.

Lemma precompile_files_engine files st :
  let st' := snd (precompile_files ejs_compile files st) in
  closedPages st' = closedPages st ∧ allocated st' = allocated st ∧
  calls st' = calls st ∧ viewports st' = viewports st ∧
  pagePool st' = pagePool st ∧ busyPages st' = busyPages st ∧
  browser st' = browser st.
Proof.
  revert st. induction files as [|[file template] files IH]; intros st; cbn.
  - done.
  - destruct (ejs_compile template) as [e|f]; [done|].
    destruct (IH (set_compiledTemplates
                    (<[replace ".ejs" "" file := f]>
                       (compiledTemplates
                          (set_templateCache
                             (<[replace ".ejs" "" file := template]>
                                (templateCache st)) st)))
                    (set_templateCache
                       (<[replace ".ejs" "" file := template]>
                          (templateCache st)) st)))
      as (?&?&?&?&?&?&?).
    cbn in *. done.
Qed.

Lemma getBrowser_engine_step o st :
  engine_step st (snd (getBrowser ejs_compile cfg o st)).
Proof.
  unfold getBrowser. destruct (browser st); [apply engine_step_refl|].
  unfold bind.
  assert (∃ r st1, (if PRECOMPILE_TEMPLATES cfg
                    then precompileTemplates ejs_compile else ret tt) st
                   = (r, st1) ∧ engine_step st st1) as (r & st1 & -> & H1).
  { destruct (PRECOMPILE_TEMPLATES cfg).
    - unfold precompileTemplates.
      destruct (precompile_files_engine
                  (List.filter (λ e, endsWith (fst e) ".ejs") (templatesDir st))
                  st) as (?&?&?&?&_).
      eexists _, _. split; [apply surjective_pairing|].
      by apply engine_step_same.
    - eexists _, _. split; [done|]. apply engine_step_refl. }
  destruct r as [[]|e|]; cbn; try done.
  assert (engine_step st1 (engine Launch st1)) as H2.
  { split; cbn; [done|lia|by apply log_extends_engine|auto]. }
  unfold await_call. destruct (launch_fulfilled o); cbn.
  2: by eapply engine_step_trans.
  assert (engine_step st1 (set_browser true (engine Launch st1))) as H3.
  { destruct H2. by split. }
  destruct (PREWARM_PAGES cfg); cbn.
  - eapply engine_step_trans; [done|]. eapply engine_step_trans; [done|].
    apply prewarmPagePool_engine_step.
  - by eapply engine_step_trans.
Qed.

(** ** [acquirePage] *)

Lemma pop_open_Some closed pool p pool' :
  pop_open closed pool = (Some p, pool') →
  (p ∉ closed) ∧ p ∈ pool ∧ ∀ q, q ∈ pool' → q ∈ pool.
Proof.
  induction pool as [|q pool IH]; cbn; [done|].
  case_bool_decide as Hq.
  - intros H. destruct (IH H) as (Hp & Hin & Hsub). clear IH H.
    split; [done|]. split; [by right|]. intros r Hr. right. by apply Hsub.
  - intros [= <- <-]. split; [done|]. split; [by left|].
    intros r Hr. by right.
Qed.

Lemma acquire_begin_engine st :
  let st' := snd (acquire_begin cfg st) in
  closedPages st' = closedPages st ∧ allocated st' = allocated st ∧
  calls st' = calls st ∧ viewports st' = viewports st.
Proof.
  unfold acquire_begin.
  destruct (pop_open (closedPages st) (pagePool st)) as [[p|] pool']; cbn.
  - done.
  - by case_match.
Qed.

Lemma acquire_begin_engine_step st :
  engine_step st (snd (acquire_begin cfg st)).
Proof.
  destruct (acquire_begin_engine st) as (?&?&?&?). by apply engine_step_same.
Qed.

(** A page taken from the idle stack was in it, is open, and is busy
    afterwards. *)
Lemma acquire_begin_acquired st p st' :
  acquire_begin cfg st = (Acquired p, st') →
  (p ∉ closedPages st) ∧ p ∈ pagePool st ∧
  busyPages st' = {[p]} ∪ busyPages st.
Proof.
  unfold acquire_begin.
  destruct (pop_open (closedPages st) (pagePool st)) as [[q|] pool'] eqn:E.
  - intros [= <- <-]. destruct (pop_open_Some _ _ _ _ E) as (?&?&?). done.
  - by case_match.
Qed.

Lemma acquire_create_engine_step o st :
  engine_step st (snd (acquire_create o st)).
Proof.
  unfold acquire_create, bind.
  pose proof (createPage_engine_step o st) as H.
  destruct (createPage o st) as [[p|e|] st1]; cbn in *; try done.
  destruct H. by split.
Qed.

(** A page created on demand is new, and busy afterwards. *)
Lemma acquire_create_returns o st p st' :
  acquire_create o st = (Returned p, st') →
  p = allocated st ∧ busyPages st' = {[p]} ∪ busyPages st ∧
  pagePool st' = pagePool st.
Proof.
  unfold acquire_create, bind.
  pose proof (createPage_frame o st) as F.
  destruct (createPage o st) as [[q|e|] st1] eqn:E; cbn in *; try done.
  intros [= <- <-]. cbn. destruct (createPage_returns _ _ _ _ E) as (-> & _).
  destruct F as (-> & -> & _). done.
Qed.

Lemma acquirePage_engine_step o st :
  engine_step st (snd (acquirePage cfg o st)).
Proof.
  unfold acquirePage.
  pose proof (acquire_begin_engine_step st) as H.
  destruct (acquire_begin cfg st) as [[p| |] st1]; cbn in *; try done.
  eapply engine_step_trans; [done|]. apply acquire_create_engine_step.
Qed.

(** Every page [acquirePage] returns is in the busy collection. *)
Lemma acquirePage_busy o st p st' :
  acquirePage cfg o st = (Returned p, st') → p ∈ busyPages st'.
Proof.
  unfold acquirePage.
  destruct (acquire_begin cfg st) as [[q| |] st1] eqn:E.
  - intros [= <- <-]. destruct (acquire_begin_acquired _ _ _ E) as (_&_&->).
    set_solver.
  - intros H. destruct (acquire_create_returns _ _ _ _ H) as (_&->&_).
    set_solver.
  - done.
Qed.

(** ** [releasePage] *)

Lemma release_begin_engine_step p st :
  engine_step st (snd (release_begin p st)).
Proof.
  unfold release_begin. destruct (isClosed p _); cbn.
  - by apply engine_step_same.
  - split; cbn; [done | lia | by eexists [_] | auto].
Qed.

Lemma release_begin_busy p st :
  busyPages (snd (release_begin p st)) = busyPages st ∖ {[p]}.
Proof. unfold release_begin. by destruct (isClosed p _). Qed.

Lemma release_close_engine_step p fulfilled st :
  engine_step st (release_close p fulfilled st).
Proof.
  unfold release_close.
  destruct fulfilled; split; cbn;
    [set_solver | lia | by eexists [_] | auto
    | done | lia | by eexists [_] | auto].
Qed.

Lemma release_replace_engine_step o st :
  engine_step st (snd (release_replace o st)).
Proof.
  unfold release_replace, bind.
  pose proof (createPage_engine_step o st) as H.
  destruct (createPage o st) as [[p|e|] st1]; cbn in *; try done.
  destruct H. by split.
Qed.

Lemma releasePage_engine_step o p st :
  engine_step st (snd (releasePage cfg o p st)).
Proof.
  unfold releasePage.
  pose proof (release_begin_engine_step p st) as H1.
  destruct (release_begin p st) as [[] st1]; cbn in *; [|done].
  destruct (reset_fulfilled o); cbn.
  { destruct H1. by split. }
  pose proof (release_close_engine_step p (close_fulfilled o) st1) as H2.
  destruct (below_target cfg (release_close p (close_fulfilled o) st1)); cbn.
  - eapply engine_step_trans; [done|]. eapply engine_step_trans; [done|].
    apply release_replace_engine_step.
  - by eapply engine_step_trans.
Qed.

(** [releasePage] settles, and whatever happens in it, the page has left
    the busy collection. *)
Lemma releasePage_settles o p st : fst (releasePage cfg o p st) ≠ Pending.
Proof.
  unfold releasePage.
  destruct (release_begin p st) as [[] st1]; cbn; [|done].
  destruct (reset_fulfilled o); [done|].
  destruct (below_target cfg (release_close p (close_fulfilled o) st1)); [|done].
  unfold release_replace, bind.
  pose proof (createPage_settles (replacement o)
                (release_close p (close_fulfilled o) st1)) as H.
  by destruct (createPage _ _) as [[q|e|] st2].
Qed.

Lemma releasePage_not_busy o p st :
  p ∉ busyPages (snd (releasePage cfg o p st)).
Proof.
  unfold releasePage.
  pose proof (release_begin_busy p st) as Hb.
  destruct (release_begin p st) as [[] st1]; cbn in *; [|set_solver].
  destruct (reset_fulfilled o); cbn; [set_solver|].
  assert (busyPages (release_close p (close_fulfilled o) st1)
          = busyPages st1) as Hc.
  { unfold release_close. by destruct (close_fulfilled o). }
  destruct (below_target cfg (release_close p (close_fulfilled o) st1)); cbn; [|set_solver].
  unfold release_replace, bind.
  pose proof (createPage_frame (replacement o)
                (release_close p (close_fulfilled o) st1)) as F.
  destruct (createPage _ _) as [[q|e|] st2]; cbn in *;
    destruct F as (_ & Hbusy & _); set_solver.
Qed.

(** ** Reading logs *)

Lemma log_extends_weaken (P Q : EngineCall → bool) st st' :
  (∀ c, P c = true → Q c = true) →
  log_extends P st st' → log_extends Q st st'.
Proof.
  intros HPQ (added & Hl & HP). exists added. split; [done|].
  rewrite forallb_forall in *. auto.
Qed.

Lemma pool_call_render_call c : pool_call c = true → render_call c = true.
Proof.
  destruct c; cbn; try done. intros H.
  apply andb_true_iff in H as [H1 H2]. apply andb_true_iff in H1 as [_ H1].
  by rewrite H1, H2.
Qed.

Lemma pool_calls_screenshots added :
  forallb pool_call added = true → screenshots added = [].
Proof.
  induction added as [|c added IH]; cbn; [done|].
  intros H. apply andb_true_iff in H as [Hc H].
  destruct c; cbn in *; try done; by apply IH.
Qed.

Lemma screenshots_app l1 l2 :
  screenshots (l1 ++ l2) = screenshots l1 ++ screenshots l2.
Proof. unfold screenshots. by rewrite flat_map_app. Qed.

Lemma engine_step_screenshots st st' :
  engine_step st st' → screenshots (calls st') = screenshots (calls st).
Proof.
  intros [_ _ (added & -> & H) _].
  by rewrite screenshots_app, pool_calls_screenshots.
Qed.

Lemma render_calls_wait_timeouts added :
  forallb render_call added = true →
  Forall (λ t, t = 3000) (wait_timeouts added).
Proof.
  induction added as [|c added IH]; cbn; [constructor|].
  intros H. apply andb_true_iff in H as [Hc H].
  destruct c; cbn in *; try by apply IH.
  constructor; [lia | by apply IH].
Qed.

Lemma render_calls_viewports added :
  forallb render_call added = true →
  Forall fixed_height_and_scale (requested_viewports added).
Proof.
  induction added as [|c added IH]; cbn; [constructor|].
  intros H. apply andb_true_iff in H as [Hc H].
  destruct c; cbn in *; try by apply IH.
  constructor; [|by apply IH].
  apply andb_true_iff in Hc as [H1 H2]. split; lia.
Qed.

(** ** The [try] block of [render] *)

Lemma render_body_settles o html options page st :
  fst (render_body o html options page st) ≠ Pending.
Proof.
  unfold render_body, bind, viewport, setViewport, await_call, catch_ignore,
    evaluateBoundingBox, takeScreenshot, ret.
  repeat (case_match; simplify_eq; cbn; try done).
Qed.

(** The block leaves both collections, the page numbering and the closed
    pages alone. *)
Lemma render_body_frame o html options page st :
  let st' := snd (render_body o html options page st) in
  pagePool st' = pagePool st ∧ busyPages st' = busyPages st ∧
  closedPages st' = closedPages st ∧ allocated st' = allocated st.
Proof.
  unfold render_body, bind, viewport, setViewport, await_call, catch_ignore,
    evaluateBoundingBox, takeScreenshot, ret.
  repeat (case_match; simplify_eq; cbn; try done).
Qed.

Lemma render_body_calls o html options page st :
  log_extends render_call st (snd (render_body o html options page st)).
Proof.
  unfold render_body, bind, viewport, setViewport, await_call, catch_ignore,
    evaluateBoundingBox, takeScreenshot, ret.
  repeat (case_match; simplify_eq; cbn; try (by exists []));
    try (by eexists [_]); try (by eexists [_; _]); try (by eexists [_; _; _]);
    try (by eexists [_; _; _; _]); try (by eexists [_; _; _; _; _]).
Qed.

(** The only viewport the block ever sets is the requested width with
    height 600 and scale factor 2, on its own page, and it does so exactly
    when the page's current width differs from the requested one (and the
    engine accepts the call). *)
Lemma render_body_viewports o html options page st v :
  viewports st !! page = Some v →
  viewports (snd (render_body o html options page st)) =
    if negb (width v =? requested_width options) && setViewport_fulfilled o
    then <[page := {| width := requested_width options; height := 600;
                      deviceScaleFactor := 2 |}]> (viewports st)
    else viewports st.
Proof.
  intros Hv.
  unfold render_body, bind, viewport, setViewport, await_call, catch_ignore,
    evaluateBoundingBox, takeScreenshot, ret. rewrite Hv.
  destruct (negb (width v =? requested_width options));
    destruct (setViewport_fulfilled o); cbn; try done;
    repeat (case_match; simplify_eq; cbn; try done).
Qed.

Lemma render_body_viewports_none o html options page st :
  viewports st !! page = None →
  viewports (snd (render_body o html options page st)) = viewports st.
Proof.
  intros Hv. unfold render_body, bind, viewport. by rewrite Hv.
Qed.

(** When the block returns a buffer, the engine measured some box and the
    buffer is its answer to the one capture request made, clipped to that
    box. *)
Lemma render_body_returns o html options page st png st' :
  render_body o html options page st = (Returned png, st') →
  ∃ box, boundingBox o = Some box ∧
         screenshot o (screenshotOptions box) = Some png ∧
         screenshots (calls st') =
           (page, screenshotOptions box) :: screenshots (calls st).
Proof.
  unfold render_body, bind, viewport, setViewport, await_call, catch_ignore,
    evaluateBoundingBox, takeScreenshot, ret.
  repeat (case_match; simplify_eq; cbn; try done);
    intros [= <- <-]; eexists; (split; [done|]); (split; [done|]); done.
Qed.

(** The outcome of the readiness wait changes nothing. *)
Lemma render_body_wait_irrelevant b o html options page st :
  render_body (set_waitForFunction b o) html options page st =
  render_body o html options page st.
Proof.
  unfold render_body, bind, viewport, setViewport, await_call, catch_ignore,
    evaluateBoundingBox, takeScreenshot, ret. cbn.
  destruct b, (waitForFunction_fulfilled o); try done;
    repeat (case_match; simplify_eq; cbn; try done).
Qed.

(** ** Template resolution *)

(** [renderTemplate] touches the two caches and nothing else. *)
Lemma renderTemplate_frame templateName data st :
  let st' := snd (renderTemplate ejs_compile cfg templateName data st) in
  pagePool st' = pagePool st ∧ busyPages st' = busyPages st ∧
  closedPages st' = closedPages st ∧ viewports st' = viewports st ∧
  allocated st' = allocated st ∧ calls st' = calls st ∧
  browser st' = browser st ∧ templatesDir st' = templatesDir st.
Proof.
  unfold renderTemplate, getTemplate.
  repeat (case_match; simplify_eq; cbn; try done).
Qed.

(** With no compiled function, no cached source and no file, the template
    is not found and the state is as before. *)
Lemma renderTemplate_not_found templateName data st :
  compiledTemplates st !! templateName = None →
  templateCache st !! templateName = None →
  readFile (String.append templateName ".ejs") st = None →
  renderTemplate ejs_compile cfg templateName data st =
    (inl (TemplateNotFound templateName), st).
Proof.
  intros H1 H2 H3. unfold renderTemplate, getTemplate.
  rewrite H1, H2, H3. by destruct (CACHE_TEMPLATES cfg).
Qed.

(** A compiled function, once stored, answers every later render of its
    identifier; [clearTemplateCache] does not remove it. *)
Lemma renderTemplate_compiled templateName data st compiled :
  compiledTemplates st !! templateName = Some compiled →
  renderTemplate ejs_compile cfg templateName data (clearTemplateCache st) =
    (compiled data, clearTemplateCache st).
Proof. intros H. unfold renderTemplate. cbn. by rewrite H. Qed.

(** ** [render] *)

(** [render] after its markup is resolved. *)
Lemma render_resolved o templateName data options st html st1 :
  renderTemplate ejs_compile cfg templateName data st = (inr html, st1) →
  render ejs_compile cfg o templateName data options st =
    match getBrowser ejs_compile cfg o st1 with
    | (Returned _, st2) =>
        match acquirePage cfg (acquire_outcome o) st2 with
        | (Returned page, st3) =>
            try_finally (render_body o html options page)
                        (releasePage cfg (release o) page) st3
        | (Thrown e, st3) => (Thrown e, st3)
        | (Pending, st3) => (Pending, st3)
        end
    | (Thrown e, st2) => (Thrown e, st2)
    | (Pending, st2) => (Pending, st2)
    end.
Proof. intros H. unfold render, bind. by rewrite H. Qed.

(** [C2] Once [render] has acquired a page, that page is busy; the [try]
    block settles (it returns or throws, whatever the viewport, load,
    measure and capture steps do); [releasePage] then runs on the state the
    block left; [render] settles only after that, and the page is no longer
    in the busy collection when it does.  An error of the block surfaces
    once the release has returned. *)
Theorem render_releases_acquired_page o templateName data options st
    html st1 st2 page st3 :
  renderTemplate ejs_compile cfg templateName data st = (inr html, st1) →
  getBrowser ejs_compile cfg o st1 = (Returned tt, st2) →
  acquirePage cfg (acquire_outcome o) st2 = (Returned page, st3) →
  let settled := render ejs_compile cfg o templateName data options st in
  page ∈ busyPages st3 ∧
  ∃ r st4,
    render_body o html options page st3 = (r, st4) ∧ r ≠ Pending ∧
    snd settled = snd (releasePage cfg (release o) page st4) ∧
    fst settled ≠ Pending ∧
    (page ∉ busyPages (snd settled)) ∧
    (∀ e, r = Thrown e →
          fst (releasePage cfg (release o) page st4) = Returned tt →
          fst settled = Thrown e).
Proof.
  intros Ht Hb Ha settled. subst settled.
  split; [by eapply acquirePage_busy|].
  rewrite (render_resolved _ _ _ _ _ _ _ Ht), Hb, Ha.
  pose proof (render_body_settles o html options page st3) as Hs.
  destruct (render_body o html options page st3) as [r st4] eqn:Eb.
  exists r, st4. split; [done|]. split; [done|].
  pose proof (releasePage_settles (release o) page st4) as Hr.
  pose proof (releasePage_not_busy (release o) page st4) as Hn.
  unfold try_finally. rewrite Eb.
  destruct (releasePage cfg (release o) page st4) as [rr st5].
  cbn in *. destruct r as [png|e|]; [| |done];
    destruct rr as [[]|e'|]; cbn; done.
Qed.

(** [C6] When the template has no source, or when resolving or executing
    it throws, [render] throws that error at once: both collections, the
    page numbering, the closed pages, the viewports, the browser and the
    call log are as before, so no page was created or acquired. *)
Theorem template_failure_touches_no_session o templateName data options st
    e st1 :
  renderTemplate ejs_compile cfg templateName data st = (inl e, st1)
  ∨ (compiledTemplates st !! templateName = None ∧
     templateCache st !! templateName = None ∧
     readFile (String.append templateName ".ejs") st = None ∧
     e = TemplateNotFound templateName ∧ st1 = st) →
  render ejs_compile cfg o templateName data options st = (Thrown e, st1) ∧
  pagePool st1 = pagePool st ∧ busyPages st1 = busyPages st ∧
  allocated st1 = allocated st ∧ calls st1 = calls st ∧
  browser st1 = browser st ∧ closedPages st1 = closedPages st ∧
  viewports st1 = viewports st.
Proof.
  intros H.
  assert (renderTemplate ejs_compile cfg templateName data st = (inl e, st1))
    as Ht.
  { destruct H as [H|(H1 & H2 & H3 & -> & ->)]; [done|].
    by apply renderTemplate_not_found. }
  clear H. split.
  - unfold render. by rewrite Ht.
  - pose proof (renderTemplate_frame templateName data st) as F.
    rewrite Ht in F. cbn in F. naive_solver.
Qed.

(** [C7] When [render] returns a buffer and the measurement reported the
    extent (W, H), exactly one capture request was added to the log, of
    type png, clipped to the rectangle at (0, 0) of width
    W and height H, with [omitBackground] false; the buffer returned is the
    engine's answer to that request. *)
Theorem capture_clipped_to_content o templateName data options st png st'
    W H :
  render ejs_compile cfg o templateName data options st = (Returned png, st') →
  boundingBox o = Some (W, H) →
  let request :=
    {| type := "png";
       clip := {| clip_x := 0; clip_y := 0;
                  clip_width := W; clip_height := H |};
       omitBackground := false |} in
  ∃ page,
    screenshots (calls st') = (page, request) :: screenshots (calls st) ∧
    screenshot o request = Some png.
Proof.
  intros Hr Hbox request. subst request.
  destruct (renderTemplate ejs_compile cfg templateName data st)
    as [[e|html] st1] eqn:Ht.
  { unfold render in Hr. by rewrite Ht in Hr. }
  rewrite (render_resolved _ _ _ _ _ _ _ Ht) in Hr.
  pose proof (renderTemplate_frame templateName data st) as Ft.
  rewrite Ht in Ft. cbn in Ft. destruct Ft as (_&_&_&_&_&Hc1&_).
  pose proof (getBrowser_engine_step o st1) as Hg.
  destruct (getBrowser ejs_compile cfg o st1) as [[[]|e|] st2]; [|done|done].
  pose proof (acquirePage_engine_step (acquire_outcome o) st2) as Ha.
  destruct (acquirePage cfg (acquire_outcome o) st2) as [[page|e|] st3] eqn:Ea;
    [|done|done].
  cbn [fst snd] in *. unfold try_finally in Hr.
  destruct (render_body o html options page st3) as [[png'|e|] st4] eqn:Eb;
    [| |done].
  2: { by destruct (releasePage cfg (release o) page st4) as [[[]|?|] ?]. }
  pose proof (releasePage_engine_step (release o) page st4) as Hrel.
  destruct (releasePage cfg (release o) page st4) as [[[]|?|] st5];
    [|done|done].
  injection Hr as <- <-. cbn [fst snd] in Hrel.
  destruct (render_body_returns _ _ _ _ _ _ _ Eb) as (box & Hb & Hs & Hl).
  rewrite Hbox in Hb. injection Hb as <-.
  exists page. split; [|done].
  rewrite (engine_step_screenshots _ _ Hrel), Hl.
  rewrite (engine_step_screenshots _ _ Ha), (engine_step_screenshots _ _ Hg).
  by rewrite Hc1.
Qed.

(** ** What a [render] does to the engine *)

Lemma render_step_refl st : render_step st st.
Proof. split; [apply log_extends_refl | auto]. Qed.

Lemma render_step_same st st' :
  calls st' = calls st → viewports st' = viewports st → render_step st st'.
Proof.
  intros Hc Hv. split.
  - exists []. by rewrite Hc.
  - intros p v. rewrite Hv. auto.
Qed.

Lemma render_step_trans st1 st2 st3 :
  render_step st1 st2 → render_step st2 st3 → render_step st1 st3.
Proof.
  intros [l1 v1] [l2 v2]. split; [by eapply log_extends_trans|].
  intros p v H. destruct (v2 p v H) as [H'|H']; auto.
Qed.

Lemma engine_step_render_step st st' : engine_step st st' → render_step st st'.
Proof.
  intros [_ _ Hl Hv]. split.
  - eapply log_extends_weaken; [apply pool_call_render_call | done].
  - intros p v H. destruct (Hv p v H) as [? | ->]; [by left | by right].
Qed.

Lemma render_body_render_step o html options page st :
  render_step st (snd (render_body o html options page st)).
Proof.
  split; [apply render_body_calls|]. intros p v.
  destruct (viewports st !! page) as [cur|] eqn:Hcur.
  - rewrite (render_body_viewports _ _ _ _ _ _ Hcur).
    destruct (negb _ && _); [|auto].
    rewrite lookup_insert. case_decide; [|auto]. intros [= <-]. by right.
  - rewrite (render_body_viewports_none _ _ _ _ _ Hcur). auto.
Qed.

Lemma try_finally_render_step {A} (body : M Data A) cleanup st :
  render_step st (snd (body st)) →
  (∀ st', render_step st' (snd (cleanup st'))) →
  render_step st (snd (try_finally body cleanup st)).
Proof.
  intros Hb Hc. unfold try_finally.
  destruct (body st) as [r st1]; cbn in Hb.
  specialize (Hc st1). destruct (cleanup st1) as [rr st2]; cbn in Hc.
  destruct r, rr; cbn; try done; by eapply render_step_trans.
Qed.

Lemma render_render_step o templateName data options st :
  render_step st (snd (render ejs_compile cfg o templateName data options st)).
Proof.
  pose proof (renderTemplate_frame templateName data st) as Ft.
  destruct (renderTemplate ejs_compile cfg templateName data st)
    as [[e|html] st1] eqn:Ht; cbn [fst snd] in Ft.
  - unfold render. rewrite Ht. cbn.
    destruct Ft as (_&_&_&Hv&_&Hc&_). split.
    + exists []. by rewrite Hc.
    + intros p v. rewrite Hv. auto.
  - rewrite (render_resolved _ _ _ _ _ _ _ Ht).
    assert (render_step st st1) as H1.
    { destruct Ft as (_&_&_&Hv&_&Hc&_). split.
      - exists []. by rewrite Hc.
      - intros p v. rewrite Hv. auto. }
    pose proof (getBrowser_engine_step o st1) as Hg.
    apply engine_step_render_step in Hg.
    destruct (getBrowser ejs_compile cfg o st1) as [[[]|e|] st2];
      cbn [fst snd] in *; try by eapply render_step_trans.
    pose proof (acquirePage_engine_step (acquire_outcome o) st2) as Ha.
    apply engine_step_render_step in Ha.
    assert (render_step st st2) as H2 by by eapply render_step_trans.
    destruct (acquirePage cfg (acquire_outcome o) st2) as [[page|e|] st3];
      cbn [fst snd] in *; try by eapply render_step_trans.
    eapply render_step_trans; [by eapply render_step_trans|].
    apply try_finally_render_step; [apply render_body_render_step|].
    intros st'. apply engine_step_render_step, releasePage_engine_step.
Qed.

Lemma getBrowser_wait_irrelevant b o st :
  getBrowser ejs_compile cfg (set_waitForFunction b o) st =
  getBrowser ejs_compile cfg o st.
Proof. done. Qed.

(** Once the markup is loaded, the [try] block waits for readiness with
    the timeout 3000, then measures, then captures what it measured; its
    outcome is that of the measure and the capture alone.  The log has the
    newest call first. *)
Lemma render_body_loaded o html options page st v :
  viewports st !! page = Some v →
  width v = requested_width options ∨ setViewport_fulfilled o = true →
  setContent_fulfilled o = true →
  let resize :=
    if negb (width v =? requested_width options)
    then [SetViewport page {| width := requested_width options;
                              height := 600; deviceScaleFactor := 2 |}]
    else [] in
  let capture :=
    match boundingBox o with
    | Some box => [Screenshot page (screenshotOptions box)]
    | None => []
    end in
  let outcome :=
    match boundingBox o with
    | None => Thrown (EngineFailure (EvaluateBoundingBox page))
    | Some box =>
        match screenshot o (screenshotOptions box) with
        | Some png => Returned png
        | None => Thrown (EngineFailure (Screenshot page (screenshotOptions box)))
        end
    end in
  fst (render_body o html options page st) = outcome ∧
  calls (snd (render_body o html options page st)) =
    capture ++
    [EvaluateBoundingBox page; WaitForFunction page 3000;
     SetContent page html "domcontentloaded"] ++ resize ++ calls st.
Proof.
  intros Hv Hw Hc.
  unfold render_body, bind, viewport, setViewport, await_call, catch_ignore,
    evaluateBoundingBox, takeScreenshot, ret.
  rewrite Hv, Hc.
  destruct (Z.eqb_spec (width v) (requested_width options)) as [E|E];
    cbn [negb].
  - destruct (waitForFunction_fulfilled o), (boundingBox o) as [box|];
      cbn; try done; by destruct (screenshot o (screenshotOptions box)).
  - destruct Hw as [Hw|Hw]; [done|]. rewrite Hw.
    destruct (waitForFunction_fulfilled o), (boundingBox o) as [box|];
      cbn; try done; by destruct (screenshot o (screenshotOptions box)).
Qed.

(** [C8] Every readiness wait a [render] adds to the call log carries the
    timeout 3000 ms, and whether that wait is fulfilled or rejected (its
    timeout expired) makes no difference to [render]: same result, same
    state.  And the wait is made and followed: a [render] that has its
    page and has loaded the markup logs, after [setContent], exactly one
    [waitForFunction] with timeout 3000, then the measure, then the capture
    of what was measured; the block's outcome is the captured buffer (or
    the failure of the measure or of the capture), whatever the wait
    answered, and [render] returns it once the page is released, so a wait
    that timed out never by itself makes [render] throw. *)
Theorem readiness_wait_bounded_and_soft o templateName data options st :
  (∃ added,
     calls (snd (render ejs_compile cfg o templateName data options st))
       = added ++ calls st ∧
     Forall (λ t, t = 3000) (wait_timeouts added)) ∧
  render ejs_compile cfg (set_waitForFunction false o)
         templateName data options st
  = render ejs_compile cfg (set_waitForFunction true o)
           templateName data options st ∧
  ∀ html st1 st2 page st3 v,
    renderTemplate ejs_compile cfg templateName data st = (inr html, st1) →
    getBrowser ejs_compile cfg o st1 = (Returned tt, st2) →
    acquirePage cfg (acquire_outcome o) st2 = (Returned page, st3) →
    viewports st3 !! page = Some v →
    width v = requested_width options ∨ setViewport_fulfilled o = true →
    setContent_fulfilled o = true →
    let resize :=
      if negb (width v =? requested_width options)
      then [SetViewport page {| width := requested_width options;
                                height := 600; deviceScaleFactor := 2 |}]
      else [] in
    let capture :=
      match boundingBox o with
      | Some box => [Screenshot page (screenshotOptions box)]
      | None => []
      end in
    let outcome :=
      match boundingBox o with
      | None => Thrown (EngineFailure (EvaluateBoundingBox page))
      | Some box =>
          match screenshot o (screenshotOptions box) with
          | Some png => Returned png
          | None =>
              Thrown (EngineFailure (Screenshot page (screenshotOptions box)))
          end
      end in
    ∃ st4,
      render_body o html options page st3 = (outcome, st4) ∧
      calls st4 =
        capture ++
        [EvaluateBoundingBox page; WaitForFunction page 3000;
         SetContent page html "domcontentloaded"] ++ resize ++ calls st3 ∧
      render ejs_compile cfg o templateName data options st =
        match releasePage cfg (release o) page st4 with
        | (Returned _, st5) => (outcome, st5)
        | (Thrown e, st5) => (Thrown e, st5)
        | (Pending, st5) => (Pending, st5)
        end.
Proof.
  split; [|split].
  - destruct (render_render_step o templateName data options st)
      as [(added & Hl & Hc) _].
    exists added. split; [done|]. by apply render_calls_wait_timeouts.
  - unfold render.
    destruct (renderTemplate ejs_compile cfg templateName data st)
      as [[e|html] st1]; [done|].
    unfold bind. rewrite !getBrowser_wait_irrelevant.
    destruct (getBrowser ejs_compile cfg o st1) as [[[]|e|] st2];
      [|done|done].
    cbn [acquire_outcome set_waitForFunction release].
    destruct (acquirePage cfg (acquire_outcome o) st2) as [[page|e|] st3];
      [|done|done].
    unfold try_finally.
    by rewrite (render_body_wait_irrelevant false),
               (render_body_wait_irrelevant true).
  - intros html st1 st2 page st3 v Ht Hg Ha Hv Hw Hc resize capture outcome.
    destruct (render_body_loaded o html options page st3 v Hv Hw Hc)
      as [Hout Hlog].
    fold resize capture outcome in Hout, Hlog.
    exists (snd (render_body o html options page st3)).
    split; [by rewrite <- Hout; destruct (render_body _ _ _ _ _)|].
    split; [exact Hlog|].
    rewrite (render_resolved _ _ _ _ _ _ _ Ht), Hg, Ha. unfold try_finally.
    destruct (render_body o html options page st3) as [r st4] eqn:Hb.
    cbn [fst snd] in *. subst r.
    assert (outcome ≠ Pending) as Hp.
    { subst outcome. destruct (boundingBox o) as [box|]; [|done].
      by destruct (screenshot o (screenshotOptions box)). }
    by destruct outcome.
Qed.

(** ** Viewports along a history *)

Lemma render_step_viewports st st' :
  render_step st st' →
  (∀ p v, viewports st !! p = Some v → fixed_height_and_scale v) →
  ∀ p v, viewports st' !! p = Some v → fixed_height_and_scale v.
Proof.
  intros [_ Hv] H p v Hp. destruct (Hv p v Hp) as [Hq|]; [|done].
  by eapply H.
Qed.

Lemma requested_viewports_app l1 l2 :
  requested_viewports (l1 ++ l2) =
  requested_viewports l1 ++ requested_viewports l2.
Proof. unfold requested_viewports. by rewrite flat_map_app. Qed.

Lemma render_step_requested st st' :
  render_step st st' →
  Forall fixed_height_and_scale (requested_viewports (calls st)) →
  Forall fixed_height_and_scale (requested_viewports (calls st')).
Proof.
  intros [(added & -> & Ha) _] H. rewrite requested_viewports_app.
  apply Forall_app. split; [by apply render_calls_viewports | done].
Qed.

Lemma perform_render_step st a :
  render_step st (perform ejs_compile cfg st a).
Proof.
  destruct a as [o name data options|o|o html options p|o p| |dir|p]; cbn.
  - apply render_render_step.
  - apply engine_step_render_step, acquirePage_engine_step.
  - apply render_body_render_step.
  - apply engine_step_render_step, releasePage_engine_step.
  - by apply render_step_same.
  - by apply render_step_same.
  - by apply render_step_same.
Qed.

Lemma history_render_step actions st :
  render_step st (foldl (perform ejs_compile cfg) st actions).
Proof.
  revert st. induction actions as [|a actions IH]; intros st; cbn.
  - apply render_step_refl.
  - eapply render_step_trans; [apply perform_render_step | apply IH].
Qed.

(** [C9] In every state the module can reach, every page's viewport has
    height 600 and device scale factor 2, and so has every viewport ever
    requested from the engine.  Pages are created with the viewport
    (800, 600, 2); the width asked for defaults to 800; and the [try] block
    of [render] sets the viewport (requested width, 600, 2) exactly when the
    page's current width differs from the requested width (and the engine
    accepts the call), whatever the current height and scale factor are. *)
Theorem viewport_height_and_scale_fixed st :
  reachable ejs_compile cfg st →
  (∀ p v, viewports st !! p = Some v →
          height v = 600 ∧ deviceScaleFactor v = 2) ∧
  Forall (λ v, height v = 600 ∧ deviceScaleFactor v = 2)
         (requested_viewports (calls st)) ∧
  (∀ o p st', createPage o st = (Returned p, st') →
     viewports st' !! p =
       Some {| width := 800; height := 600; deviceScaleFactor := 2 |}) ∧
  requested_width {| options_width := None |} = 800 ∧
  (∀ o html options page v,
     viewports st !! page = Some v →
     viewports (snd (render_body o html options page st)) =
       if negb (width v =? requested_width options) && setViewport_fulfilled o
       then <[page := {| width := requested_width options; height := 600;
                         deviceScaleFactor := 2 |}]> (viewports st)
       else viewports st).
Proof.
  intros (dir & actions & ->).
  pose proof (history_render_step actions (initial dir)) as H.
  split; [|split; [|split; [|split]]].
  - eapply render_step_viewports; [done|]. intros p v. cbn.
    by rewrite lookup_empty.
  - eapply (render_step_requested _ _ H). constructor.
  - intros o p st' Hc. by destruct (createPage_returns _ _ _ _ Hc) as (_&_&?).
  - done.
  - intros o html options page v Hv. by apply render_body_viewports.
Qed.

(** ** Release after a failed reset *)

Lemma release_close_frame p fulfilled st :
  let st' := release_close p fulfilled st in
  pagePool st' = pagePool st ∧ busyPages st' = busyPages st ∧
  allocated st' = allocated st ∧ calls st' = Close p :: calls st.
Proof. unfold release_close. by destruct fulfilled. Qed.

Lemma release_begin_open p st :
  isClosed p st = false →
  release_begin p st =
    (true, engine (EvaluateClearBody p)
             (set_busyPages (busyPages st ∖ {[p]}) st)).
Proof. intros H. unfold release_begin, isClosed in *. cbn. by rewrite H. Qed.

(** The task list, seen from its last task. *)
Lemma insert_last {A} (l : list A) (x y : A) :
  <[length l := y]> (l ++ [x]) = l ++ [y].
Proof.
  induction l as [|a l IH]; [done|]. cbn. f_equal. exact IH.
Qed.

Lemma delete_last {A} (l : list A) (x : A) : delete (length l) (l ++ [x]) = l.
Proof.
  induction l as [|a l IH]; [done|]. cbn. f_equal. exact IH.
Qed.

Lemma lookup_last {A} (l : list A) (x : A) : (l ++ [x]) !! length l = Some x.
Proof. induction l as [|a l IH]; [done|]. exact IH. Qed.

(** [C4, as amended] When the reset fails, [releasePage] creates the
    replacement itself and waits for it.  With the idle stack at or above
    its target it returns when the close has settled, without creating any
    page.  Below the target, the call is still suspended at
    [await createPage()] when the close has settled, its caller having seen
    nothing; it returns when a successful creation settles, with the new
    page on top of the idle stack. *)
Theorem release_awaits_replacement o p st ts :
  isClosed p st = false → reset_fulfilled o = false →
  let st1 := release_close p (close_fulfilled o) (snd (release_begin p st)) in
  let until_close :=
    [CallRelease p; ResetSettles (length ts) false;
     CloseSettles (length ts) (close_fulfilled o)] in
  let suspended := {| state := st1; tasks := ts ++ [ReleaseReplacing] |} in
  (below_target cfg st1 = false →
     run cfg until_close {| state := st; tasks := ts |}
       = Some ([ReleaseReturns], {| state := st1; tasks := ts |}) ∧
     releasePage cfg o p st = (Returned tt, st1) ∧
     allocated st1 = allocated st) ∧
  (below_target cfg st1 = true →
     run cfg until_close {| state := st; tasks := ts |}
       = Some ([], suspended) ∧
     ∀ q st2, createPage (replacement o) st1 = (Returned q, st2) →
       step cfg (CreateSettles (length ts) (replacement o)) suspended
         = Some ([ReleaseReturns], {| state := push q st2; tasks := ts |}) ∧
       releasePage cfg o p st = (Returned tt, push q st2) ∧
       pagePool (push q st2) = q :: pagePool st ∧
       allocated (push q st2) = S (allocated st)).
Proof.
  intros Hopen Hreset st1 until_close suspended.
  subst st1 until_close suspended.
  unfold releasePage, run, step. cbn [state tasks].
  rewrite (release_begin_open _ _ Hopen), Hreset. cbn [fst snd state tasks].
  set (st0 := engine (EvaluateClearBody p)
                (set_busyPages (busyPages st ∖ {[p]}) st)).
  destruct (release_close_frame p (close_fulfilled o) st0) as (Hp&_&Ha&_).
  cbn [fst snd] in *.
  rewrite lookup_last. cbn [state tasks].
  rewrite insert_last, lookup_last.
  split; intros Hb; rewrite Hb.
  - rewrite delete_last. split; [done|].
    split; [done|]. by rewrite Ha.
  - rewrite insert_last.
    split; [done|].
    intros q st2 Hc.
    rewrite lookup_last.
    unfold release_replace, bind. rewrite Hc.
    rewrite delete_last. split; [done|].
    split; [done|].
    pose proof (createPage_frame (replacement o)
                  (release_close p (close_fulfilled o) st0)) as F.
    rewrite Hc in F. cbn in F. destruct F as (F1 & _).
    destruct (createPage_returns _ _ _ _ Hc) as (-> & E2 & _).
    cbn. rewrite F1, Hp, E2, Ha. done.
Qed.

(** ** Interleaved requests *)

Lemma acquire_poll_engine_step st :
  engine_step st (snd (acquire_poll cfg st)).
Proof.
  unfold acquire_poll. destruct (pagePool st) as [|p pool']; cbn.
  - apply engine_step_refl.
  - destruct (isClosed p _); cbn.
    + pose proof (acquire_begin_engine_step (set_pagePool pool' st)) as H.
      destruct (acquire_begin cfg (set_pagePool pool' st)) as [s st'].
      cbn in *. destruct H. by split.
    + by apply engine_step_same.
Qed.

(** A page handed out by a polling tick is open. *)
Lemma acquire_poll_acquired st p st' :
  acquire_poll cfg st = (Some (Acquired p), st') → p ∉ closedPages st.
Proof.
  unfold acquire_poll. destruct (pagePool st) as [|q pool']; [done|].
  destruct (isClosed q (set_pagePool pool' st)) eqn:Hq.
  - destruct (acquire_begin cfg (set_pagePool pool' st)) as [s st''] eqn:E.
    intros [= -> <-]. by destruct (acquire_begin_acquired _ _ _ E) as (?&_).
  - intros [= <- <-]. unfold isClosed in Hq. cbn in Hq.
    by apply bool_decide_eq_false in Hq.
Qed.

Lemma after_acquire_step_state s st others :
  state (snd (after_acquire_step s st others)) = st.
Proof. by destruct s. Qed.

Lemma after_acquire_step_returns s st others p :
  AcquireReturns p ∈ fst (after_acquire_step s st others) → s = Acquired p.
Proof.
  destruct s; cbn; [|by intros ?%elem_of_nil..].
  intros H%list_elem_of_singleton. by injection H as ->.
Qed.

Lemma step_engine_step e sys obs sys' :
  step cfg e sys = Some (obs, sys') → engine_step (state sys) (state sys').
Proof.
  destruct sys as [st ts]. destruct e as [os| |p|i o|i|i f|i f|p]; cbn.
  - intros [= <- <-]. apply prewarmPagePool_engine_step.
  - pose proof (acquire_begin_engine_step st) as H.
    destruct (acquire_begin cfg st) as [s st1]. intros [= E].
    pose proof (after_acquire_step_state s st1 ts) as Hs.
    rewrite E in Hs. cbn in *. by rewrite Hs.
  - pose proof (release_begin_engine_step p st) as H.
    destruct (release_begin p st) as [[] st1]; by intros [= <- <-].
  - destruct (ts !! i) as [[]|]; try done.
    + pose proof (acquire_create_engine_step o st) as H.
      destruct (acquire_create o st) as [[q|err|] st1]; try done;
        by intros [= <- <-].
    + pose proof (release_replace_engine_step o st) as H.
      destruct (release_replace o st) as [[q|err|] st1]; try done;
        by intros [= <- <-].
  - destruct (ts !! i) as [[]|]; try done.
    pose proof (acquire_poll_engine_step st) as H.
    destruct (acquire_poll cfg st) as [[s|] st1].
    + intros [= E].
      pose proof (after_acquire_step_state s st1 (delete i ts)) as Hs.
      rewrite E in Hs. cbn in *. by rewrite Hs.
    + by intros [= <- <-].
  - destruct (ts !! i) as [[]|]; try done.
    destruct f; intros [= <- <-]; cbn.
    + by apply engine_step_same.
    + apply engine_step_refl.
  - destruct (ts !! i) as [[| |q|q|]|]; try done.
    pose proof (release_close_engine_step q f st) as H.
    destruct (below_target cfg (release_close q f st));
      by intros [= <- <-].
  - intros [= <- <-]. cbn. split; cbn; [set_solver|lia|by exists []|auto].
Qed.

(** A page that some acquire returns is open, or brand new. *)
Lemma step_acquire_returns e sys obs sys' p :
  step cfg e sys = Some (obs, sys') → AcquireReturns p ∈ obs →
  (p ∉ closedPages (state sys)) ∨ p = allocated (state sys).
Proof.
  destruct sys as [st ts]. destruct e as [os| |q|i o|i|i f|i f|q]; cbn.
  - intros [= <- <-] H. by apply elem_of_nil in H.
  - destruct (acquire_begin cfg st) as [s st1] eqn:E. intros [= E'] H.
    assert (s = Acquired p) as ->.
    { apply (after_acquire_step_returns _ st1 ts). by rewrite E'. }
    left. by destruct (acquire_begin_acquired _ _ _ E) as (?&_).
  - destruct (release_begin q st) as [[] st1]; intros [= <- <-] H.
    + by apply elem_of_nil in H.
    + apply list_elem_of_singleton in H. done.
  - destruct (ts !! i) as [[]|]; try done.
    + destruct (acquire_create o st) as [[q|err|] st1] eqn:E; try done;
        intros [= <- <-] H; apply list_elem_of_singleton in H; [|done].
      injection H as ->. right.
      by destruct (acquire_create_returns _ _ _ _ E) as (?&_).
    + destruct (release_replace o st) as [[q|err|] st1]; try done;
        intros [= <- <-] H; by apply list_elem_of_singleton in H.
  - destruct (ts !! i) as [[]|]; try done.
    destruct (acquire_poll cfg st) as [[s|] st1] eqn:E.
    + intros [= E'] H.
      assert (s = Acquired p) as ->.
      { apply (after_acquire_step_returns _ st1 (delete i ts)).
        by rewrite E'. }
      left. by eapply acquire_poll_acquired.
    + intros [= <- <-] H. by apply elem_of_nil in H.
  - destruct (ts !! i) as [[]|]; try done.
    destruct f; intros [= <- <-] H.
    + by apply list_elem_of_singleton in H.
    + by apply elem_of_nil in H.
  - destruct (ts !! i) as [[| |r|r|]|]; try done.
    destruct (below_target cfg (release_close r f st));
      intros [= <- <-] H.
    + by apply elem_of_nil in H.
    + by apply list_elem_of_singleton in H.
  - intros [= <- <-] H. by apply elem_of_nil in H.
Qed.

(** Once a page is closed, no schedule makes an acquire return it. *)
Lemma closed_page_never_acquired S es sys obs sys' :
  S ∈ closedPages (state sys) → (S < allocated (state sys))%nat →
  run cfg es sys = Some (obs, sys') → AcquireReturns S ∉ obs.
Proof.
  revert sys obs. induction es as [|e es IH]; intros sys obs Hc Ha; cbn.
  - intros [= <- <-]. apply not_elem_of_nil.
  - destruct (step cfg e sys) as [[obs1 sys1]|] eqn:E1; [|done].
    destruct (run cfg es sys1) as [[obs2 sys2]|] eqn:E2; [|done].
    intros [= <- <-]. intros [H|H]%elem_of_app.
    + destruct (step_acquire_returns _ _ _ _ _ E1 H) as [Hn| ->]; [done|lia].
    + destruct (step_engine_step _ _ _ _ E1) as [Hc1 Ha1 _ _].
      revert H. eapply IH; [| |done]; [set_solver|lia].
Qed.

(** ** The bound on busy pages, without overlapping acquires *)

Lemma pop_open_length closed pool r pool' :
  pop_open closed pool = (r, pool') →
  match r with
  | Some _ => (length pool' < length pool)%nat
  | None => pool' = []
  end.
Proof.
  revert r pool'. induction pool as [|q pool IH]; intros r pool'; cbn.
  - by intros [= <- <-].
  - case_bool_decide.
    + intros Hpop. specialize (IH _ _ Hpop). destruct r; [lia | done].
    + intros [= <- <-]. lia.
Qed.

Lemma size_add_page (p : page) (X : gset page) :
  (size ({[p]} ∪ X) ≤ S (size X))%nat.
Proof.
  destruct (decide (p ∈ X)) as [Hin|Hout].
  - assert ({[p]} ∪ X = X) as -> by set_solver. lia.
  - rewrite size_union by set_solver. rewrite size_singleton. lia.
Qed.

Lemma size_delete_page (p : page) (X : gset page) :
  p ∈ X → S (size (X ∖ {[p]})) = size X.
Proof.
  intros Hin. rewrite size_difference by set_solver.
  rewrite size_singleton. assert (size X ≠ 0%nat); [|lia].
  apply size_non_empty_iff. set_solver.
Qed.

Lemma createPages_length os st ps st' :
  createPages os st = (Returned ps, st') → length ps = length os.
Proof.
  revert st ps st'. induction os as [|o os IH]; intros st ps st'; cbn.
  - by intros [= <- <-].
  - destruct (createPage o st) as [r st1].
    destruct (createPages os st1) as [rs st2] eqn:E.
    destruct r as [p|e|], rs as [qs|e'|]; try done.
    intros [= <- <-]. cbn. by rewrite (IH _ _ _ E).
Qed.

Lemma createPages_frame os st :
  let st' := snd (createPages os st) in
  pagePool st' = pagePool st ∧ busyPages st' = busyPages st ∧
  browser st' = browser st.
Proof.
  revert st. induction os as [|o os IH]; intros st; cbn; [done|].
  pose proof (createPage_frame o st) as F.
  destruct (createPage o st) as [r st1]. specialize (IH st1).
  destruct (createPages os st1) as [rs st2]. cbn in *.
  destruct F as (F1 & F2 & _ & _ & _ & F3 & _). destruct IH as (I1 & I2 & I3).
  by rewrite I1, I2, I3.
Qed.

(** What the orderly states keep: idle and busy pages together never
    exceed [MAX_CONCURRENT], and nothing is idle or busy before the
    browser is launched. *)
Lemma orderly_capacity st :
  (PAGE_POOL_SIZE cfg ≤ MAX_CONCURRENT cfg)%nat →
  orderly ejs_compile cfg st →
  (length (pagePool st) + size (busyPages st) ≤ MAX_CONCURRENT cfg)%nat ∧
  (browser st = false → pagePool st = [] ∧ busyPages st = ∅).
Proof.
  intros Hcfg Ho. induction Ho as [dir|o st Ho IH|o st Ho IH Hb|o p st Ho IH Hp
                                   |o html options p st Ho IH|p st Ho IH].
  - cbn. split; [|done]. rewrite size_empty. lia.
  - destruct IH as [IH1 IH2]. unfold getBrowser.
    destruct (browser st) eqn:Hb; [by cbn [fst snd]; rewrite Hb|].
    destruct (IH2 eq_refl) as [Hpool Hbusy]. unfold bind.
    assert (∃ r st1, (if PRECOMPILE_TEMPLATES cfg
                      then precompileTemplates ejs_compile else ret tt) st
                     = (r, st1) ∧ pagePool st1 = [] ∧ busyPages st1 = ∅ ∧
                     browser st1 = false) as (r & st1 & -> & H1 & H2 & H3).
    { destruct (PRECOMPILE_TEMPLATES cfg).
      - unfold precompileTemplates.
        destruct (precompile_files_engine
                    (List.filter (λ e, endsWith (fst e) ".ejs")
                                 (templatesDir st)) st)
          as (_&_&_&_&Hq1&Hq2&Hq3).
        eexists _, _. split; [apply surjective_pairing|].
        cbn [snd]. by rewrite Hq1, Hq2, Hq3.
      - by eexists _, _. }
    assert (∀ st', pagePool st' = [] → busyPages st' = ∅ →
              (length (pagePool st') + size (busyPages st')
               ≤ MAX_CONCURRENT cfg)%nat) as Hzero.
    { intros st' -> ->. rewrite size_empty. cbn. lia. }
    destruct r as [[]|e|]; cbn [fst snd]; [|by auto|by auto].
    unfold await_call. destruct (launch_fulfilled o); cbn [fst snd].
    2: { cbn. split; [by apply Hzero | done]. }
    destruct (PREWARM_PAGES cfg); cbn [fst snd].
    2: { cbn. split; [by apply Hzero | done]. }
    unfold prewarmPagePool, bind.
    set (st2 := set_browser true (engine Launch st1)).
    pose proof (createPages_frame
                  (map (prewarm o) (seq 0 (PAGE_POOL_SIZE cfg))) st2) as F.
    destruct (createPages (map (prewarm o) (seq 0 (PAGE_POOL_SIZE cfg))) st2)
      as [[ps|e|] st3] eqn:E; cbn [fst snd] in *;
      destruct F as (Fp & Fb & Fl); subst st2; cbn in Fp, Fb, Fl.
    + cbn. rewrite Fp, Fb, H1, H2, Fl, app_nil_r, length_rev, size_empty.
      rewrite (createPages_length _ _ _ _ E), length_map, length_seq.
      split; [lia | done].
    + rewrite Fp, Fb, Fl, H1, H2, size_empty. cbn. split; [lia | done].
    + rewrite Fp, Fb, Fl, H1, H2, size_empty. cbn. split; [lia | done].
  - destruct IH as [IH1 _]. unfold acquirePage, acquire_begin.
    pose proof (pop_open_length (closedPages st) (pagePool st)) as Hpop.
    destruct (pop_open (closedPages st) (pagePool st)) as [[p|] pool'].
    + specialize (Hpop _ _ eq_refl). cbn beta iota in Hpop.
      pose proof (size_add_page p (busyPages st)). state_simpl.
      split; [lia | by rewrite Hb].
    + specialize (Hpop _ _ eq_refl). cbn beta iota in Hpop.
      subst pool'. state_simpl.
      destruct (size (busyPages st) <? MAX_CONCURRENT cfg)%nat eqn:Hlt.
      * apply Nat.ltb_lt in Hlt. unfold acquire_create, bind.
        pose proof (createPage_frame o (set_pagePool [] st)) as F.
        destruct (createPage o (set_pagePool [] st)) as [[q|e|] st1];
          state_simpl; destruct F as (Fp & Fb & _ & _ & _ & Fl & _);
          rewrite Fp, Fb, Fl.
        -- pose proof (size_add_page q (busyPages st)).
           cbn [length]. split; [lia | by rewrite Hb].
        -- cbn [length]. split; [lia | by rewrite Hb].
        -- cbn [length]. split; [lia | by rewrite Hb].
      * state_simpl. cbn [length]. split; [lia | by rewrite Hb].
  - destruct IH as [IH1 IH2].
    assert (browser st = true) as Hb.
    { destruct (browser st) eqn:Hb; [done|].
      destruct (IH2 eq_refl) as [_ Hbusy]. set_solver. }
    pose proof (size_delete_page p (busyPages st) Hp) as Hsize.
    unfold releasePage, release_begin.
    destruct (isClosed p (set_busyPages (busyPages st ∖ {[p]}) st)).
    { state_simpl. split; [lia | by rewrite Hb]. }
    cbn [fst snd]. destruct (reset_fulfilled o).
    { state_simpl. cbn [length]. split; [lia | by rewrite Hb]. }
    set (st0 := engine (EvaluateClearBody p)
                  (set_busyPages (busyPages st ∖ {[p]}) st)).
    destruct (release_close_frame p (close_fulfilled o) st0) as (Hp1&Hb1&_).
    assert (browser (release_close p (close_fulfilled o) st0) = true) as Hbr.
    { unfold release_close. by destruct (close_fulfilled o). }
    assert (pagePool st0 = pagePool st ∧
            busyPages st0 = busyPages st ∖ {[p]}) as [E1 E2] by done.
    cbn beta zeta in Hp1, Hb1. rewrite E1 in Hp1. rewrite E2 in Hb1.
    destruct (below_target cfg (release_close p (close_fulfilled o) st0)).
    2: { cbn [fst snd]. rewrite Hp1, Hb1, Hbr. split; [lia | done]. }
    unfold release_replace, bind.
    pose proof (createPage_frame (replacement o)
                  (release_close p (close_fulfilled o) st0)) as F.
    destruct (createPage (replacement o)
                (release_close p (close_fulfilled o) st0)) as [[q|e|] st1];
      cbn [fst snd] in *; destruct F as (Fp & Fb & _ & _ & _ & Fl & _).
    + state_simpl. cbn [length].
      rewrite Fp, Fb, Fl, Hp1, Hb1, Hbr. split; [lia | done].
    + rewrite Fp, Fb, Fl, Hp1, Hb1, Hbr. split; [lia | done].
    + rewrite Fp, Fb, Fl, Hp1, Hb1, Hbr. split; [lia | done].
  - destruct (render_body_frame o html options p st) as (-> & -> & _).
    assert (browser (snd (render_body o html options p st)) = browser st)
      as ->; [|done].
    unfold render_body, bind, viewport, setViewport, await_call, catch_ignore,
      evaluateBoundingBox, takeScreenshot, ret.
    repeat (case_match; simplify_eq; cbn; try done).
  - done.
Qed.

(** When the pool calls do not overlap, the busy collection never exceeds
    [MAX_CONCURRENT] (the idle target being no larger, as in [CONFIG]). *)
Lemma orderly_bound st :
  (PAGE_POOL_SIZE cfg ≤ MAX_CONCURRENT cfg)%nat →
  orderly ejs_compile cfg st →
  (size (busyPages st) ≤ MAX_CONCURRENT cfg)%nat.
Proof.
  intros Hcfg Ho. destruct (orderly_capacity st Hcfg Ho) as [H _]. lia.
Qed.

(** ** Where idle pages come from *)

Lemma elem_of_insert_inv {A} (l : list A) i x y :
  y ∈ <[i := x]> l → y = x ∨ y ∈ l.
Proof.
  intros (j & Hj)%list_elem_of_lookup.
  apply list_lookup_insert_Some in Hj as [(-> & -> & _)|(_ & Hj)].
  - by left.
  - right. by eapply list_elem_of_lookup_2.
Qed.

Lemma createPages_new os st ps st' :
  createPages os st = (Returned ps, st') →
  ∀ p, p ∈ ps → (allocated st ≤ p)%nat.
Proof.
  revert st ps st'. induction os as [|o os IH]; intros st ps st'; cbn.
  - intros [= <- <-] p Hp. by apply elem_of_nil in Hp.
  - pose proof (createPage_engine_step o st) as [_ Ha _ _].
    destruct (createPage o st) as [r st1] eqn:E1.
    destruct (createPages os st1) as [rs st2] eqn:E2.
    destruct r as [q|e|], rs as [qs|e'|]; try done.
    intros [= <- <-] p [->|Hp]%elem_of_cons.
    + destruct (createPage_returns _ _ _ _ E1) as (-> & _). lia.
    + specialize (IH _ _ _ E2 p Hp). cbn in Ha. lia.
Qed.

Lemma prewarmPagePool_pool os st q :
  q ∈ pagePool (snd (prewarmPagePool cfg os st)) →
  q ∈ pagePool st ∨ (allocated st ≤ q)%nat.
Proof.
  unfold prewarmPagePool, bind.
  pose proof (createPages_frame (map os (seq 0 (PAGE_POOL_SIZE cfg))) st) as F.
  destruct (createPages (map os (seq 0 (PAGE_POOL_SIZE cfg))) st)
    as [[ps|e|] st1] eqn:E; cbn [fst snd] in *;
    destruct F as (Fp & _); state_simpl; rewrite Fp; [|by left..].
  intros [Hq|Hq]%elem_of_app; [|by left].
  right. apply (createPages_new _ _ _ _ E).
  apply list_elem_of_In, in_rev. by apply list_elem_of_In.
Qed.

Lemma release_begin_pool p st :
  pagePool (snd (release_begin p st)) = pagePool st.
Proof. unfold release_begin. by case_match. Qed.

Lemma acquire_begin_pool st s st' q :
  acquire_begin cfg st = (s, st') → q ∈ pagePool st' → q ∈ pagePool st.
Proof.
  unfold acquire_begin.
  destruct (pop_open (closedPages st) (pagePool st)) as [[p|] pool'] eqn:E.
  - intros [= <- <-]. destruct (pop_open_Some _ _ _ _ E) as (_&_&Hsub).
    state_simpl. apply Hsub.
  - pose proof (pop_open_length _ _ _ _ E) as Hnil. cbn beta iota in Hnil.
    subst pool'. case_match; intros [= <- <-]; state_simpl;
      by intros ?%elem_of_nil.
Qed.

Lemma after_acquire_step_tasks s st others t :
  t ∈ tasks (snd (after_acquire_step s st others)) →
  t ∈ others ∨ t = AcquireCreating ∨ t = AcquirePolling.
Proof.
  destruct s; cbn; [by left|..];
    intros [?|?%list_elem_of_singleton]%elem_of_app; auto.
Qed.

(** After one event, an idle page was idle before, or is new, or was being
    reset by a release in flight. *)
Lemma step_pool e sys obs sys' q :
  step cfg e sys = Some (obs, sys') → q ∈ pagePool (state sys') →
  q ∈ pagePool (state sys) ∨ (allocated (state sys) ≤ q)%nat ∨
  ReleaseResetting q ∈ tasks sys.
Proof.
  destruct sys as [st ts]. destruct e as [os| |p|i o|i|i f|i f|p]; cbn.
  - intros [= <- <-] Hq. cbn in Hq.
    destruct (prewarmPagePool_pool _ _ _ Hq); auto.
  - destruct (acquire_begin cfg st) as [s st1] eqn:E. intros [= E'] Hq.
    pose proof (after_acquire_step_state s st1 ts) as Hs.
    rewrite E' in Hs. cbn in Hs. subst st1. left.
    by eapply acquire_begin_pool.
  - pose proof (release_begin_pool p st) as Hp.
    destruct (release_begin p st) as [[] st1]; intros [= <- <-] Hq;
      cbn in Hp, Hq; rewrite Hp in Hq; by left.
  - destruct (ts !! i) as [[]|]; try done.
    + destruct (acquire_create o st) as [[r|err|] st1] eqn:E; try done;
        intros [= <- <-] Hq; cbn in Hq; left.
      * by destruct (acquire_create_returns _ _ _ _ E) as (_&_&<-).
      * unfold acquire_create, bind in E.
        pose proof (createPage_frame o st) as F.
        destruct (createPage o st) as [[?|?|] ?]; simplify_eq; cbn in F.
        by destruct F as (<- & _).
    + unfold release_replace, bind.
      pose proof (createPage_frame o st) as F.
      destruct (createPage o st) as [[r|err|] st1] eqn:E; try done;
        intros [= <- <-] Hq; cbn [fst snd] in *; destruct F as (Fp & _).
      * state_simpl. apply elem_of_cons in Hq as [->|Hq];
          [|rewrite Fp in Hq; by left].
        destruct (createPage_returns _ _ _ _ E) as (-> & _). right. by left.
      * cbn in Hq. rewrite Fp in Hq. by left.
  - destruct (ts !! i) as [[]|]; try done.
    unfold acquire_poll. destruct (pagePool st) as [|p pool'] eqn:Ep.
    { intros [= <- <-] Hq. cbn in Hq. rewrite Ep in Hq.
      by apply elem_of_nil in Hq. }
    destruct (isClosed p (set_pagePool pool' st)).
    + destruct (acquire_begin cfg (set_pagePool pool' st)) as [s st1] eqn:E.
      intros [= E'] Hq.
      pose proof (after_acquire_step_state s st1 (delete i ts)) as Hs.
      rewrite E' in Hs. cbn in Hs. subst st1. left.
      apply (acquire_begin_pool _ _ _ _ E) in Hq. state_simpl. by right.
    + intros [= <- <-] Hq. cbn in Hq. left. by right.
  - destruct (ts !! i) as [[| |r|r|]|] eqn:Ei; try done.
    destruct f; intros [= <- <-] Hq; cbn in Hq; [|by left].
    apply elem_of_cons in Hq as [->|Hq]; [|by left].
    right. right. by eapply list_elem_of_lookup_2.
  - destruct (ts !! i) as [[| |r|r|]|]; try done.
    destruct (release_close_frame r f st) as (Hp & _).
    destruct (below_target cfg (release_close r f st));
      intros [= <- <-] Hq; cbn [state] in Hq; rewrite Hp in Hq; by left.
  - intros [= <- <-] Hq. by left.
Qed.

(** A release suspended at its reset was so before, or has just been
    called. *)
Lemma step_resetting e sys obs sys' q :
  step cfg e sys = Some (obs, sys') → ReleaseResetting q ∈ tasks sys' →
  ReleaseResetting q ∈ tasks sys ∨ e = CallRelease q.
Proof.
  destruct sys as [st ts]. destruct e as [os| |p|i o|i|i f|i f|p]; cbn.
  - intros [= <- <-] Hq. by left.
  - destruct (acquire_begin cfg st) as [s st1]. intros [= E'] Hq.
    assert (sys' = snd (after_acquire_step s st1 ts)) as ->
      by by rewrite E'.
    apply after_acquire_step_tasks in Hq as [?|[?|?]]; [by left|done|done].
  - destruct (release_begin p st) as [[] st1]; intros [= <- <-] Hq;
      cbn in Hq; [|by left].
    apply elem_of_app in Hq as [?|Hq%list_elem_of_singleton]; [by left|].
    right. by injection Hq as ->.
  - destruct (ts !! i) as [[]|]; try done.
    + destruct (acquire_create o st) as [[r|err|] st1]; try done;
        intros [= <- <-] Hq; left; by eapply list_elem_of_delete_inv.
    + destruct (release_replace o st) as [[r|err|] st1]; try done;
        intros [= <- <-] Hq; left; by eapply list_elem_of_delete_inv.
  - destruct (ts !! i) as [[]|]; try done.
    destruct (acquire_poll cfg st) as [[s|] st1].
    + intros [= E'] Hq.
      assert (sys' = snd (after_acquire_step s st1 (delete i ts))) as ->
        by by rewrite E'.
      apply after_acquire_step_tasks in Hq as [?|[?|?]]; [|done|done].
      left. by eapply list_elem_of_delete_inv.
    + intros [= <- <-] Hq. by left.
  - destruct (ts !! i) as [[| |r|r|]|]; try done.
    destruct f; intros [= <- <-] Hq; cbn in Hq; left.
    + by eapply list_elem_of_delete_inv.
    + by apply elem_of_insert_inv in Hq as [?|?].
  - destruct (ts !! i) as [[| |r|r|]|]; try done.
    destruct (below_target cfg (release_close r f st));
      intros [= <- <-] Hq; cbn in Hq; left.
    + by apply elem_of_insert_inv in Hq as [?|?].
    + by eapply list_elem_of_delete_inv.
  - intros [= <- <-] Hq. by left.
Qed.

(** A page that some acquire returns was idle, or is brand new. *)
Lemma step_acquire_source e sys obs sys' p :
  step cfg e sys = Some (obs, sys') → AcquireReturns p ∈ obs →
  p ∈ pagePool (state sys) ∨ p = allocated (state sys).
Proof.
  destruct sys as [st ts]. destruct e as [os| |q|i o|i|i f|i f|q]; cbn.
  - intros [= <- <-] H. by apply elem_of_nil in H.
  - destruct (acquire_begin cfg st) as [s st1] eqn:E. intros [= E'] H.
    assert (s = Acquired p) as ->.
    { apply (after_acquire_step_returns _ st1 ts). by rewrite E'. }
    left. by destruct (acquire_begin_acquired _ _ _ E) as (_&?&_).
  - destruct (release_begin q st) as [[] st1]; intros [= <- <-] H.
    + by apply elem_of_nil in H.
    + by apply list_elem_of_singleton in H.
  - destruct (ts !! i) as [[]|]; try done.
    + destruct (acquire_create o st) as [[q|err|] st1] eqn:E; try done;
        intros [= <- <-] H; apply list_elem_of_singleton in H; [|done].
      injection H as ->. right.
      by destruct (acquire_create_returns _ _ _ _ E) as (?&_).
    + destruct (release_replace o st) as [[q|err|] st1]; try done;
        intros [= <- <-] H; by apply list_elem_of_singleton in H.
  - destruct (ts !! i) as [[]|]; try done.
    unfold acquire_poll. destruct (pagePool st) as [|q pool'] eqn:Ep.
    { intros [= <- <-] H. by apply elem_of_nil in H. }
    destruct (isClosed q (set_pagePool pool' st)).
    + destruct (acquire_begin cfg (set_pagePool pool' st)) as [s st1] eqn:E.
      intros [= E'] H.
      assert (s = Acquired p) as ->.
      { apply (after_acquire_step_returns _ st1 (delete i ts)).
        by rewrite E'. }
      destruct (acquire_begin_acquired _ _ _ E) as (_&Hin&_).
      state_simpl. left. by right.
    + intros [= <- <-] H. apply list_elem_of_singleton in H.
      injection H as ->. left. by left.
  - destruct (ts !! i) as [[]|]; try done.
    destruct f; intros [= <- <-] H.
    + by apply list_elem_of_singleton in H.
    + by apply elem_of_nil in H.
  - destruct (ts !! i) as [[| |r|r|]|]; try done.
    destruct (below_target cfg (release_close r f st));
      intros [= <- <-] H.
    + by apply elem_of_nil in H.
    + by apply list_elem_of_singleton in H.
  - intros [= <- <-] H. by apply elem_of_nil in H.
Qed.

(** A page that is neither idle nor on its way back to the idle stack, and
    that nobody releases again, is never returned by an acquire. *)
Lemma dropped_page_never_acquired S es sys obs sys' :
  (S ∉ pagePool (state sys)) → (S < allocated (state sys))%nat →
  (ReleaseResetting S ∉ tasks sys) → (CallRelease S ∉ es) →
  run cfg es sys = Some (obs, sys') → AcquireReturns S ∉ obs.
Proof.
  revert sys obs. induction es as [|e es IH]; intros sys obs Hp Ha Ht He; cbn.
  - intros [= <- <-]. apply not_elem_of_nil.
  - destruct (step cfg e sys) as [[obs1 sys1]|] eqn:E1; [|done].
    destruct (run cfg es sys1) as [[obs2 sys2]|] eqn:E2; [|done].
    intros [= <- <-]. intros [H|H]%elem_of_app.
    + destruct (step_acquire_source _ _ _ _ _ E1 H) as [Hin| ->]; [done|lia].
    + destruct (step_engine_step _ _ _ _ E1) as [_ Ha1 _ _].
      revert H. eapply IH; [| | | |done].
      * intros Hin. destruct (step_pool _ _ _ _ _ E1 Hin) as [?|[?|?]];
          [done|lia|done].
      * lia.
      * intros Hin. destruct (step_resetting _ _ _ _ _ E1 Hin) as [?| ->];
          [done|]. apply He. by left.
      * intros Hin. apply He. by right.
Qed.


(** [C5, as amended] When the reset of an open page S fails, [releasePage]
    calls [S.close()] and swallows a rejection, so S is closed when that
    call is fulfilled; it does not put S back on the idle stack.  From then
    on no schedule of pool calls makes an acquire return S, provided S
    reports closed (a closed page popped from the idle stack is dropped,
    whatever tasks are in flight), or provided S was not idle at that
    release, no other release of S is suspended at its reset, and S is not
    released again (new pages carry new numbers). *)
Theorem reset_failure_discards_page o S st :
  isClosed S st = false → reset_fulfilled o = false →
  (S < allocated st)%nat →
  let st' := snd (releasePage cfg o S st) in
  Close S ∈ calls st' ∧
  (close_fulfilled o = true → S ∈ closedPages st') ∧
  (S ∈ pagePool st' → S ∈ pagePool st) ∧
  (S ∈ closedPages st' →
   ∀ ts es obs sys',
     run cfg es {| state := st'; tasks := ts |} = Some (obs, sys') →
     AcquireReturns S ∉ obs) ∧
  (S ∉ pagePool st →
   ∀ ts es obs sys',
     ReleaseResetting S ∉ ts → CallRelease S ∉ es →
     run cfg es {| state := st'; tasks := ts |} = Some (obs, sys') →
     AcquireReturns S ∉ obs).
Proof.
  intros Hopen Hreset Hold st'.
  assert (engine_step st st') as Hstep by apply releasePage_engine_step.
  assert (Close S ∈ calls st' ∧
          (close_fulfilled o = true → S ∈ closedPages st') ∧
          (S ∈ pagePool st' → S ∈ pagePool st)) as (H1 & H2 & H3).
  { subst st'. unfold releasePage.
    rewrite (release_begin_open _ _ Hopen), Hreset.
    set (st0 := engine (EvaluateClearBody S)
                  (set_busyPages (busyPages st ∖ {[S]}) st)).
    set (st1 := release_close S (close_fulfilled o) st0).
    assert (Close S ∈ calls st1) as Hlog.
    { subst st1. unfold release_close.
      destruct (close_fulfilled o); cbn; by left. }
    assert (close_fulfilled o = true → S ∈ closedPages st1) as Hcl.
    { intros Hf. subst st1. rewrite Hf. cbn. set_solver. }
    destruct (release_close_frame S (close_fulfilled o) st0)
      as (Hp & _ & Ha & _). fold st1 in Hp, Ha. cbn in Hp, Ha.
    destruct (below_target cfg st1); [|by cbn [fst snd]; rewrite Hp].
    unfold release_replace, bind.
    pose proof (createPage_engine_step (replacement o) st1) as [Hc _ Hl _].
    pose proof (createPage_frame (replacement o) st1) as F.
    destruct (createPage (replacement o) st1) as [[q|e|] st2] eqn:E;
      cbn [fst snd] in *; destruct F as (Fp & _);
      destruct Hl as (added & Hl & _).
    - destruct (createPage_returns _ _ _ _ E) as (-> & _).
      cbn. rewrite Hl, Fp, Hp. split; [set_solver|]. split; [set_solver|].
      intros [Heq|Hin]%elem_of_cons; [lia | done].
    - rewrite Hl, Fp, Hp. split; [set_solver|]. split; [set_solver|done].
    - by destruct (createPage_settles (replacement o) st1); rewrite E. }
  assert (S < allocated st')%nat as Hold' by (destruct Hstep; lia).
  repeat split; try done.
  - intros Hclosed ts es obs sys' Hrun.
    by eapply closed_page_never_acquired; [| |exact Hrun].
  - intros Hidle ts es obs sys' Hts Hes Hrun.
    eapply dropped_page_never_acquired; [| | | |exact Hrun]; cbn; auto.
Qed.

(** ** Start-up *)

Lemma createPage_succeeds o st :
  succeeds o = true →
  let st' := snd (createPage o st) in
  fst (createPage o st) = Returned (allocated st) ∧
  allocated st' = S (allocated st) ∧
  viewports st' !! allocated st = Some defaultViewport.
Proof.
  destruct o as [[] [] []]; try done. intros _. cbn.
  by rewrite lookup_insert_eq.
Qed.

Lemma createPage_fails o st :
  succeeds o = false → ∃ e, fst (createPage o st) = Thrown e.
Proof. destruct o as [[] [] []]; try done; intros _; by eexists. Qed.

(** [createPage] leaves the viewports of the existing pages alone. *)
Lemma createPage_viewports_old o st p :
  (p < allocated st)%nat →
  viewports (snd (createPage o st)) !! p = viewports st !! p.
Proof.
  intros Hp. destruct o as [[] [] []]; cbn; try done.
  rewrite lookup_insert_ne; [done | lia].
Qed.

Lemma createPages_viewports_old os st p :
  (p < allocated st)%nat →
  viewports (snd (createPages os st)) !! p = viewports st !! p.
Proof.
  revert st. induction os as [|o os IH]; intros st Hp; cbn; [done|].
  pose proof (createPage_viewports_old o st p Hp) as H1.
  pose proof (createPage_engine_step o st) as [_ Ha _ _].
  destruct (createPage o st) as [r st1]. cbn [fst snd] in *.
  specialize (IH st1). destruct (createPages os st1) as [rs st2].
  cbn [fst snd] in *. rewrite IH; [done | lia].
Qed.

Lemma createPages_succeed os st :
  Forall (λ o, succeeds o = true) os →
  let st' := snd (createPages os st) in
  fst (createPages os st) = Returned (seq (allocated st) (length os)) ∧
  allocated st' = (allocated st + length os)%nat ∧
  ∀ p, (allocated st ≤ p < allocated st + length os)%nat →
       viewports st' !! p = Some defaultViewport.
Proof.
  revert st. induction os as [|o os IH]; intros st Hall; cbn.
  - split; [done|]. split; [lia|]. intros p Hp. lia.
  - apply Forall_cons in Hall as [Ho Hall].
    destruct (createPage_succeeds o st Ho) as (Hr & Ha & Hv).
    destruct (createPage o st) as [r st1]. cbn [fst snd] in *. subst r.
    destruct (IH st1 Hall) as (Hrs & Has & Hvs).
    pose proof (createPages_viewports_old os st1 (allocated st)) as Hold.
    destruct (createPages os st1) as [rs st2]. cbn [fst snd] in *. subst rs.
    rewrite Ha. split; [done|]. split; [lia|].
    intros p Hp. destruct (decide (p = allocated st)) as [->|Hne].
    + rewrite Hold; [done | lia].
    + apply Hvs. lia.
Qed.

Lemma createPages_fail os st :
  Exists (λ o, succeeds o = false) os →
  ∃ e, fst (createPages os st) = Thrown e.
Proof.
  revert st. induction os as [|o os IH]; intros st Hex; cbn.
  - by apply Exists_nil in Hex.
  - pose proof (createPage_settles o st) as Hs1.
    destruct (succeeds o) eqn:Ho.
    + apply Exists_cons in Hex as [Hex|Hex]; [congruence|].
      destruct (createPage_succeeds o st Ho) as (Hr & _).
      destruct (createPage o st) as [r st1]. cbn [fst snd] in *. subst r.
      destruct (IH st1 Hex) as [e He].
      destruct (createPages os st1) as [rs st2]. cbn [fst snd] in *.
      subst rs. by exists e.
    + destruct (createPage_fails o st Ho) as [e He].
      destruct (createPage o st) as [r st1]. cbn [fst snd] in *. subst r.
      destruct (createPages os st1) as [rs st2]. by exists e.
Qed.

(** [getBrowser] on a module not yet launched, once the templates are
    precompiled and the browser is up: what is left is the prewarming. *)
Lemma getBrowser_launching o st :
  browser st = false → PREWARM_PAGES cfg = true →
  (PRECOMPILE_TEMPLATES cfg = true →
   fst (precompileTemplates ejs_compile st) = Returned tt) →
  launch_fulfilled o = true →
  ∃ st1,
    pagePool st1 = pagePool st ∧ busyPages st1 = busyPages st ∧
    allocated st1 = allocated st ∧ viewports st1 = viewports st ∧
    browser st1 = true ∧
    getBrowser ejs_compile cfg o st = prewarmPagePool cfg (prewarm o) st1.
Proof.
  intros Hb Hw Hpre Hl. unfold getBrowser, bind. rewrite Hb, Hw.
  destruct (PRECOMPILE_TEMPLATES cfg).
  - specialize (Hpre eq_refl). unfold precompileTemplates in *.
    destruct (precompile_files_engine
                (List.filter (λ e, endsWith (fst e) ".ejs") (templatesDir st))
                st) as (_ & Ha & _ & Hv & Hp & Hbusy & _).
    destruct (precompile_files ejs_compile _ st) as [r stp].
    cbn [fst snd] in *. subst r. unfold await_call. rewrite Hl.
    exists (set_browser true (engine Launch stp)). by state_simpl.
  - unfold ret, await_call. rewrite Hl.
    exists (set_browser true (engine Launch st)). by state_simpl.
Qed.

Lemma Forall_map_seq {A} (f : nat → A) (P : A → Prop) n :
  (∀ i, (i < n)%nat → P (f i)) → Forall P (map f (seq 0 n)).
Proof.
  intros H. apply Forall_forall. intros x Hx.
  apply list_elem_of_In, in_map_iff in Hx as (i & <- & Hi).
  apply in_seq in Hi. apply H. lia.
Qed.

(** [X1] A first [getBrowser] in which the launch and all
    [PAGE_POOL_SIZE] page creations are fulfilled returns with the browser
    set and exactly [PAGE_POOL_SIZE] new pages pushed on the idle stack,
    numbered consecutively with the last one on top, each with the default
    viewport; the busy collection is untouched. *)
Theorem startup_fills_pool o st :
  browser st = false → PREWARM_PAGES cfg = true →
  (PRECOMPILE_TEMPLATES cfg = true →
   fst (precompileTemplates ejs_compile st) = Returned tt) →
  launch_fulfilled o = true →
  (∀ i, (i < PAGE_POOL_SIZE cfg)%nat → succeeds (prewarm o i) = true) →
  let st' := snd (getBrowser ejs_compile cfg o st) in
  fst (getBrowser ejs_compile cfg o st) = Returned tt ∧
  browser st' = true ∧
  pagePool st' =
    rev (seq (allocated st) (PAGE_POOL_SIZE cfg)) ++ pagePool st ∧
  allocated st' = (allocated st + PAGE_POOL_SIZE cfg)%nat ∧
  busyPages st' = busyPages st ∧
  ∀ p, (allocated st ≤ p < allocated st + PAGE_POOL_SIZE cfg)%nat →
       viewports st' !! p = Some defaultViewport.
Proof.
  intros Hb Hw Hpre Hl Hall st'. subst st'.
  destruct (getBrowser_launching o st Hb Hw Hpre Hl)
    as (st1 & Hp & Hbusy & Ha & Hv & Hbr & ->).
  unfold prewarmPagePool, bind.
  pose proof (createPages_succeed (map (prewarm o) (seq 0 (PAGE_POOL_SIZE cfg)))
                st1 (Forall_map_seq _ _ _ Hall)) as (Hr & Ha' & Hv').
  pose proof (createPages_frame
                (map (prewarm o) (seq 0 (PAGE_POOL_SIZE cfg))) st1)
    as (Fp & Fb & Fbr).
  destruct (createPages _ st1) as [r st2]. cbn [fst snd] in *. subst r.
  rewrite length_map, length_seq in *. state_simpl.
  rewrite Fp, Fb, Fbr, Hp, Hbusy, Hbr, Ha', Ha.
  repeat split; try done. intros p Hpg. apply Hv'. lia.
Qed.

(** [X2] When the launch is fulfilled but one of the page creations of
    the prewarming is rejected, [getBrowser] throws and leaves the idle
    stack as it was, yet the browser is already set: every later
    [getBrowser] returns at once without any engine call, so the prewarming
    is never tried again. *)
Theorem failed_prewarm_is_not_retried o st :
  browser st = false → PREWARM_PAGES cfg = true →
  (PRECOMPILE_TEMPLATES cfg = true →
   fst (precompileTemplates ejs_compile st) = Returned tt) →
  launch_fulfilled o = true →
  (∃ i, (i < PAGE_POOL_SIZE cfg)%nat ∧ succeeds (prewarm o i) = false) →
  let st' := snd (getBrowser ejs_compile cfg o st) in
  (∃ e, fst (getBrowser ejs_compile cfg o st) = Thrown e) ∧
  browser st' = true ∧ pagePool st' = pagePool st ∧
  ∀ o', getBrowser ejs_compile cfg o' st' = (Returned tt, st').
Proof.
  intros Hb Hw Hpre Hl (i & Hi & Hfail) st'. subst st'.
  destruct (getBrowser_launching o st Hb Hw Hpre Hl)
    as (st1 & Hp & Hbusy & Ha & Hv & Hbr & ->).
  unfold prewarmPagePool, bind.
  assert (Exists (λ o, succeeds o = false)
            (map (prewarm o) (seq 0 (PAGE_POOL_SIZE cfg)))) as Hex.
  { apply Exists_exists. exists (prewarm o i). split; [|done].
    apply list_elem_of_In, in_map, in_seq. lia. }
  destruct (createPages_fail _ st1 Hex) as [e He].
  pose proof (createPages_frame
                (map (prewarm o) (seq 0 (PAGE_POOL_SIZE cfg))) st1)
    as (Fp & Fb & Fbr).
  destruct (createPages _ st1) as [r st2]. cbn [fst snd] in *. subst r.
  cbn [fst snd]. rewrite Fp, Fbr, Hp, Hbr.
  split; [by exists e|]. split; [done|]. split; [done|].
  intros o'. unfold getBrowser. by rewrite Fbr, Hbr.
Qed.

(** ** Precompiled templates *)

Lemma precompile_files_other files st st' name :
  precompile_files ejs_compile files st = (Returned tt, st') →
  (∀ e, In e files → replace ".ejs" "" (fst e) ≠ name) →
  templateCache st' !! name = templateCache st !! name ∧
  compiledTemplates st' !! name = compiledTemplates st !! name.
Proof.
  revert st. induction files as [|[file template] files IH]; intros st; cbn.
  - by intros [= <-].
  - destruct (ejs_compile template) as [e|f]; [done|]. intros Hrun Hne.
    destruct (IH _ Hrun) as [H1 H2]; [by intros e He; apply Hne; right|].
    rewrite H1, H2. state_simpl.
    assert (replace ".ejs" "" file ≠ name) as Hn by by apply (Hne (file, template)); left.
    by rewrite !lookup_insert_ne.
Qed.

(** An identifier whose cached source and compiled function agree keeps
    that through the precompilation of more files. *)
Lemma precompile_files_keeps files st st' name :
  precompile_files ejs_compile files st = (Returned tt, st') →
  (∃ t f, ejs_compile t = inr f ∧ templateCache st !! name = Some t ∧
          compiledTemplates st !! name = Some f) →
  ∃ t f, ejs_compile t = inr f ∧ templateCache st' !! name = Some t ∧
         compiledTemplates st' !! name = Some f.
Proof.
  revert st. induction files as [|[file template] files IH]; intros st; cbn.
  - by intros [= <-].
  - destruct (ejs_compile template) as [e|f] eqn:Ec; [done|].
    intros Hrun (t0 & f0 & Hc0 & Ht0 & Hf0). apply (IH _ Hrun). state_simpl.
    destruct (decide (replace ".ejs" "" file = name)) as [->|Hn].
    + exists template, f. by rewrite !lookup_insert_eq.
    + exists t0, f0. by rewrite !lookup_insert_ne.
Qed.

Lemma precompile_files_sets files st st' file template :
  precompile_files ejs_compile files st = (Returned tt, st') →
  In (file, template) files →
  ∃ t f, ejs_compile t = inr f ∧
         templateCache st' !! replace ".ejs" "" file = Some t ∧
         compiledTemplates st' !! replace ".ejs" "" file = Some f ∧
         (NoDup (map (λ e, replace ".ejs" "" (fst e)) files) → t = template).
Proof.
  revert st. induction files as [|[file0 template0] files IH]; intros st; cbn.
  - by intros _ [].
  - destruct (ejs_compile template0) as [e|f0] eqn:Ec; [done|].
    intros Hrun [[= -> ->]|Hin].
    + destruct (decide (Exists (λ e, replace ".ejs" "" (fst e)
                                     = replace ".ejs" "" file) files))
        as [Hdup|Hfresh].
      * destruct (precompile_files_keeps _ _ _ (replace ".ejs" "" file) Hrun)
          as (t & f & Hc & Ht & Hf).
        { exists template, f0. state_simpl. by rewrite !lookup_insert_eq. }
        exists t, f. repeat split; try done.
        intros Hnd. apply NoDup_cons in Hnd as [Hnot _]. exfalso.
        apply Hnot. apply Exists_exists in Hdup as (e & He & Heq).
        apply list_elem_of_In, in_map_iff. exists e.
        split; [done | by apply list_elem_of_In].
      * destruct (precompile_files_other _ _ _ (replace ".ejs" "" file) Hrun)
          as [H1 H2].
        { intros e He Heq. apply Hfresh, Exists_exists. exists e.
          split; [by apply list_elem_of_In | done]. }
        exists template, f0. rewrite H1, H2. state_simpl.
        by rewrite !lookup_insert_eq.
    + destruct (IH _ Hrun Hin) as (t & f & Hc & Ht & Hf & Hu).
      exists t, f. repeat split; try done.
      intros Hnd. apply NoDup_cons in Hnd as [_ Hnd]. by apply Hu.
Qed.

(** [X3] After [precompileTemplates] has returned, every [.ejs] file of
    the directory has its identifier (the file name with its first [.ejs]
    removed) in both caches: a source in [templateCache] and, in
    [compiledTemplates], the function compiled from that source;
    [renderTemplate] of that identifier then applies that function without
    reading any file or changing the state, so it cannot fail with
    [TemplateNotFound].  When no two files share an
    identifier, the cached source is the content of the file. *)
Theorem precompiled_templates_render_from_cache st st' file template :
  precompileTemplates ejs_compile st = (Returned tt, st') →
  In (file, template) (templatesDir st) → endsWith file ".ejs" = true →
  ∃ t f,
    ejs_compile t = inr f ∧
    templateCache st' !! replace ".ejs" "" file = Some t ∧
    compiledTemplates st' !! replace ".ejs" "" file = Some f ∧
    (∀ data, renderTemplate ejs_compile cfg (replace ".ejs" "" file) data st'
             = (f data, st')) ∧
    (NoDup (map (λ e, replace ".ejs" "" (fst e))
              (List.filter (λ e, endsWith (fst e) ".ejs") (templatesDir st)))
     → t = template).
Proof.
  unfold precompileTemplates. intros Hrun Hin Hends.
  destruct (precompile_files_sets _ _ _ file template Hrun)
    as (t & f & Hc & Ht & Hf & Hu).
  { apply filter_In. by split. }
  exists t, f. repeat split; try done.
  intros data. unfold renderTemplate. by rewrite Hf.
Qed.

(** ** File names and identifiers *)

Lemma append_cons c a b :
  String.append (String c a) b = String c (String.append a b).
Proof. reflexivity. Qed.

Lemma prefix_true p s :
  String.prefix p s = true → ∃ rest, s = String.append p rest.
Proof.
  revert s. induction p as [|a p IH]; intros s; cbn.
  - destruct s; intros _; by eexists.
  - destruct s as [|b s]; cbn; [done|].
    destruct (Ascii.ascii_dec a b) as [->|]; [|done].
    intros H. destruct (IH _ H) as [rest ->]. by exists rest.
Qed.

Lemma string_length_append a b :
  String.length (String.append a b) = (String.length a + String.length b)%nat.
Proof.
  induction a as [|c a IH]; [done|]. rewrite append_cons. cbn. by f_equal.
Qed.

Lemma substring_append a b :
  String.substring (String.length a) (String.length b) (String.append a b) = b.
Proof.
  induction a as [|c a IH]; [|by rewrite append_cons].
  change (String.append "" b) with b.
  induction b as [|c b IH]; cbn; [done | by f_equal].
Qed.

Lemma template_file_identifier_aux base :
  (∀ pre post,
     String.append base ".ejs"
       = String.append pre (String.append ".ejs" post) →
     post = ""%string) →
  endsWith (String.append base ".ejs") ".ejs" = true ∧
  replace ".ejs" "" (String.append base ".ejs") = base.
Proof.
  intros Hlast. split.
  - unfold endsWith. rewrite string_length_append.
    replace (String.length base + String.length ".ejs"
             - String.length ".ejs")%nat
      with (String.length base) by lia.
    rewrite (substring_append base ".ejs").
    apply andb_true_iff. split; [apply Nat.leb_le; lia | done].
  - induction base as [|c base IH]; [done|].
    rewrite append_cons. cbn [replace].
    destruct (String.prefix ".ejs" (String c (String.append base ".ejs")))
      eqn:Hp.
    + exfalso. destruct (prefix_true _ _ Hp) as [rest Hrest].
      assert (rest = ""%string) as ->.
      { apply (Hlast ""%string rest). by rewrite append_cons. }
      apply (f_equal String.length) in Hrest.
      cbn [String.length] in Hrest.
      rewrite !string_length_append in Hrest. cbn in Hrest. lia.
    + f_equal. apply IH. intros pre post Heq.
      apply (Hlast (String c pre) post). rewrite !append_cons. by rewrite Heq.
Qed.

Lemma substring_middle a b c :
  String.substring (String.length a) (String.length b)
    (String.append a (String.append b c)) = b.
Proof.
  induction a as [|x a IH]; [|by rewrite append_cons].
  change (String.append "" (String.append b c)) with (String.append b c).
  induction b as [|x b IH]; [by destruct c|].
  rewrite append_cons. cbn. by f_equal.
Qed.

(** [X4] A template file [base.ejs] in whose name the first occurrence of
    [.ejs] is the extension passes the [endsWith] filter of
    [precompileTemplates] and is registered under [base]: the identifier
    for which [getTemplate] reads back the file [base.ejs]. *)
Theorem template_file_identifier base :
  String.index 0 ".ejs" (String.append base ".ejs")
    = Some (String.length base) →
  endsWith (String.append base ".ejs") ".ejs" = true ∧
  replace ".ejs" "" (String.append base ".ejs") = base.
Proof.
  intros Hidx. apply template_file_identifier_aux. intros pre post Heq.
  pose proof (String.index_correct2 _ _ _ _ Hidx (String.length pre)) as Hno.
  assert (¬ (String.length pre < String.length base)%nat) as Hge.
  { intros Hlt. apply Hno; [lia | done |]. rewrite Heq.
    apply substring_middle. }
  apply (f_equal String.length) in Heq.
  rewrite !string_length_append in Heq. cbn in Heq.
  destruct post; [done | cbn in Heq; lia].
Qed.

(** ** Which page an acquire returns *)

Lemma pop_open_split closed pool r pool' :
  pop_open closed pool = (r, pool') →
  ∃ dropped,
    Forall (λ q, q ∈ closed) dropped ∧
    match r with
    | Some p => pool = dropped ++ p :: pool' ∧ p ∉ closed
    | None => pool = dropped ∧ pool' = []
    end.
Proof.
  revert r pool'. induction pool as [|q pool IH]; intros r pool'; cbn.
  - intros [= <- <-]. by exists [].
  - case_bool_decide as Hq.
    + intros Hpop. destruct (IH _ _ Hpop) as (dropped & Hall & Hr).
      exists (q :: dropped). split; [by constructor|].
      destruct r; [destruct Hr as [-> ?]|destruct Hr as [-> ?]]; done.
    + intros [= <- <-]. by exists [].
Qed.

(** The three ways [acquirePage] can go. *)
Lemma acquirePage_cases o st r st' :
  acquirePage cfg o st = (r, st') →
  ∃ dropped,
    Forall (λ q, q ∈ closedPages st) dropped ∧
    ((∃ p, pagePool st = dropped ++ p :: pagePool st' ∧
           (p ∉ closedPages st) ∧ r = Returned p ∧
           busyPages st' = {[p]} ∪ busyPages st ∧
           allocated st' = allocated st ∧ calls st' = calls st)
     ∨ (pagePool st = dropped ∧ pagePool st' = [] ∧
        if (size (busyPages st) <? MAX_CONCURRENT cfg)%nat
        then r ≠ Pending ∧
             ∀ p, r = Returned p →
                  p = allocated st ∧ busyPages st' = {[p]} ∪ busyPages st
        else r = Pending ∧ busyPages st' = busyPages st ∧
             allocated st' = allocated st)).
Proof.
  unfold acquirePage, acquire_begin. intros Hacq.
  destruct (pop_open (closedPages st) (pagePool st)) as [[p|] pool'] eqn:E;
    destruct (pop_open_split _ _ _ _ E) as (dropped & Hall & Hr);
    exists dropped; (split; [done|]).
  - injection Hacq as <- <-. left. exists p. destruct Hr as [-> Hp].
    by state_simpl.
  - destruct Hr as [-> ->]. right. state_simpl.
    destruct (size (busyPages st) <? MAX_CONCURRENT cfg)%nat.
    + rename Hacq into Hc.
      pose proof (acquire_create_engine_step o (set_pagePool [] st)) as Hs.
      pose proof (createPage_settles o (set_pagePool [] st)) as Hset.
      assert (pagePool st' = []) as Hp.
      { unfold acquire_create, bind in Hc.
        pose proof (createPage_frame o (set_pagePool [] st)) as F.
        destruct (createPage o (set_pagePool [] st)) as [[q|e|] st1];
          simplify_eq; state_simpl; by destruct F as (-> & _). }
      split; [done|]. split; [done|]. split.
      * intros ->. unfold acquire_create, bind in Hc.
        by destruct (createPage o (set_pagePool [] st)) as [[q|e|] st1].
      * intros q ->.
        by destruct (acquire_create_returns _ _ _ _ Hc) as (?&?&_).
    + by injection Hacq as <- <-.
Qed.

(** [X5] [acquirePage] returns the topmost idle page that is open,
    dropping exactly the closed pages above it, and then neither creates a
    page nor calls the engine.  Only when every idle page is closed (the
    stack is then emptied) does it create a page, if fewer than
    [MAX_CONCURRENT] pages are busy, or wait. *)
Theorem acquire_takes_topmost_open_page o st r st' :
  acquirePage cfg o st = (r, st') →
  ∃ dropped,
    Forall (λ q, q ∈ closedPages st) dropped ∧
    ((∃ p, pagePool st = dropped ++ p :: pagePool st' ∧
           (p ∉ closedPages st) ∧ r = Returned p ∧
           busyPages st' = {[p]} ∪ busyPages st ∧
           allocated st' = allocated st ∧ calls st' = calls st)
     ∨ (pagePool st = dropped ∧ pagePool st' = [] ∧
        if (size (busyPages st) <? MAX_CONCURRENT cfg)%nat
        then r ≠ Pending ∧
             ∀ p, r = Returned p →
                  p = allocated st ∧ busyPages st' = {[p]} ∪ busyPages st
        else r = Pending ∧ busyPages st' = busyPages st ∧
             allocated st' = allocated st)).
Proof. apply acquirePage_cases. Qed.

(** ** No page is idle twice, or idle and busy *)

Lemma createPages_pages os st ps st' :
  createPages os st = (Returned ps, st') →
  NoDup ps ∧ ∀ p, p ∈ ps → (allocated st ≤ p < allocated st')%nat.
Proof.
  revert st ps st'. induction os as [|o os IH]; intros st ps st'; cbn.
  - intros [= <- <-]. split; [constructor|]. by intros p ?%elem_of_nil.
  - pose proof (createPage_engine_step o st) as [_ Ha _ _].
    destruct (createPage o st) as [r st1] eqn:E1.
    pose proof (createPages_engine_step os st1) as [_ Has _ _].
    destruct (createPages os st1) as [rs st2] eqn:E2.
    destruct r as [q|e|], rs as [qs|e'|]; try done.
    intros [= <- <-]. cbn [fst snd] in *.
    destruct (createPage_returns _ _ _ _ E1) as (-> & Ha1 & _).
    destruct (IH _ _ _ E2) as [Hnd Hrange]. split.
    + constructor; [|done]. intros Hin. specialize (Hrange _ Hin). lia.
    + intros p [->|Hp]%elem_of_cons; [lia|].
      specialize (Hrange _ Hp). lia.
Qed.

(** What the orderly states keep: the idle stack holds no page twice, no
    idle page is busy, and every idle or busy page has been handed out by
    [browser.newPage()]. *)
Lemma orderly_pages st :
  orderly ejs_compile cfg st →
  NoDup (pagePool st) ∧
  (∀ p, p ∈ pagePool st → p ∉ busyPages st) ∧
  (∀ p, p ∈ pagePool st → (p < allocated st)%nat) ∧
  (∀ p, p ∈ busyPages st → (p < allocated st)%nat).
Proof.
  intros Ho. induction Ho as [dir|o st Ho IH|o st Ho IH Hb|o p st Ho IH Hp
                              |o html options p st Ho IH|p st Ho IH].
  - cbn. split; [constructor|]. split; [by intros p ?%elem_of_nil|].
    split; [by intros p ?%elem_of_nil|]. by intros p ?%elem_of_empty.
  - destruct IH as (Hnd & Hdis & Hpa & Hba). unfold getBrowser.
    destruct (browser st) eqn:Hb; [done|]. unfold bind.
    assert (∃ r st1, (if PRECOMPILE_TEMPLATES cfg
                      then precompileTemplates ejs_compile else ret tt) st
                     = (r, st1) ∧ pagePool st1 = pagePool st ∧
                     busyPages st1 = busyPages st ∧
                     allocated st1 = allocated st)
      as (r & st1 & -> & H1 & H2 & H3).
    { destruct (PRECOMPILE_TEMPLATES cfg).
      - unfold precompileTemplates.
        destruct (precompile_files_engine
                    (List.filter (λ e, endsWith (fst e) ".ejs")
                                 (templatesDir st)) st)
          as (_&Hq3&_&_&Hq1&Hq2&_).
        eexists _, _. split; [apply surjective_pairing|]. done.
      - by eexists _, _. }
    destruct r as [[]|e|]; cbn [fst snd];
      [|by rewrite H1, H2, H3|by rewrite H1, H2, H3].
    unfold await_call. destruct (launch_fulfilled o); cbn [fst snd];
      [|state_simpl; by rewrite H1, H2, H3].
    destruct (PREWARM_PAGES cfg); cbn [fst snd];
      [|unfold ret; state_simpl; by rewrite H1, H2, H3].
    unfold prewarmPagePool, bind.
    set (st2 := set_browser true (engine Launch st1)).
    assert (pagePool st2 = pagePool st ∧ busyPages st2 = busyPages st ∧
            allocated st2 = allocated st) as (G1 & G2 & G3) by done.
    pose proof (createPages_frame
                  (map (prewarm o) (seq 0 (PAGE_POOL_SIZE cfg))) st2)
      as (Fp & Fb & _).
    pose proof (createPages_engine_step
                  (map (prewarm o) (seq 0 (PAGE_POOL_SIZE cfg))) st2)
      as [_ Fa _ _].
    destruct (createPages (map (prewarm o) (seq 0 (PAGE_POOL_SIZE cfg))) st2)
      as [[ps|e|] st3] eqn:E; cbn [fst snd] in *.
    + destruct (createPages_pages _ _ _ _ E) as [Hps Hrange].
      state_simpl. rewrite Fp, Fb, G1, G2.
      assert (∀ q, q ∈ rev ps → q ∈ ps) as Hrev.
      { intros q Hq. by apply list_elem_of_In, in_rev, list_elem_of_In in Hq. }
      split; [|split; [|split]].
      * apply NoDup_app. split; [|split; [|done]].
        -- apply NoDup_ListNoDup, NoDup_rev. by apply NoDup_ListNoDup.
        -- intros q Hq Hq'. specialize (Hrange _ (Hrev _ Hq)).
           specialize (Hpa _ Hq'). lia.
      * intros q [Hq|Hq]%elem_of_app; [|by apply Hdis].
        intros Hq'. specialize (Hrange _ (Hrev _ Hq)).
        specialize (Hba _ Hq'). lia.
      * intros q [Hq|Hq]%elem_of_app.
        -- specialize (Hrange _ (Hrev _ Hq)). lia.
        -- specialize (Hpa _ Hq). lia.
      * intros q Hq. specialize (Hba _ Hq). lia.
    + rewrite Fp, Fb, G1, G2. repeat split; try done.
      * intros q Hq. specialize (Hpa _ Hq). lia.
      * intros q Hq. specialize (Hba _ Hq). lia.
    + rewrite Fp, Fb, G1, G2. repeat split; try done.
      * intros q Hq. specialize (Hpa _ Hq). lia.
      * intros q Hq. specialize (Hba _ Hq). lia.
  - destruct IH as (Hnd & Hdis & Hpa & Hba).
    unfold acquirePage, acquire_begin.
    destruct (pop_open (closedPages st) (pagePool st)) as [[q|] pool'] eqn:E;
      destruct (pop_open_split _ _ _ _ E) as (dropped & _ & Hr).
    + destruct Hr as [Hpool _]. state_simpl.
      rewrite Hpool in Hnd, Hdis, Hpa.
      apply NoDup_app in Hnd as (_ & _ & Hnd).
      apply NoDup_cons in Hnd as [Hq Hnd].
      split; [done|]. split; [|split].
      * intros x Hx [->%elem_of_singleton|Hx']%elem_of_union; [done|].
        apply (Hdis x); [|done]. apply elem_of_app. right. by right.
      * intros x Hx. apply Hpa. apply elem_of_app. right. by right.
      * intros x [->%elem_of_singleton|Hx']%elem_of_union; [|by apply Hba].
        apply Hpa. apply elem_of_app. right. by left.
    + destruct Hr as [_ ->]. state_simpl.
      destruct (size (busyPages st) <? MAX_CONCURRENT cfg)%nat.
      * unfold acquire_create, bind.
        pose proof (createPage_frame o (set_pagePool [] st)) as F.
        pose proof (createPage_engine_step o (set_pagePool [] st))
          as [_ Ha _ _].
        destruct (createPage o (set_pagePool [] st)) as [[q|e|] st1] eqn:Ec;
          state_simpl; destruct F as (Fp & Fb & _); rewrite Fp, Fb.
        -- destruct (createPage_returns _ _ _ _ Ec) as (-> & Hs & _).
           state_simpl. split; [constructor|].
           split; [by intros x ?%elem_of_nil|].
           split; [by intros x ?%elem_of_nil|].
           intros x [->%elem_of_singleton|Hx']%elem_of_union; [lia|].
           specialize (Hba _ Hx'). lia.
        -- split; [constructor|]. split; [by intros x ?%elem_of_nil|].
           split; [by intros x ?%elem_of_nil|].
           intros x Hx. specialize (Hba _ Hx). lia.
        -- split; [constructor|]. split; [by intros x ?%elem_of_nil|].
           split; [by intros x ?%elem_of_nil|].
           intros x Hx. specialize (Hba _ Hx). lia.
      * state_simpl. split; [constructor|].
        split; [by intros x ?%elem_of_nil|].
        split; [by intros x ?%elem_of_nil|]. done.
  - destruct IH as (Hnd & Hdis & Hpa & Hba).
    pose proof (releasePage_engine_step o p st) as [_ Ha _ _].
    assert (p ∉ pagePool st) as Hnotidle by (intros Hin; by apply (Hdis p)).
    unfold releasePage, release_begin in *.
    destruct (isClosed p (set_busyPages (busyPages st ∖ {[p]}) st)).
    { state_simpl. repeat split; try done.
      - intros x Hx Hx'. apply (Hdis x Hx). set_solver.
      - intros x Hx. apply Hba. set_solver. }
    cbn [fst snd] in *. destruct (reset_fulfilled o).
    { state_simpl. split; [by constructor|]. split; [|split].
      - intros x [->|Hx]%elem_of_cons; [set_solver|].
        intros Hx'. apply (Hdis x Hx). set_solver.
      - intros x [->|Hx]%elem_of_cons; [by apply Hba | by apply Hpa].
      - intros x Hx. apply Hba. set_solver. }
    set (st0 := engine (EvaluateClearBody p)
                  (set_busyPages (busyPages st ∖ {[p]}) st)) in *.
    destruct (release_close_frame p (close_fulfilled o) st0)
      as (Hp1 & Hb1 & Ha1 & _).
    assert (pagePool st0 = pagePool st ∧
            busyPages st0 = busyPages st ∖ {[p]} ∧
            allocated st0 = allocated st) as (E1 & E2 & E3) by done.
    cbn beta zeta in Hp1, Hb1, Ha1. rewrite E1 in Hp1. rewrite E2 in Hb1.
    rewrite E3 in Ha1.
    destruct (below_target cfg (release_close p (close_fulfilled o) st0)).
    2: { cbn [fst snd] in *. rewrite Hp1, Hb1, Ha1.
         repeat split; try done.
         - intros x Hx Hx'. apply (Hdis x Hx). set_solver.
         - intros x Hx. apply Hba. set_solver. }
    unfold release_replace, bind in *.
    pose proof (createPage_frame (replacement o)
                  (release_close p (close_fulfilled o) st0)) as F.
    destruct (createPage (replacement o)
                (release_close p (close_fulfilled o) st0))
      as [[q|e|] st1] eqn:Ec;
      cbn [fst snd] in *; destruct F as (Fp & Fb & _).
    + destruct (createPage_returns _ _ _ _ Ec) as (-> & Hs & _).
      state_simpl. rewrite Fp, Fb, Hp1, Hb1, Hs, Ha1.
      split; [|split; [|split]].
      * constructor; [|done]. intros Hin. specialize (Hpa _ Hin). lia.
      * intros x [->|Hx]%elem_of_cons.
        -- intros Hx'. assert (allocated st ∈ busyPages st) as Hin
             by set_solver. specialize (Hba _ Hin). lia.
        -- intros Hx'. apply (Hdis x Hx). set_solver.
      * intros x [->|Hx]%elem_of_cons; [lia|]. specialize (Hpa _ Hx). lia.
      * intros x Hx. assert (x ∈ busyPages st) as Hin by set_solver.
        specialize (Hba _ Hin). lia.
    + rewrite Fp, Fb, Hp1, Hb1. repeat split; try done.
      * intros x Hx Hx'. apply (Hdis x Hx). set_solver.
      * intros x Hx. specialize (Hpa _ Hx). lia.
      * intros x Hx. assert (x ∈ busyPages st) as Hin by set_solver.
        specialize (Hba _ Hin). lia.
    + rewrite Fp, Fb, Hp1, Hb1. repeat split; try done.
      * intros x Hx Hx'. apply (Hdis x Hx). set_solver.
      * intros x Hx. specialize (Hpa _ Hx). lia.
      * intros x Hx. assert (x ∈ busyPages st) as Hin by set_solver.
        specialize (Hba _ Hin). lia.
  - destruct (render_body_frame o html options p st) as (-> & -> & _ & ->).
    done.
  - done.
Qed.

(** [X10] No double issue.  When pool calls do not overlap and every
    release is of a page currently held, the idle stack never holds a page
    twice and never holds a busy page; so the page an [acquirePage]
    returns is one that no request is holding. *)
Theorem orderly_no_double_issue st :
  orderly ejs_compile cfg st →
  NoDup (pagePool st) ∧
  (∀ p, p ∈ pagePool st → p ∉ busyPages st) ∧
  (∀ o p st', acquirePage cfg o st = (Returned p, st') →
              p ∉ busyPages st).
Proof.
  intros Ho. destruct (orderly_pages st Ho) as (Hnd & Hdis & Hpa & Hba).
  split; [done|]. split; [done|].
  intros o p st' E.
  destruct (acquirePage_cases _ _ _ _ E) as (dropped & _ & [Hcase|Hcase]).
  - destruct Hcase as (q & Hpool & _ & [= <-] & _).
    apply Hdis. rewrite Hpool. apply elem_of_app. right. by left.
  - destruct Hcase as (_ & _ & Hcase).
    destruct (size (busyPages st) <? MAX_CONCURRENT cfg)%nat.
    + destruct Hcase as [_ Hret]. destruct (Hret p eq_refl) as [-> _].
      intros Hin. specialize (Hba _ Hin). lia.
    + by destruct Hcase as [[=] _].
Qed.

(** [X6] The idle collection is a stack: an open page released with a
    successful reset is the page the next [acquirePage] returns, and that
    acquire leaves the idle stack as it was before the release, creating
    nothing. *)
Theorem released_page_is_reused_first o o' p st :
  isClosed p st = false → reset_fulfilled o = true →
  fst (releasePage cfg o p st) = Returned tt ∧
  ∃ st2,
    acquirePage cfg o' (snd (releasePage cfg o p st)) = (Returned p, st2) ∧
    pagePool st2 = pagePool st ∧
    busyPages st2 = {[p]} ∪ busyPages st ∧
    allocated st2 = allocated st.
Proof.
  intros Hopen Hreset. unfold releasePage.
  rewrite (release_begin_open _ _ Hopen), Hreset. cbn [fst snd].
  split; [done|]. unfold acquirePage, acquire_begin. state_simpl.
  cbn [pop_open]. unfold isClosed in Hopen. rewrite Hopen.
  eexists. split; [done|]. state_simpl.
  split; [done|]. split; [|done]. clear Hopen Hreset.
  apply set_eq. intros q. destruct (decide (q = p)); set_solver.
Qed.

(** [X7] A render served from a warm pool gives everything back: when the
    browser is up, the top idle page is open and every step is fulfilled,
    [render] returns the captured buffer, creates no page, and leaves the
    idle stack exactly as it found it, with the page on top again and not
    busy. *)
Theorem warm_render_restores_pool o templateName data options st html st1
    p rest v box png :
  renderTemplate ejs_compile cfg templateName data st = (inr html, st1) →
  browser st = true → pagePool st = p :: rest → (p ∉ closedPages st) →
  viewports st !! p = Some v →
  setViewport_fulfilled o = true → setContent_fulfilled o = true →
  boundingBox o = Some box →
  screenshot o (screenshotOptions box) = Some png →
  reset_fulfilled (release o) = true →
  ∃ st',
    render ejs_compile cfg o templateName data options st
      = (Returned png, st') ∧
    pagePool st' = pagePool st ∧
    busyPages st' = busyPages st ∖ {[p]} ∧
    allocated st' = allocated st ∧
    closedPages st' = closedPages st.
Proof.
  intros Ht Hb Hpool Hopen Hv Hsv Hsc Hbox Hshot Hreset.
  rewrite (render_resolved _ _ _ _ _ _ _ Ht).
  pose proof (renderTemplate_frame templateName data st) as F.
  rewrite Ht in F. cbn [snd] in F.
  destruct F as (Fp & Fbusy & Fc & Fv & Fa & _ & Fb & _).
  unfold getBrowser. rewrite Fb, Hb.
  unfold acquirePage, acquire_begin. rewrite Fp, Fc, Hpool. cbn [pop_open].
  rewrite bool_decide_eq_false_2 by done.
  set (st3 := set_busyPages ({[p]} ∪ busyPages st1) (set_pagePool rest st1)).
  assert (render_body o html options p st3
          = (Returned png, snd (render_body o html options p st3))) as Hbody.
  { unfold render_body, bind, viewport.
    assert (viewports st3 !! p = Some v) as -> by by rewrite <- Hv, <- Fv.
    unfold setViewport, await_call, catch_ignore, evaluateBoundingBox,
      takeScreenshot, ret. rewrite Hsv, Hsc, Hbox, Hshot.
    destruct (negb _); by destruct (waitForFunction_fulfilled o). }
  destruct (render_body_frame o html options p st3) as (Bp & Bbusy & Bc & Ba).
  unfold try_finally. rewrite Hbody.
  set (st4 := snd (render_body o html options p st3)) in *.
  assert (isClosed p st4 = false) as Hopen4.
  { unfold isClosed. rewrite Bc. subst st3. state_simpl. rewrite Fc.
    by apply bool_decide_eq_false_2. }
  unfold releasePage. rewrite (release_begin_open _ _ Hopen4), Hreset.
  eexists. split; [done|]. state_simpl.
  rewrite Bp, Bbusy, Bc, Ba. subst st3. state_simpl.
  rewrite Fbusy. split; [done|]. split; [|done].
  clear. apply set_eq. intros q. destruct (decide (q = p)); set_solver.
Qed.

(** ** A waiting acquire *)

(** [X9] An [acquirePage] that waits polls: a tick on the empty idle
    stack changes nothing and leaves it waiting; once an open page has been
    released with a successful reset, its next tick takes that page, marks
    it busy and returns it, without creating any page. *)
Theorem waiting_acquire_is_served_by_release st ts i p :
  ts !! i = Some AcquirePolling → pagePool st = [] →
  isClosed p st = false →
  ∃ st',
    run cfg [Tick i; CallRelease p; ResetSettles (length ts) true; Tick i]
        {| state := st; tasks := ts |}
    = Some ([ReleaseReturns; AcquireReturns p],
            {| state := st'; tasks := delete i ts |}) ∧
    pagePool st' = [] ∧ busyPages st' = {[p]} ∪ busyPages st ∧
    allocated st' = allocated st.
Proof.
  intros Hi Hpool Hopen.
  cbn [run step state tasks]. rewrite Hi. unfold acquire_poll at 1.
  rewrite Hpool. cbn [state tasks].
  rewrite (release_begin_open _ _ Hopen). cbn [state tasks].
  rewrite (list_lookup_middle ts [] (ReleaseResetting p) (length ts) eq_refl).
  rewrite (delete_middle ts [] (ReleaseResetting p)), app_nil_r.
  cbn [state tasks]. rewrite Hi. unfold acquire_poll, push. state_simpl.
  rewrite Hpool. unfold isClosed in *. state_simpl. rewrite Hopen.
  cbn [after_acquire_step app].
  eexists. split; [done|]. state_simpl. split; [done|]. split; [|done].
  clear. apply set_eq. intros q. destruct (decide (q = p)); set_solver.
Qed.

(** [X8] Capacity.  When the calls of the module do not overlap, that is
    when every [getBrowser] (the start-up with its prewarming), every
    [acquirePage] and every [releasePage] runs to completion before the
    next call starts, every release being of a page currently held, and
    the idle target is no larger than [MAX_CONCURRENT], as in [CONFIG],
    idle and busy pages together never exceed [MAX_CONCURRENT]; in
    particular the busy collection stays within the bound that interleaved
    calls can break. *)
Theorem orderly_pages_within_capacity st :
  (PAGE_POOL_SIZE cfg ≤ MAX_CONCURRENT cfg)%nat →
  orderly ejs_compile cfg st →
  (length (pagePool st) + size (busyPages st) ≤ MAX_CONCURRENT cfg)%nat ∧
  (size (busyPages st) ≤ MAX_CONCURRENT cfg)%nat.
Proof.
  intros Hcfg Ho. destruct (orderly_capacity st Hcfg Ho) as [H _].
  split; [done|lia].
Qed.

End Properties.

(** * Properties of the request handlers *)

Section ServerProperties.

Context {Number : Type}.
Variable number_truthy : Number → bool.
Variable number_toString : Number → jsstring.
Variable toLowerCase : jsstring → jsstring.
Variable parseInt : jsstring → option Integral.

Implicit Types s text : jsstring.
Implicit Types v : JSON Number.

(** ** Trimming *)

Lemma rev_reverse {A} (l : list A) : rev l = reverse l.
Proof. unfold reverse. apply rev_alt. Qed.

Lemma trimStart_suffix s : trimStart s `suffix_of` s.
Proof.
  induction s as [|c s IH]; cbn; [done|].
  destruct (isWhiteSpace c); [by apply suffix_cons_r|done].
Qed.

Lemma trimStart_head s c : head (trimStart s) = Some c → isWhiteSpace c = false.
Proof.
  induction s as [|d s IH]; cbn; [done|].
  destruct (isWhiteSpace d) eqn:E; [done|].
  cbn. by intros [= <-].
Qed.

Lemma trimStart_id s :
  (∀ c, head s = Some c → isWhiteSpace c = false) → trimStart s = s.
Proof.
  destruct s as [|c s]; cbn; [done|].
  intros H. by rewrite (H c).
Qed.

Lemma trimEnd_prefix s : trimEnd s `prefix_of` s.
Proof.
  unfold trimEnd. rewrite !rev_reverse.
  rewrite <- (reverse_involutive s) at 2.
  apply suffix_prefix_reverse, trimStart_suffix.
Qed.

Lemma trimEnd_last s c : last (trimEnd s) = Some c → isWhiteSpace c = false.
Proof.
  unfold trimEnd. rewrite !rev_reverse, last_reverse.
  apply trimStart_head.
Qed.

Lemma trimEnd_id s :
  (∀ c, last s = Some c → isWhiteSpace c = false) → trimEnd s = s.
Proof.
  intros H. unfold trimEnd. rewrite trimStart_id.
  - by rewrite !rev_reverse, reverse_involutive.
  - intros c. rewrite rev_reverse, head_reverse. apply H.
Qed.

Lemma prefix_head s1 s2 c :
  s1 `prefix_of` s2 → head s1 = Some c → head s2 = Some c.
Proof. intros [k ->]. destruct s1; [done|]. by cbn. Qed.

Lemma trim_trimmed s : trimmed (trim s).
Proof.
  intros c [H|H].
  - apply (trimStart_head s).
    eapply prefix_head; [apply trimEnd_prefix|exact H].
  - by apply trimEnd_last in H.
Qed.

Lemma trim_id s : trimmed s → trim s = s.
Proof.
  intros H. unfold trim. rewrite trimStart_id by (intros c ?; apply H; auto).
  apply trimEnd_id. intros c ?; apply H; auto.
Qed.

Lemma trim_elem_of s c : c ∈ trim s → c ∈ s.
Proof.
  intros Hc. unfold trim in Hc.
  destruct (trimEnd_prefix (trimStart s)) as [k1 E1].
  destruct (trimStart_suffix s) as [k2 E2].
  rewrite E2, E1. apply elem_of_app. right. apply elem_of_app. by left.
Qed.

Lemma removeNul_spec s c : c ∈ removeNul s ↔ c ∈ s ∧ c ≠ 0%N.
Proof.
  unfold removeNul. rewrite !list_elem_of_In, filter_In.
  rewrite negb_true_iff, N.eqb_neq. done.
Qed.

Lemma removeNul_id s : (0%N ∉ s) → removeNul s = s.
Proof.
  unfold removeNul. induction s as [|c s IH]; cbn; [done|].
  intros [? ?]%not_elem_of_cons. destruct (N.eqb_spec c 0); [done|].
  cbn. f_equal. by apply IH.
Qed.

(** [s.slice(0, e)] is a prefix of [s], of [e] units when [e] is a length
    within [s]. *)
Lemma slice_0 s e :
  ∃ n, slice s 0 e = take n s ∧
       (0 ≤ e ≤ Z.of_nat (length s) → n = Z.to_nat e).
Proof.
  unfold slice. change (0 <? 0) with false. cbv iota.
  rewrite (Z.min_l 0), Z.sub_0_r by lia. change (Z.to_nat 0) with 0%nat.
  rewrite drop_0.
  eexists; split; [reflexivity|].
  intros H. destruct (Z.ltb_spec e 0); [lia|].
  by rewrite Z.min_l by lia.
Qed.

(** ** [sanitizeText] *)

(** The trimmed, NUL-free text [sanitizeText] works on, and its two ways
    out. *)
Lemma sanitizeText_cases input maxLen r :
  sanitizeText number_toString input maxLen = Some r →
  ∃ text, (0%N ∉ text) ∧ trimmed text ∧
    ((r = text ∧ (text = [] ∨ Z.of_nat (length text) ≤ maxLen)) ∨
     (maxLen < Z.of_nat (length text) ∧
      ∃ n, r = take n text ++ units "..." ∧
           (3 ≤ maxLen → n = Z.to_nat (maxLen - 3)))).
Proof.
  unfold sanitizeText. intros H.
  apply bind_Some in H as (s & _ & H).
  exists (trim (removeNul s)).
  split; [|split].
  - intros H0%trim_elem_of%removeNul_spec. by destruct H0.
  - apply trim_trimmed.
  - destruct (trim (removeNul s)) as [|c text] eqn:E.
    { left. injection H as <-. auto. }
    destruct (Z.gtb_spec (Z.of_nat (length (c :: text))) maxLen) as [Hlt|Hle].
    + right. split; [lia|].
      destruct (slice_0 (c :: text) (maxLen - 3)) as (n & En & Hn).
      exists n. rewrite <- En. split; [by injection H as <-|].
      intros ?. apply Hn. lia.
    + left. injection H as <-. split; [done|]. right; lia.
Qed.

Lemma sanitizeText_string s maxLen :
  (0%N ∉ s) → trimmed s → Z.of_nat (length s) ≤ maxLen →
  sanitizeText number_toString (Some (JString s)) maxLen = Some s.
Proof.
  intros H0 Ht Hl. unfold sanitizeText. cbn.
  rewrite removeNul_id, trim_id by done.
  destruct s as [|c s]; [done|].
  destruct (Z.gtb_spec (Z.of_nat (length (c :: s))) maxLen); [lia|done].
Qed.

Lemma sanitizeText_length_aux input maxLen r :
  3 ≤ maxLen →
  sanitizeText number_toString input maxLen = Some r →
  Z.of_nat (length r) ≤ maxLen.
Proof.
  intros Hm (text & _ & _ & [[-> [->|H]]|[Hlt (n & -> & Hn)]])%sanitizeText_cases.
  - cbn. lia.
  - done.
  - rewrite Hn by done. rewrite length_app, length_take. cbn. lia.
Qed.

Lemma sanitizeText_clean_aux input maxLen r :
  sanitizeText number_toString input maxLen = Some r →
  (0%N ∉ r) ∧ trimmed r.
Proof.
  intros (text & H0 & Ht & [[-> _]|[Hlt (n & -> & _)]])%sanitizeText_cases;
    [by split|].
  split.
  - rewrite elem_of_app. intros [H|H].
    + apply H0. eapply elem_of_prefix; [exact H|apply prefix_take].
    + vm_compute in H.
      repeat (apply elem_of_cons in H as [H|H]; [done|]).
      by apply elem_of_nil in H.
  - intros c [H|H].
    + destruct (take n text) as [|d k] eqn:E.
      * cbn in H. by injection H as <-.
      * cbn in H. injection H as <-. apply Ht. left.
        destruct text; [by destruct n|]. destruct n; [done|].
        cbn in E. injection E as <- _. done.
    + change (units "...") with ([46; 46] ++ [46])%N in H.
      rewrite app_assoc, last_snoc in H. by injection H as <-.
Qed.

(** [X11] Whatever it is given and whatever the limit (of at least 3),
    [sanitizeText] returns at most [maxLen] code units. *)
Theorem sanitizeText_length input maxLen r :
  3 ≤ maxLen →
  sanitizeText number_toString input maxLen = Some r →
  Z.of_nat (length r) ≤ maxLen.
Proof. apply sanitizeText_length_aux. Qed.

(** [X12] The text [sanitizeText] returns holds no NUL and neither starts
    nor ends with white space, also when it was cut and the ellipsis was
    appended. *)
Theorem sanitizeText_clean input maxLen r :
  sanitizeText number_toString input maxLen = Some r →
  (0%N ∉ r) ∧ trimmed r.
Proof. apply sanitizeText_clean_aux. Qed.

(** [X13] A string without NUL, without white space at its ends and within
    the limit passes through [sanitizeText] unchanged. *)
Theorem sanitizeText_keeps_clean_text s maxLen :
  (0%N ∉ s) → trimmed s → Z.of_nat (length s) ≤ maxLen →
  sanitizeText number_toString (Some (JString s)) maxLen = Some s.
Proof. apply sanitizeText_string. Qed.

(** [X14] [sanitizeText] is idempotent: sanitising its own result with the
    same limit changes nothing. *)
Theorem sanitizeText_idempotent input maxLen r :
  3 ≤ maxLen →
  sanitizeText number_toString input maxLen = Some r →
  sanitizeText number_toString (Some (JString r)) maxLen = Some r.
Proof.
  intros Hm H.
  destruct (sanitizeText_clean_aux _ _ _ H).
  apply sanitizeText_string; [done..|].
  by eapply sanitizeText_length_aux.
Qed.

(** ** [normalizeQfarmRows] and the [/api/qfarm] payload *)

Lemma jsstring_eqb_eq (a b : jsstring) : jsstring_eqb a b = true ↔ a = b.
Proof.
  revert b. induction a as [|x a IH]; intros [|y b]; cbn; try done.
  rewrite andb_true_iff, N.eqb_eq, IH. split; [by intros [-> ->]|].
  by intros [= -> ->].
Qed.

Lemma mapM_filter_Forall {A B} (f : A → option B) (keep : B → bool)
    (P : B → Prop) (n : nat) (items : list A) (l : list B) :
  (∀ x y, f x = Some y → P y) →
  List.filter keep <$> mapM f (take n items) = Some l →
  (length l ≤ n)%nat ∧ Forall (λ y, P y ∧ keep y = true) l.
Proof.
  intros Hf H. apply fmap_Some in H as (k & Hk & ->).
  apply mapM_Some in Hk. split.
  - etrans; [apply List.filter_length_le|].
    rewrite <- (Forall2_length _ _ _ Hk), length_take. lia.
  - apply Forall_forall. intros y [Hy ?]%list_elem_of_In%filter_In.
    split; [|done].
    apply list_elem_of_In in Hy.
    apply list_elem_of_lookup in Hy as (i & Hi).
    destruct (Forall2_lookup_r _ _ _ _ _ Hk Hi) as (x & _ & Hx).
    by eapply Hf.
Qed.

Lemma normalizeRow_shape row r :
  normalizeRow number_toString row = Some r →
  Z.of_nat (length (row_value r)) ≤ 220 ∧
  (∀ label, row_label r = Some label →
            label ≠ [] ∧ Z.of_nat (length label) ≤ 40).
Proof.
  unfold normalizeRow. destruct (isObject (Some row)); intros H.
  - apply bind_Some in H as (label & Hl & H).
    apply bind_Some in H as (value & Hv & H).
    apply sanitizeText_length_aux in Hl, Hv; [|lia..].
    destruct label; injection H as <-; cbn; (split; [done|]).
    + done.
    + by intros ? [= <-].
  - apply bind_Some in H as (value & Hv & H).
    apply sanitizeText_length_aux in Hv; [|lia].
    by injection H as <-.
Qed.

Lemma keepRow_true r :
  keepRow r = true → row_value r ≠ [] ∨ ∃ c label, row_label r = Some (c :: label).
Proof.
  unfold keepRow. destruct (row_value r); [|by left].
  destruct (row_label r) as [[|c label]|]; [done| |done].
  right. eauto.
Qed.

Lemma normalizeQfarmRows_rows rows l :
  normalizeQfarmRows number_toString rows = Some l →
  (length l ≤ 80)%nat ∧
  Forall (λ r, (Z.of_nat (length (row_value r)) ≤ 220 ∧
                (∀ label, row_label r = Some label →
                          label ≠ [] ∧ Z.of_nat (length label) ≤ 40)) ∧
               keepRow r = true) l.
Proof.
  unfold normalizeQfarmRows.
  destruct rows as [[| | | |items|]|]; try (intros [= <-]; split; [cbn; lia|done]).
  apply mapM_filter_Forall. apply normalizeRow_shape.
Qed.

(** [X15] [normalizeQfarmRows] answers the empty array for anything but an
    array; from an array it keeps at most 80 rows, each with a value of at
    most 220 units, a label (when it has one) that is not empty and of at
    most 40 units, and a value or a label that is not empty. *)
Theorem normalizeQfarmRows_shape rows l :
  normalizeQfarmRows number_toString rows = Some l →
  (length l ≤ 80)%nat ∧
  ((∀ items, rows ≠ Some (JArray items)) → l = []) ∧
  Forall (λ r, Z.of_nat (length (row_value r)) ≤ 220 ∧
               (∀ label, row_label r = Some label →
                         label ≠ [] ∧ Z.of_nat (length label) ≤ 40) ∧
               (row_value r ≠ [] ∨ is_Some (row_label r))) l.
Proof.
  intros H. destruct (normalizeQfarmRows_rows _ _ H) as [Hn Hl].
  split; [done|]. split.
  - intros Hr. unfold normalizeQfarmRows in H.
    destruct rows as [[| | | |items|]|]; try by injection H.
    by destruct (Hr items).
  - eapply Forall_impl; [exact Hl|]. intros r [[? ?] Hk]. cbn.
    split; [done|]. split; [done|].
    destruct (keepRow_true _ Hk) as [?|(c & label & ->)]; eauto.
Qed.

Lemma nonempty_or_shape s fallback m :
  Z.of_nat (length s) ≤ m → fallback ≠ [] → Z.of_nat (length fallback) ≤ m →
  nonempty_or s fallback ≠ [] ∧ Z.of_nat (length (nonempty_or s fallback)) ≤ m.
Proof. by destruct s. Qed.

Lemma qfarmStat_shape item x :
  qfarmStat number_truthy number_toString item = Some x →
  Z.of_nat (length (stat_label x)) ≤ 30 ∧ Z.of_nat (length (stat_value x)) ≤ 80.
Proof.
  unfold qfarmStat. intros H.
  apply bind_Some in H as (label & Hl & H).
  apply bind_Some in H as (value & Hv & H).
  apply sanitizeText_length_aux in Hl, Hv; [|lia..].
  by injection H as <-.
Qed.

Lemma qfarmSection_shape section x :
  qfarmSection number_truthy number_toString section = Some x →
  Z.of_nat (length (section_title x)) ≤ 24 ∧
  (length (section_rows x) ≤ 80)%nat.
Proof.
  unfold qfarmSection. intros H.
  apply bind_Some in H as (title & Ht & H).
  apply bind_Some in H as (rows & Hr & H).
  apply sanitizeText_length_aux in Ht; [|lia].
  apply normalizeQfarmRows_rows in Hr as [Hr _].
  by injection H as <-.
Qed.

Lemma qfarm_CallsRender today reqBody d :
  qfarm number_truthy number_toString toLowerCase parseInt today reqBody
    = CallsRender d →
  (qfarm_theme d = units "light" ∨ qfarm_theme d = units "dark") ∧
  qfarmPayload number_truthy number_toString parseInt today
    (object_or_empty reqBody) (qfarm_theme d) = Some d.
Proof.
  unfold qfarm. intros H.
  destruct (sanitizeText _ _ 16) as [theme|]; [|done].
  destruct (jsstring_eqb (toLowerCase theme) (units "light")) eqn:E1;
    [|destruct (jsstring_eqb (toLowerCase theme) (units "dark")) eqn:E2];
    cbn in H; [| |done].
  - apply jsstring_eqb_eq in E1.
    destruct (qfarmPayload _ _ _ _ _ _) as [d'|] eqn:E; [|done].
    injection H as ->.
    assert (qfarm_theme d = toLowerCase theme) as ->; [|by auto].
    unfold qfarmPayload in E. repeat (apply bind_Some in E as (? & _ & E)).
    by injection E as <-.
  - apply jsstring_eqb_eq in E2.
    destruct (qfarmPayload _ _ _ _ _ _) as [d'|] eqn:E; [|done].
    injection H as ->.
    assert (qfarm_theme d = toLowerCase theme) as ->; [|by auto].
    unfold qfarmPayload in E. repeat (apply bind_Some in E as (? & _ & E)).
    by injection E as <-.
Qed.

(** [X16] Whatever the request body, the data [/api/qfarm] hands to
    [render] is bounded: the theme is [light] or [dark]; at most 10 stats,
    none with label and value both empty, labels of at most 30 and values of
    at most 80 units; at most 8 sections, each with 1 to 80 rows and a title
    of at most 24 units; title, icon and footer are never empty and, like
    the summary, within their limits (30, 8, 80, 220). *)
Theorem qfarm_payload_bounded today reqBody d :
  qfarm number_truthy number_toString toLowerCase parseInt today reqBody
    = CallsRender d →
  (qfarm_theme d = units "light" ∨ qfarm_theme d = units "dark") ∧
  ((length (qfarm_stats d) ≤ 10)%nat ∧
   Forall (λ x, Z.of_nat (length (stat_label x)) ≤ 30 ∧
                Z.of_nat (length (stat_value x)) ≤ 80 ∧
                (stat_label x ≠ [] ∨ stat_value x ≠ [])) (qfarm_stats d)) ∧
  ((length (qfarm_sections d) ≤ 8)%nat ∧
   Forall (λ x, Z.of_nat (length (section_title x)) ≤ 24 ∧
                section_rows x ≠ [] ∧
                (length (section_rows x) ≤ 80)%nat) (qfarm_sections d)) ∧
  (qfarm_title d ≠ [] ∧ Z.of_nat (length (qfarm_title d)) ≤ 30) ∧
  (qfarm_icon d ≠ [] ∧ Z.of_nat (length (qfarm_icon d)) ≤ 8) ∧
  (qfarm_footer d ≠ [] ∧ Z.of_nat (length (qfarm_footer d)) ≤ 80) ∧
  Z.of_nat (length (qfarm_summary d)) ≤ 220.
Proof.
  intros [Htheme H]%qfarm_CallsRender. split; [done|].
  unfold qfarmPayload in H.
  apply bind_Some in H as (stats & Hstats & H).
  apply bind_Some in H as (sections & Hsections & H).
  apply bind_Some in H as (index & _ & H).
  apply bind_Some in H as (total & _ & H).
  apply bind_Some in H as (title & Htitle & H).
  apply bind_Some in H as (subtitle & _ & H).
  apply bind_Some in H as (icon & Hicon & H).
  apply bind_Some in H as (summary & Hsummary & H).
  apply bind_Some in H as (footer & Hfooter & H).
  injection H as <-. cbn.
  apply sanitizeText_length_aux in Htitle, Hicon, Hsummary, Hfooter; [|lia..].
  split; [|split; [|split; [|split; [|split]]]].
  - unfold qfarmStats in Hstats.
    destruct (get _ "stats") as [[| | | |items|]|];
      try (injection Hstats as <-; split; [cbn; lia|done]).
    eapply mapM_filter_Forall in Hstats as [? Hl]; [|apply qfarmStat_shape].
    split; [done|]. eapply Forall_impl; [exact Hl|].
    intros x [[? ?] Hk]. cbn. split; [done|]. split; [done|].
    unfold keepStat in Hk. destruct (stat_label x); [|by left].
    destruct (stat_value x); [done|by right].
  - unfold qfarmSections in Hsections.
    destruct (get _ "sections") as [[| | | |items|]|];
      try (injection Hsections as <-; split; [cbn; lia|done]).
    eapply mapM_filter_Forall in Hsections as [? Hl];
      [|apply qfarmSection_shape].
    split; [done|]. eapply Forall_impl; [exact Hl|].
    intros x [[? ?] Hk]. cbn. split; [done|]. split; [|done].
    unfold keepSection in Hk. by destruct (section_rows x).
  - apply nonempty_or_shape; [done|done|cbn; lia].
  - apply nonempty_or_shape; [done|done|cbn; lia].
  - apply nonempty_or_shape; [done|done|cbn; lia].
  - done.
Qed.

Lemma Math_max_le_l a b : Integral_le a (Math_max a b).
Proof. destruct a, b; cbn; try done; lia. Qed.

(** [X17] The page numbers [/api/qfarm] hands to [render] are ordered,
    whatever [page] holds and whatever [parseInt] makes of it:
    [1 <= index <= total]. *)
Theorem qfarm_page_numbers today reqBody d :
  qfarm number_truthy number_toString toLowerCase parseInt today reqBody
    = CallsRender d →
  Integral_le (Finite 1) (qfarm_page_index d) ∧
  Integral_le (qfarm_page_index d) (qfarm_page_total d).
Proof.
  intros [_ H]%qfarm_CallsRender.
  unfold qfarmPayload in H.
  apply bind_Some in H as (stats & _ & H).
  apply bind_Some in H as (sections & _ & H).
  apply bind_Some in H as (index & _ & H).
  apply bind_Some in H as (total & _ & H).
  repeat (apply bind_Some in H as (? & _ & H)).
  injection H as <-. cbn [qfarm_page_index qfarm_page_total].
  split; exact (Math_max_le_l _ _).
Qed.


End ServerProperties.

(** * Properties of the timetable grid *)

Lemma emptyGrid_lookup wd :
  emptyGrid !! wd = if bool_decide (1 ≤ wd ≤ 7) then Some ∅ else None.
Proof.
  unfold emptyGrid. cbn [map list_to_map foldr fst snd].
  repeat (rewrite lookup_insert; case_decide;
          [subst; by rewrite bool_decide_eq_true_2 by lia|]).
  rewrite lookup_empty. by rewrite bool_decide_eq_false_2 by lia.
Qed.

Lemma placeCourse_Some grid c :
  is_Some (placeCourse grid c) ↔ is_Some (grid !! course_day c).
Proof.
  unfold placeCourse. destruct (grid !! course_day c); cbn; [|done].
  split; eauto.
Qed.

Lemma placeCourse_dom grid c grid' wd :
  placeCourse grid c = Some grid' →
  is_Some (grid' !! wd) ↔ is_Some (grid !! wd).
Proof.
  unfold placeCourse. intros (cells & Hc & [= <-])%bind_Some.
  rewrite lookup_insert. case_decide; [subst|done].
  split; intros _; [by exists cells|by eexists].
Qed.

Lemma placeCourse_cell grid c grid' wd key :
  placeCourse grid c = Some grid' →
  gridCell grid' wd key =
    gridCell grid wd key ++
    (if (course_day c =? wd) && (course_key c =? key) then [lesson c] else []).
Proof.
  unfold placeCourse, gridCell. intros (cells & Hc & [= <-])%bind_Some.
  rewrite lookup_insert.
  destruct (Z.eqb_spec (course_day c) wd) as [E|Hd]; cbn [andb].
  - subst wd. rewrite decide_True by done. rewrite Hc. cbn.
    rewrite lookup_insert.
    destruct (Z.eqb_spec (course_key c) key) as [E|Hk].
    + subst key. by rewrite decide_True by done.
    + rewrite decide_False by done. by rewrite app_nil_r.
  - rewrite decide_False by done. by rewrite app_nil_r.
Qed.

Lemma placeCourse_keys grid c grid' wd cells key :
  placeCourse grid c = Some grid' →
  grid' !! wd = Some cells → is_Some (cells !! key) →
  key = course_key c ∨
  ∃ cells0, grid !! wd = Some cells0 ∧ is_Some (cells0 !! key).
Proof.
  unfold placeCourse. intros (cells0 & Hc & [= <-])%bind_Some.
  rewrite lookup_insert. case_decide; [subst wd|by eauto].
  intros [= <-]. rewrite lookup_insert. case_decide; [by left|].
  right. eauto.
Qed.

Lemma placeCourses_None grid courses :
  placeCourses grid courses = None ↔
  ∃ c, c ∈ courses ∧ grid !! course_day c = None.
Proof.
  revert grid. induction courses as [|c courses IH]; intros grid; cbn.
  { split; [done|]. intros (c & Hc & _). by apply elem_of_nil in Hc. }
  destruct (placeCourse grid c) as [grid'|] eqn:E; cbn.
  - rewrite IH. split.
    + intros (c' & Hc' & Hn). exists c'. split; [by right|].
      apply eq_None_not_Some. rewrite <- (placeCourse_dom _ _ _ _ E).
      by rewrite Hn; intros [? ?].
    + intros (c' & [E'|Hc']%elem_of_cons & Hn).
      * subst c'. assert (is_Some (placeCourse grid c)) as H by eauto.
        apply placeCourse_Some in H. rewrite Hn in H. by destruct H.
      * exists c'. split; [done|].
        apply eq_None_not_Some. rewrite (placeCourse_dom _ _ _ _ E).
        by rewrite Hn; intros [? ?].
  - split; [intros _|done]. exists c. split; [by left|].
    apply eq_None_not_Some. rewrite <- placeCourse_Some. rewrite E.
    by intros [? ?].
Qed.

Lemma placeCourses_cell grid courses grid' wd key :
  placeCourses grid courses = Some grid' →
  gridCell grid' wd key =
    gridCell grid wd key ++
    map lesson
      (List.filter (fun c => (course_day c =? wd) && (course_key c =? key))
                   courses).
Proof.
  revert grid. induction courses as [|c courses IH]; intros grid; cbn.
  { intros [= <-]. by rewrite app_nil_r. }
  intros (grid1 & H1 & H)%bind_Some.
  rewrite (IH _ H), (placeCourse_cell _ _ _ wd key H1), <- app_assoc.
  by destruct ((course_day c =? wd) && (course_key c =? key)).
Qed.

Lemma course_key_odd c : Z.odd (course_key c) = true.
Proof.
  unfold course_key. set (k := number_or (section_start c) 1).
  pose proof (Z.quot_rem' k 2) as E.
  pose proof (Z.rem_bound_abs k 2 ltac:(lia)) as B.
  apply Z.odd_spec.
  destruct (Z.eqb_spec (Z.rem k 2) 0) as [H0|H0].
  - exists (k ÷ 2 - 1). lia.
  - destruct (Z.le_gt_cases 0 (Z.rem k 2)).
    + exists (k ÷ 2). lia.
    + exists (k ÷ 2 - 1). lia.
Qed.

Lemma placeCourses_keys grid courses grid' :
  placeCourses grid courses = Some grid' →
  (∀ wd cells key, grid !! wd = Some cells → is_Some (cells !! key) →
                   Z.odd key = true) →
  ∀ wd cells key, grid' !! wd = Some cells → is_Some (cells !! key) →
                  Z.odd key = true.
Proof.
  revert grid. induction courses as [|c courses IH]; intros grid; cbn.
  { by intros [= <-]. }
  intros (grid1 & H1 & H)%bind_Some Hodd.
  apply (IH _ H). intros wd cells key Hw Hk.
  destruct (placeCourse_keys _ _ _ _ _ _ H1 Hw Hk) as [->|(cells0 & ? & ?)].
  - apply course_key_odd.
  - by eapply Hodd.
Qed.

(** [X18] The timetable handler ends in its [catch] (answer 500) exactly
    when some course has a weekday, after [|| 1], outside 1 to 7: for such
    a course [grid[wd]] is [undefined] and reading its section throws. *)
Theorem timetable_throws_iff courses :
  timetableGrid courses = None ↔
  ∃ c, c ∈ courses ∧ ¬ (1 ≤ course_day c ≤ 7).
Proof.
  unfold timetableGrid. rewrite placeCourses_None.
  split; intros (c & Hc & H); exists c; (split; [done|]);
    rewrite emptyGrid_lookup in *; by case_bool_decide.
Qed.

(** [X19] When the grid is built, the cell of a day and a section key
    holds exactly the lessons of the courses with that day and that key
    (the odd section at or below [section_start]), in the order of the
    request; section numbers are taken in the range where doubles are
    exact. *)
Theorem timetable_cell courses grid wd key :
  Forall (λ c, safeInteger (section_start c)) courses →
  timetableGrid courses = Some grid →
  gridCell grid wd key =
    map lesson
      (List.filter (fun c => (course_day c =? wd) && (course_key c =? key))
                   courses).
Proof.
  intros _ H. rewrite (placeCourses_cell _ _ _ wd key H).
  unfold gridCell. rewrite emptyGrid_lookup.
  by case_bool_decide.
Qed.

(** [X20] Every section key of the grid is odd (so 1-2 share key 1, 3-4
    key 3, and so on), also for negative section numbers; section numbers
    are taken in the range where doubles are exact. *)
Theorem timetable_keys_odd courses grid wd cells key :
  Forall (λ c, safeInteger (section_start c)) courses →
  timetableGrid courses = Some grid →
  grid !! wd = Some cells → is_Some (cells !! key) →
  Z.odd key = true.
Proof.
  intros _ H. apply (placeCourses_keys _ _ _ H).
  intros wd' cells' key'. rewrite emptyGrid_lookup.
  case_bool_decide; [|done]. intros [= <-]. rewrite lookup_empty.
  by intros [? ?].
Qed.



(** * The model at concrete inputs *)

(** [C1] Sixteen pages are busy; one release meets a failed reset and
    waits for its replacement; two acquires then both pass the test
    [busyPages.size < MAX_CONCURRENT] at 15 and both add their new page:
    seventeen pages are busy, one more than [MAX_CONCURRENT]. *)
Theorem interleaved_acquires_exceed_bound :
  (λ r, size (busyPages (state (snd r)))) <$>
    run CONFIG overlapping_acquires {| state := warm; tasks := [] |}
  = Some 17%nat ∧
  (MAX_CONCURRENT CONFIG < 17)%nat.
Proof. split; [by vm_compute | cbn; lia]. Qed.

(** [C3] The template [echo] is rendered once from the source [hi]; its
    file is edited to [bye] and [clearTemplateCache] is called, which
    empties [templateCache].  The next render of [echo] still answers [hi],
    from the compiled function kept in [compiledTemplates], where compiling
    the current source afresh gives [bye]. *)
Theorem clear_keeps_compiled_template :
  fst (renderTemplate ejs_literal CONFIG "echo" tt fresh) = inr "hi"%string ∧
  readFile "echo.ejs" edited = Some "bye"%string ∧
  templateCache edited = ∅ ∧
  fst (renderTemplate ejs_literal CONFIG "echo" tt edited) = inr "hi"%string ∧
  ejs_render ejs_literal "bye" tt = inr "bye"%string.
Proof. by vm_compute. Qed.

(** [C4, as stated, fails] Page 15 is busy and open, fifteen pages are
    idle (below the target of sixteen); its reset fails.  When the close
    has settled the release has not returned: it is suspended at the
    creation of the replacement, and returns when that creation settles. *)
Lemma release_blocks_on_replacement :
  elements (busyPages held) = [15%nat] ∧
  isClosed 15%nat held = false ∧
  fst <$> run CONFIG [CallRelease 15%nat; ResetSettles 0 false;
                      CloseSettles 0 true]
              {| state := held; tasks := [] |}
  = Some [] ∧
  (λ r, tasks (snd r)) <$>
    run CONFIG [CallRelease 15%nat; ResetSettles 0 false; CloseSettles 0 true]
        {| state := held; tasks := [] |}
  = Some [ReleaseReplacing] ∧
  fst <$> run CONFIG [CallRelease 15%nat; ResetSettles 0 false;
                      CloseSettles 0 true; CreateSettles 0 Created]
              {| state := held; tasks := [] |}
  = Some [ReleaseReturns].
Proof. by vm_compute. Qed.

(** When the creation of the replacement is rejected, nothing around
    [await createPage()] catches it, unlike the reset and the close before
    it: [releasePage] throws.  Inside the [finally] of [render] this
    replaces the buffer the [try] block had captured. *)
Lemma replacement_failure_loses_capture :
  fst (releasePage CONFIG (resetFails true NewPageFails) 15%nat held)
    = Thrown (EngineFailure NewPage) ∧
  fst (render_body starved "hi" defaultOptions 15%nat held)
    = Returned [Byte.x89] ∧
  fst (render ejs_literal CONFIG starved "echo" tt defaultOptions warm)
    = Thrown (EngineFailure NewPage).
Proof. by vm_compute. Qed.

(** [C5, as stated, fails] Page 15 is busy and open; its reset fails and
    so does [page.close()], whose rejection is swallowed: after the release
    the page still reports open.  And when page 15 was idle as well (it had
    been released before), the next acquire returns it. *)
Lemma rejected_close_leaves_page_open :
  elements (busyPages held) = [15%nat] ∧
  isClosed 15%nat held = false ∧
  reset_fulfilled (resetFails false Created) = false ∧
  fst (releasePage CONFIG (resetFails false Created) 15%nat held)
    = Returned tt ∧
  isClosed 15%nat
    (snd (releasePage CONFIG (resetFails false Created) 15%nat held)) = false ∧
  fst <$> run CONFIG second_release_fails {| state := warm; tasks := [] |}
  = Some [AcquireReturns 15%nat; ReleaseReturns; ReleaseReturns;
          AcquireReturns 15%nat].
Proof. by vm_compute. Qed.

(** [C10] [releasePage] never looks the page up in [busyPages] before
    pushing it.  From the warm pool: page 15 is acquired and released; it is
    then idle and not busy; released again with the reset fulfilled, it
    lies twice on top of the idle stack; the next two acquires both return
    page 15, with no release in between. *)
Theorem double_release_double_issue :
  (λ r, (pagePool (state (snd r)), elements (busyPages (state (snd r))))) <$>
    run CONFIG (take 3 double_release) {| state := warm; tasks := [] |}
  = Some ([15; 14; 13; 12; 11; 10; 9; 8; 7; 6; 5; 4; 3; 2; 1; 0]%nat, []) ∧
  (λ r, take 2 (pagePool (state (snd r)))) <$>
    run CONFIG (take 5 double_release) {| state := warm; tasks := [] |}
  = Some [15; 15]%nat ∧
  fst <$> run CONFIG double_release {| state := warm; tasks := [] |}
  = Some [AcquireReturns 15%nat; ReleaseReturns; ReleaseReturns;
          AcquireReturns 15%nat; AcquireReturns 15%nat].
Proof. by vm_compute. Qed.

(** ** The theorems at concrete inputs *)

(** [C2] at a concrete input.  A first render of [echo] on the module as
    loaded: page 15 is acquired, and is not busy when [render] settles. *)
Lemma render_releases_acquired_page_witness :
  15%nat ∉ busyPages
    (snd (render ejs_literal CONFIG smooth "echo" tt defaultOptions fresh)).
Proof.
  destruct (render_releases_acquired_page ejs_literal CONFIG smooth "echo" tt
              defaultOptions fresh "hi"
              (snd (renderTemplate ejs_literal CONFIG "echo" tt fresh))
              (snd (getBrowser ejs_literal CONFIG smooth
                      (snd (renderTemplate ejs_literal CONFIG "echo" tt
                              fresh))))
              15%nat
              (snd (acquirePage CONFIG Created
                      (snd (getBrowser ejs_literal CONFIG smooth
                              (snd (renderTemplate ejs_literal CONFIG "echo"
                                      tt fresh)))))))
    as (_ & r & st4 & _ & _ & _ & _ & H & _).
  - by vm_compute.
  - by vm_compute.
  - by vm_compute.
  - exact H.
Defined.

(** [C4, as amended] at a concrete input.  Page 15 is released with a
    failed reset while fifteen pages are idle: nothing is returned when the
    close has settled, and the replacement, page 16, is on top of the idle
    stack when [releasePage] returns. *)
Lemma release_awaits_replacement_witness :
  fst <$> run CONFIG [CallRelease 15%nat; ResetSettles 0 false;
                      CloseSettles 0 true]
              {| state := held; tasks := [] |}
  = Some [] ∧
  fst (releasePage CONFIG (resetFails true Created) 15%nat held)
    = Returned tt ∧
  pagePool (snd (releasePage CONFIG (resetFails true Created) 15%nat held))
    = 16%nat :: pagePool held.
Proof.
  destruct (release_awaits_replacement CONFIG (resetFails true Created)
              15%nat held []) as [_ H].
  - by vm_compute.
  - reflexivity.
  - destruct H as [Hrun H]; [by vm_compute|].
    destruct (H 16%nat
                (snd (createPage Created
                        (release_close 15%nat true
                           (snd (release_begin 15%nat held))))))
      as (_ & Hrel & Hpool & _); [by vm_compute|].
    cbn [length close_fulfilled resetFails] in Hrun.
    split; [by rewrite Hrun|]. rewrite Hrel.
    split; [reflexivity | exact Hpool].
Defined.

(** [C5, as amended] at a concrete input.  Page 15 is released with a
    failed reset and a fulfilled close: it is closed, and the next acquire
    returns another page. *)
Lemma reset_failure_discards_page_witness :
  15%nat ∈ closedPages
    (snd (releasePage CONFIG (resetFails true Created) 15%nat held)) ∧
  AcquireReturns 15%nat ∉ [AcquireReturns 16%nat].
Proof.
  destruct (reset_failure_discards_page CONFIG (resetFails true Created)
              15%nat held) as (_ & Hclosed & _ & Hnever & _).
  - by vm_compute.
  - by vm_compute.
  - vm_compute. lia.
  - split; [by apply Hclosed|].
    apply (Hnever (Hclosed eq_refl) [] [CallAcquire] [AcquireReturns 16%nat]
             {| state :=
                  snd (acquire_begin CONFIG
                         (snd (releasePage CONFIG (resetFails true Created)
                                 15%nat held)));
                tasks := [] |}).
    by vm_compute.
Defined.

(** [C6] at a concrete input: a render of the identifier
    [does-not-exist] on the module as loaded. *)
Lemma template_failure_touches_no_session_witness :
  render ejs_literal CONFIG smooth "does-not-exist" tt defaultOptions fresh
    = (Thrown (TemplateNotFound "does-not-exist"), fresh) ∧
  allocated fresh = 0%nat.
Proof.
  destruct (template_failure_touches_no_session ejs_literal CONFIG smooth
              "does-not-exist" tt defaultOptions fresh
              (TemplateNotFound "does-not-exist") fresh) as (H & _).
  - right. repeat split; by vm_compute.
  - split; [exact H | reflexivity].
Defined.

(** [C7] at a concrete input: a render whose content measures 420 by
    317. *)
Lemma capture_clipped_to_content_witness :
  ∃ page,
    screenshots
      (calls (snd (render ejs_literal CONFIG smooth "echo" tt defaultOptions
                     fresh)))
    = [(page,
        {| type := "png";
           clip := {| clip_x := 0; clip_y := 0;
                      clip_width := 420; clip_height := 317 |};
           omitBackground := false |})].
Proof.
  destruct (capture_clipped_to_content ejs_literal CONFIG smooth "echo" tt
              defaultOptions fresh [Byte.x89]
              (snd (render ejs_literal CONFIG smooth "echo" tt defaultOptions
                      fresh))
              420 317) as (page & H & _).
  - by vm_compute.
  - reflexivity.
  - exists page. exact H.
Defined.

(** [C8] at a concrete input: the first render of [echo], whose readiness
    wait times out; page 15 serves it. *)
Lemma readiness_wait_bounded_and_soft_witness :
  waitForFunction_fulfilled (set_waitForFunction false smooth) = false ∧
  ∃ st3 st4 : State unit,
    render_body (set_waitForFunction false smooth) "hi" defaultOptions
                15%nat st3 = (Returned [Byte.x89], st4) ∧
    calls st4 =
      [Screenshot 15%nat (screenshotOptions (420, 317));
       EvaluateBoundingBox 15%nat; WaitForFunction 15%nat 3000;
       SetContent 15%nat "hi" "domcontentloaded"] ++ calls st3 ∧
    fst (render ejs_literal CONFIG (set_waitForFunction false smooth)
           "echo" tt defaultOptions fresh) = Returned [Byte.x89].
Proof.
  split; [reflexivity|].
  destruct (readiness_wait_bounded_and_soft ejs_literal CONFIG
              (set_waitForFunction false smooth) "echo" tt defaultOptions
              fresh) as (_ & _ & H).
  set (st1 := snd (renderTemplate ejs_literal CONFIG "echo" tt fresh)).
  set (st2 := snd (getBrowser ejs_literal CONFIG
                     (set_waitForFunction false smooth) st1)).
  set (st3 := snd (acquirePage CONFIG Created st2)).
  destruct (H "hi"%string st1 st2 15%nat st3 defaultViewport)
    as (st4 & Hb & Hlog & _).
  - vm_compute. reflexivity.
  - vm_compute. reflexivity.
  - vm_compute. reflexivity.
  - vm_compute. reflexivity.
  - left. reflexivity.
  - reflexivity.
  - clearbody st1 st2 st3. clear H. revert st3 st4 Hb Hlog.
    intros st3 st4 Hb Hlog. exists st3, st4.
    split; [exact Hb|]. split; [exact Hlog|].
    vm_compute. reflexivity.
Defined.

(** [C9] at a concrete input.  The module after one render at width 420:
    page 15 served it and now has the viewport (420, 600, 2). *)
Lemma viewport_height_and_scale_fixed_witness :
  ∃ v,
    viewports
      (perform ejs_literal CONFIG fresh
         (Render smooth "echo" tt {| options_width := Some 420 |})) !! 15%nat
      = Some v ∧
    width v = 420 ∧ height v = 600 ∧ deviceScaleFactor v = 2.
Proof.
  destruct (viewport_height_and_scale_fixed ejs_literal CONFIG
              (perform ejs_literal CONFIG fresh
                 (Render smooth "echo" tt {| options_width := Some 420 |})))
    as (H & _).
  - exists [("echo.ejs"%string, "hi"%string)],
           [Render smooth "echo" tt {| options_width := Some 420 |}].
    reflexivity.
  - exists {| width := 420; height := 600; deviceScaleFactor := 2 |}.
    assert (viewports
              (perform ejs_literal CONFIG fresh
                 (Render smooth "echo" tt {| options_width := Some 420 |}))
              !! 15%nat
            = Some {| width := 420; height := 600; deviceScaleFactor := 2 |})
      as Hv by by vm_compute.
    split; [exact Hv|]. split; [reflexivity|]. exact (H _ _ Hv).
Defined.

(** [X1] at a concrete input: the first [getBrowser] of the module, every
    call fulfilled. *)
Lemma startup_fills_pool_witness :
  pagePool warm = rev (seq 0 16) ∧ allocated warm = 16%nat.
Proof.
  destruct (startup_fills_pool ejs_literal CONFIG smooth fresh)
    as (_ & _ & Hp & Ha & _).
  - reflexivity.
  - reflexivity.
  - intros _. by vm_compute.
  - reflexivity.
  - intros i _. reflexivity.
  - split; [exact Hp | exact Ha].
Defined.

(** [X2] at a concrete input: the fourth page creation of the prewarming
    is rejected. *)
Lemma failed_prewarm_is_not_retried_witness :
  pagePool (snd (getBrowser ejs_literal CONFIG flaky fresh)) = [] ∧
  getBrowser ejs_literal CONFIG smooth
    (snd (getBrowser ejs_literal CONFIG flaky fresh))
  = (Returned tt, snd (getBrowser ejs_literal CONFIG flaky fresh)).
Proof.
  destruct (failed_prewarm_is_not_retried ejs_literal CONFIG flaky fresh)
    as (_ & _ & Hp & Hagain).
  - reflexivity.
  - reflexivity.
  - intros _. by vm_compute.
  - reflexivity.
  - exists 3%nat. split; [simpl; lia | reflexivity].
  - split; [exact Hp | exact (Hagain smooth)].
Defined.

(** [X3] at a concrete input: the directory holds [echo.ejs]. *)
Lemma precompiled_templates_render_from_cache_witness :
  ∃ t f,
    ejs_literal t = inr f ∧
    compiledTemplates (snd (precompileTemplates ejs_literal fresh))
      !! "echo"%string = Some f ∧
    renderTemplate ejs_literal CONFIG "echo" tt
      (snd (precompileTemplates ejs_literal fresh))
    = (f tt, snd (precompileTemplates ejs_literal fresh)).
Proof.
  destruct (precompiled_templates_render_from_cache ejs_literal CONFIG fresh
              (snd (precompileTemplates ejs_literal fresh))
              "echo.ejs" "hi") as (t & f & Hc & _ & Hf & Hr & _).
  - by vm_compute.
  - simpl. left. reflexivity.
  - by vm_compute.
  - exists t, f. split; [exact Hc|]. split; [exact Hf | exact (Hr tt)].
Defined.

(** [X4] at a concrete input: the file [universal.ejs]. *)
Lemma template_file_identifier_witness :
  replace ".ejs" "" "universal.ejs" = "universal"%string.
Proof.
  destruct (template_file_identifier "universal") as [_ H].
  - by vm_compute.
  - exact H.
Defined.

(** [X5] at a concrete input: an acquire on the warm pool returns its top
    page, 15. *)
Lemma acquire_takes_topmost_open_page_witness :
  ∃ dropped, pagePool warm = dropped ++ 15%nat :: pagePool held.
Proof.
  destruct (acquire_takes_topmost_open_page CONFIG Created warm
              (Returned 15%nat) held)
    as (dropped & _ & [(p & Hpool & _ & Heq & _)|(_ & Hnil & _)]).
  - by vm_compute.
  - exists dropped. injection Heq as <-. exact Hpool.
  - vm_compute in Hnil. discriminate Hnil.
Defined.

(** [X6] at a concrete input: page 15 is released, then acquired again. *)
Lemma released_page_is_reused_first_witness :
  fst (acquirePage CONFIG Created (snd (releasePage CONFIG resetOk 15%nat held)))
  = Returned 15%nat.
Proof.
  destruct (released_page_is_reused_first CONFIG resetOk Created 15%nat held)
    as (_ & st2 & H & _).
  - by vm_compute.
  - reflexivity.
  - by rewrite H.
Defined.

(** [X7] at a concrete input: a render of [echo] on the warm pool. *)
Lemma warm_render_restores_pool_witness :
  ∃ st',
    render ejs_literal CONFIG smooth "echo" tt defaultOptions warm
      = (Returned [Byte.x89], st') ∧
    pagePool st' = pagePool warm.
Proof.
  destruct (warm_render_restores_pool ejs_literal CONFIG smooth "echo" tt
              defaultOptions warm "hi"
              (snd (renderTemplate ejs_literal CONFIG "echo" tt warm))
              15%nat (rev (seq 0 15)) defaultViewport (420, 317) [Byte.x89])
    as (st' & Hr & Hp & _).
  - by vm_compute.
  - by vm_compute.
  - by vm_compute.
  - by vm_compute.
  - by vm_compute.
  - reflexivity.
  - reflexivity.
  - reflexivity.
  - reflexivity.
  - reflexivity.
  - exists st'. split; [exact Hr | exact Hp].
Defined.

(** [X8] at a concrete input: one page of the warm pool is held. *)
Lemma orderly_pages_within_capacity_witness :
  (length (pagePool held) + size (busyPages held) ≤ 16)%nat ∧
  (size (busyPages held) ≤ 16)%nat.
Proof.
  apply (orderly_pages_within_capacity ejs_literal CONFIG held).
  - simpl. lia.
  - apply (orderly_acquirePage ejs_literal CONFIG Created warm).
    + apply (orderly_getBrowser ejs_literal CONFIG smooth fresh).
      apply orderly_initial.
    + by vm_compute.
Defined.

(** [X9] at a concrete input: all sixteen pages are held, one acquire
    waits, and page 3 is released. *)
Lemma waiting_acquire_is_served_by_release_witness :
  ∃ st',
    run CONFIG [Tick 0; CallRelease 3%nat; ResetSettles 1 true; Tick 0]
        {| state := exhausted; tasks := [AcquirePolling] |}
    = Some ([ReleaseReturns; AcquireReturns 3%nat],
            {| state := st'; tasks := [] |}).
Proof.
  destruct (waiting_acquire_is_served_by_release CONFIG exhausted
              [AcquirePolling] 0%nat 3%nat) as (st' & H & _).
  - reflexivity.
  - by vm_compute.
  - by vm_compute.
  - exists st'. exact H.
Defined.

(** [X10] at a concrete input: one page of the warm pool is held. *)
Lemma orderly_no_double_issue_witness :
  NoDup (pagePool held).
Proof.
  destruct (orderly_no_double_issue ejs_literal CONFIG held) as (H & _).
  - apply (orderly_acquirePage ejs_literal CONFIG Created warm).
    + apply (orderly_getBrowser ejs_literal CONFIG smooth fresh).
      apply orderly_initial.
    + by vm_compute.
  - exact H.
Defined.

(** The limit of 8 cuts the padded sample to five units and the
    ellipsis. *)
Lemma sanitizeText_length_witness :
  ∃ r, sanitizeText digit_toString (Some padded) 8 = Some r ∧
       Z.of_nat (length r) ≤ 8.
Proof.
  destruct (sanitizeText digit_toString (Some padded) 8) as [r|] eqn:E;
    [|by vm_compute in E].
  exists r. split; [reflexivity|].
  apply (sanitizeText_length digit_toString (Some padded) 8 r);
    [by vm_compute|exact E].
Defined.

Lemma sanitizeText_clean_witness :
  ∃ r, sanitizeText digit_toString (Some padded) 8 = Some r ∧
       (0%N ∉ r) ∧ trimmed r.
Proof.
  destruct (sanitizeText digit_toString (Some padded) 8) as [r|] eqn:E;
    [|by vm_compute in E].
  exists r. split; [reflexivity|].
  exact (sanitizeText_clean digit_toString (Some padded) 8 r E).
Defined.

Lemma sanitizeText_keeps_clean_text_witness :
  sanitizeText digit_toString (Some (JString (units "a b"))) 8
    = Some (units "a b").
Proof.
  apply (sanitizeText_keeps_clean_text digit_toString (units "a b") 8).
  - apply (bool_decide_unpack _). by vm_compute.
  - intros c [H|H]; vm_compute in H; injection H as <-; reflexivity.
  - by vm_compute.
Defined.

Lemma sanitizeText_idempotent_witness :
  ∃ r, sanitizeText digit_toString (Some padded) 8 = Some r ∧
       sanitizeText digit_toString (Some (JString r)) 8 = Some r.
Proof.
  destruct (sanitizeText digit_toString (Some padded) 8) as [r|] eqn:E;
    [|by vm_compute in E].
  exists r. split; [reflexivity|].
  apply (sanitizeText_idempotent digit_toString (Some padded) 8 r);
    [by vm_compute|exact E].
Defined.

Lemma normalizeQfarmRows_shape_witness :
  ∃ l, normalizeQfarmRows digit_toString (Some sampleRows) = Some l ∧
       (length l ≤ 80)%nat.
Proof.
  destruct (normalizeQfarmRows digit_toString (Some sampleRows)) as [l|] eqn:E;
    [|by vm_compute in E].
  exists l. split; [reflexivity|].
  by destruct (normalizeQfarmRows_shape digit_toString (Some sampleRows) l E)
    as (H & _).
Defined.

Lemma qfarm_payload_bounded_witness :
  ∃ d, qfarm digit_truthy digit_toString ascii_toLowerCase parseDigit
         (units "today") (Some harvest) = CallsRender d ∧
       (qfarm_theme d = units "light" ∨ qfarm_theme d = units "dark").
Proof.
  destruct (qfarm digit_truthy digit_toString ascii_toLowerCase parseDigit
              (units "today") (Some harvest)) as [d| |] eqn:E;
    [|by vm_compute in E..].
  exists d. split; [reflexivity|].
  by destruct (qfarm_payload_bounded digit_truthy digit_toString
                 ascii_toLowerCase parseDigit (units "today") (Some harvest)
                 d E) as (H & _).
Defined.

Lemma qfarm_page_numbers_witness :
  ∃ d, qfarm digit_truthy digit_toString ascii_toLowerCase parseDigit
         (units "today") (Some harvest) = CallsRender d ∧
       Integral_le (qfarm_page_index d) (qfarm_page_total d).
Proof.
  destruct (qfarm digit_truthy digit_toString ascii_toLowerCase parseDigit
              (units "today") (Some harvest)) as [d| |] eqn:E;
    [|by vm_compute in E..].
  exists d. split; [reflexivity|].
  by destruct (qfarm_page_numbers digit_truthy digit_toString
                 ascii_toLowerCase parseDigit (units "today") (Some harvest)
                 d E) as (_ & H).
Defined.

Lemma timetable_throws_iff_witness :
  timetableGrid (sampleCourses ++ [strayCourse]) = None.
Proof.
  apply (proj2 (timetable_throws_iff (sampleCourses ++ [strayCourse]))).
  exists strayCourse. split; [|cbn; lia].
  apply elem_of_app. right. apply list_elem_of_singleton. reflexivity.
Defined.

Lemma timetable_cell_witness :
  ∃ grid, timetableGrid sampleCourses = Some grid ∧
          length (gridCell grid 1 1) = 2%nat.
Proof.
  destruct (timetableGrid sampleCourses) as [grid|] eqn:E;
    [|by vm_compute in E].
  exists grid. split; [reflexivity|].
  rewrite (timetable_cell sampleCourses grid 1 1); [reflexivity| |exact E].
  repeat constructor; by vm_compute.
Defined.

Lemma timetable_keys_odd_witness :
  ∃ grid cells, timetableGrid sampleCourses = Some grid ∧
                grid !! 3 = Some cells ∧ Z.odd 3 = true.
Proof.
  destruct (timetableGrid sampleCourses) as [grid|] eqn:E;
    [|by vm_compute in E].
  destruct (grid !! 3) as [cells|] eqn:E3.
  2:{ exfalso. vm_compute in E. injection E as <-. by vm_compute in E3. }
  exists grid, cells. split; [reflexivity|]. split; [exact E3|].
  apply (timetable_keys_odd sampleCourses grid 3 cells 3); [|exact E|exact E3|].
  - repeat constructor; by vm_compute.
  - vm_compute in E. injection E as <-. vm_compute in E3. injection E3 as <-.
    vm_compute. by eexists.
Defined.
